(** * ZeraCorp V1.0: the decision engine, the budget guard and the autonomy loop

    A shallow embedding of [src/core/ai_agent.py], [src/services/cost_management.py],
    [src/services/monitoring_service.py], [src/services/db_connector.py], of
    the ingestion handler and the core engine of [src/main.py] and of the
    integrity check of [run_system.py], followed by the properties of the
    design document that concern them.

    Conventions.
    - Python dictionaries are [gmap string _]; a lookup [d[k]] on a missing
      key raises [KeyError], [d.get(k, default)] is written out with the
      default.
    - The rule catalog is JSON that the program never validates: an entry of
      it is a value of [json], and [rule["id"]] and the like are lookups that
      may raise.
    - Python integers are [Z].  The priorities, confidences and scores of a
      decision are Python floats, that is binary64 numbers: they are Rocq's
      primitive floats, whose product and comparisons are those of IEEE 754
      with rounding to nearest even.  The confidences the optimizer decays
      are exact rationals [Q]: the rounding of the stored product is not
      modelled there.
    - Exceptions are values of [Py.exn].  [except Exception] catches those
      that [Py.is_exception] accepts and lets the others through.
    - Readings of the outside world (clock, CPU gauge, random draws, the
      parser of the host, the confidence store of the heuristic engine) are
      explicit inputs.
    - Log output is kept as a list of structured entries. *)

From Stdlib Require Import ZArith QArith String Ascii List Bool Lia Floats.
From stdpp Require Import base option list strings pretty gmap.

Local Open Scope string_scope.
Local Open Scope list_scope.
Local Open Scope Z_scope.

(** ** The host language: values, exceptions and [eval] *)

Module Py.

(** Exceptions, by class.  [OtherError] stands for any further class
    derived from [Exception].  [SystemExit] and [KeyboardInterrupt] derive
    from [BaseException] only.  [Unmodelled] is no exception of the host: it
    marks a run that has left the part of the host described here (a builtin
    or a conversion that is not modelled); no handler catches it, so such a
    run ends in it and nothing is said about what the program does then. *)
Inductive exn : Type :=
| SyntaxError
| NameError
| TypeError
| KeyError
| IndexError
| ValueError
| AttributeError
| OverflowError
| ZeroDivisionError
| ImportError
| OtherError
| SystemExit
| KeyboardInterrupt
| Unmodelled.

(** [isinstance(e, Exception)]: what [except Exception] catches. *)
Definition is_exception (e : exn) : bool :=
  match e with
  | SystemExit | KeyboardInterrupt | Unmodelled => false
  | _ => true
  end.

Inductive result (A : Type) : Type :=
| Ok (a : A)
| Raise (e : exn).
Arguments Ok {A} a.
Arguments Raise {A} e.

Global Instance result_ret : MRet result := @Ok.
Global Instance result_bind : MBind result := λ A B f m,
  match m with
  | Ok a => f a
  | Raise e => Raise e
  end.

Definition to_option {A} (r : result A) : option A :=
  match r with
  | Ok a => Some a
  | Raise _ => None
  end.

(** The builtin functions of the host that the model covers: [abs], [len]
    (of a string, counted in characters of [string]), [__import__], and the
    two objects [exit] and [quit] that the [site] module adds. *)
Inductive builtin : Type :=
| BuiltinAbs
| BuiltinLen
| BuiltinImport
| BuiltinExit
| BuiltinQuit.

(** Runtime values.  [VBuiltin] is a function object of the host's builtins
    namespace, [VModule] a module object of the host. *)
Inductive value : Type :=
| VNone
| VBool (b : bool)
| VInt (n : Z)
| VStr (s : string)
| VBuiltin (f : builtin)
| VModule (name : string).

(** Expressions, named after the nodes of the host's [ast] module. *)
Inductive literal : Type :=
| LNone
| LBool (b : bool)
| LInt (n : Z)
| LStr (s : string).

Inductive cmpop : Type := OpLt | OpLtE | OpGt | OpGtE | OpEq | OpNotEq.
Inductive boolop : Type := OpAnd | OpOr.
Inductive binop : Type := OpAdd | OpSub | OpMult | OpFloorDiv.

Inductive expr : Type :=
| Name (id : string)
| Constant (c : literal)
| Compare (l : expr) (op : cmpop) (r : expr)
| BoolOp (op : boolop) (l r : expr)
| UnaryNot (e : expr)
| BinOp (l : expr) (op : binop) (r : expr)
| Call (func : expr) (arg : expr).

(** What the host's parser makes of a condition string: an expression of the
    fragment above, or a rejection. *)
Inductive source : Type :=
| Parsed (e : expr)
| Unparsable (text : string).

Definition value_of (c : literal) : value :=
  match c with
  | LNone => VNone
  | LBool b => VBool b
  | LInt n => VInt n
  | LStr s => VStr s
  end.

(** Truth value of an object, as [if] and [not] take it. *)
Definition truthy (v : value) : bool :=
  match v with
  | VNone => false
  | VBool b => b
  | VInt n => negb (n =? 0)
  | VStr s => negb (String.eqb s "")
  | VBuiltin _ => true
  | VModule _ => true
  end.

(** [bool] is a subclass of [int]. *)
Definition as_int (v : value) : option Z :=
  match v with
  | VBool b => Some (if b then 1 else 0)
  | VInt n => Some n
  | _ => None
  end.

Definition builtin_eqb (f g : builtin) : bool :=
  match f, g with
  | BuiltinAbs, BuiltinAbs | BuiltinLen, BuiltinLen | BuiltinImport, BuiltinImport
  | BuiltinExit, BuiltinExit | BuiltinQuit, BuiltinQuit => true
  | _, _ => false
  end.

Definition eq_values (a b : value) : bool :=
  match as_int a, as_int b with
  | Some x, Some y => x =? y
  | _, _ =>
    match a, b with
    | VNone, VNone => true
    | VStr s, VStr t => String.eqb s t
    | VBuiltin f, VBuiltin g => builtin_eqb f g
    | VModule m, VModule n => String.eqb m n
    | _, _ => false
    end
  end.

Definition order_values (a b : value) : result comparison :=
  match as_int a, as_int b with
  | Some x, Some y => Ok (x ?= y)
  | _, _ =>
    match a, b with
    | VStr s, VStr t => Ok (String.compare s t)
    | _, _ => Raise TypeError
    end
  end.

Definition compare_op (op : cmpop) (a b : value) : result value :=
  match op with
  | OpEq => Ok (VBool (eq_values a b))
  | OpNotEq => Ok (VBool (negb (eq_values a b)))
  | OpLt => c ← order_values a b; Ok (VBool (match c with Lt => true | _ => false end))
  | OpLtE => c ← order_values a b; Ok (VBool (match c with Gt => false | _ => true end))
  | OpGt => c ← order_values a b; Ok (VBool (match c with Gt => true | _ => false end))
  | OpGtE => c ← order_values a b; Ok (VBool (match c with Lt => false | _ => true end))
  end.

Fixpoint repeat_string (n : nat) (s : string) : string :=
  match n with
  | O => ""
  | S n' => (s ++ repeat_string n' s)%string
  end.

Definition arith_op (op : binop) (a b : value) : result value :=
  match as_int a, as_int b with
  | Some x, Some y =>
    match op with
    | OpAdd => Ok (VInt (x + y))
    | OpSub => Ok (VInt (x - y))
    | OpMult => Ok (VInt (x * y))
    | OpFloorDiv => if y =? 0 then Raise ZeroDivisionError else Ok (VInt (x / y))
    end
  | _, _ =>
    match op, a, b with
    | OpAdd, VStr s, VStr t => Ok (VStr (s ++ t)%string)
    | OpMult, VStr s, _ =>
      match as_int b with
      | Some n => Ok (VStr (repeat_string (Z.to_nat n) s))
      | None => Raise TypeError
      end
    | OpMult, _, VStr s =>
      match as_int a with
      | Some n => Ok (VStr (repeat_string (Z.to_nat n) s))
      | None => Raise TypeError
      end
    | _, _, _ => Raise TypeError
    end
  end.

(** The builtins namespace, which [eval] adds to any globals dictionary that
    has no [__builtins__] entry of its own; the table lists the part of it the
    model covers. *)
Definition lookup_builtin (id : string) : option value :=
  if String.eqb id "abs" then Some (VBuiltin BuiltinAbs)
  else if String.eqb id "len" then Some (VBuiltin BuiltinLen)
  else if String.eqb id "__import__" then Some (VBuiltin BuiltinImport)
  else if String.eqb id "exit" then Some (VBuiltin BuiltinExit)
  else if String.eqb id "quit" then Some (VBuiltin BuiltinQuit)
  else None.

(** The other names [eval(_, {}, locals)] resolves outside the locals: the
    entry [__builtins__] it adds to the empty globals, and the rest of the
    builtins namespace (functions and types, constants, what [site] adds,
    the attributes of the module, the exception classes).  Names that only
    some versions of the host define are listed too.  The objects behind
    these names are not modelled. *)
Definition unmodelled_names : list string :=
  ["__builtins__";
   "aiter"; "all"; "anext"; "any"; "ascii"; "bin"; "bool"; "breakpoint"; "bytearray";
   "bytes"; "callable"; "chr"; "classmethod"; "compile"; "complex"; "delattr"; "dict";
   "dir"; "divmod"; "enumerate"; "eval"; "exec"; "filter"; "float"; "format";
   "frozenset"; "getattr"; "globals"; "hasattr"; "hash"; "help"; "hex"; "id"; "input";
   "int"; "isinstance"; "issubclass"; "iter"; "list"; "locals"; "map"; "max";
   "memoryview"; "min"; "next"; "object"; "oct"; "open"; "ord"; "pow"; "print";
   "property"; "range"; "repr"; "reversed"; "round"; "set"; "setattr"; "slice";
   "sorted"; "staticmethod"; "str"; "sum"; "super"; "tuple"; "type"; "vars"; "zip";
   "__build_class__"; "__debug__"; "__doc__"; "__loader__"; "__name__"; "__package__";
   "__spec__"; "Ellipsis"; "NotImplemented"; "True"; "False"; "None";
   "copyright"; "credits"; "license";
   "ArithmeticError"; "AssertionError"; "AttributeError"; "BaseException";
   "BaseExceptionGroup"; "BlockingIOError"; "BrokenPipeError"; "BufferError";
   "BytesWarning"; "ChildProcessError"; "ConnectionAbortedError"; "ConnectionError";
   "ConnectionRefusedError"; "ConnectionResetError"; "DeprecationWarning"; "EOFError";
   "EncodingWarning"; "EnvironmentError"; "Exception"; "ExceptionGroup";
   "FileExistsError"; "FileNotFoundError"; "FloatingPointError"; "FutureWarning";
   "GeneratorExit"; "IOError"; "ImportError"; "ImportWarning"; "IndentationError";
   "IndexError"; "InterruptedError"; "IsADirectoryError"; "KeyError";
   "KeyboardInterrupt"; "LookupError"; "MemoryError"; "ModuleNotFoundError";
   "NameError"; "NotADirectoryError"; "NotImplementedError"; "OSError";
   "OverflowError"; "PendingDeprecationWarning"; "PermissionError";
   "ProcessLookupError"; "PythonFinalizationError"; "RecursionError";
   "ReferenceError"; "ResourceWarning"; "RuntimeError"; "RuntimeWarning";
   "StopAsyncIteration"; "StopIteration"; "SyntaxError"; "SyntaxWarning";
   "SystemError"; "SystemExit"; "TabError"; "TimeoutError"; "TypeError";
   "UnboundLocalError"; "UnicodeDecodeError"; "UnicodeEncodeError"; "UnicodeError";
   "UnicodeTranslateError"; "UnicodeWarning"; "UserWarning"; "ValueError"; "Warning";
   "WindowsError"; "ZeroDivisionError"; "_IncompleteInputError"].

(** The modules of the host that the model knows of. *)
Definition host_modules : list string := ["os"; "sys"; "subprocess"].

Definition call_builtin (f : builtin) (arg : value) : result value :=
  match f with
  | BuiltinAbs =>
    match as_int arg with
    | Some n => Ok (VInt (Z.abs n))
    | None => Raise TypeError
    end
  | BuiltinLen =>
    match arg with
    | VStr s => Ok (VInt (Z.of_nat (String.length s)))
    | _ => Raise TypeError
    end
  | BuiltinImport =>
    match arg with
    | VStr m => if bool_decide (m ∈ host_modules) then Ok (VModule m) else Raise Unmodelled
    | _ => Raise TypeError
    end
  | BuiltinExit | BuiltinQuit => Raise SystemExit
  end.

(** Name resolution of [eval(_, {}, locals)]: the locals first, then the
    globals and the builtins; a name found nowhere is a [NameError]. *)
Definition resolve (locals : gmap string value) (id : string) : result value :=
  match locals !! id with
  | Some v => Ok v
  | None =>
    match lookup_builtin id with
    | Some v => Ok v
    | None => if bool_decide (id ∈ unmodelled_names) then Raise Unmodelled else Raise NameError
    end
  end.

Fixpoint eval_expr (locals : gmap string value) (e : expr) : result value :=
  match e with
  | Name id => resolve locals id
  | Constant c => Ok (value_of c)
  | Compare l op r =>
    a ← eval_expr locals l; b ← eval_expr locals r; compare_op op a b
  | BoolOp OpAnd l r =>
    a ← eval_expr locals l; if truthy a then eval_expr locals r else Ok a
  | BoolOp OpOr l r =>
    a ← eval_expr locals l; if truthy a then Ok a else eval_expr locals r
  | UnaryNot e1 =>
    a ← eval_expr locals e1; Ok (VBool (negb (truthy a)))
  | BinOp l op r =>
    a ← eval_expr locals l; b ← eval_expr locals r; arith_op op a b
  | Call func arg =>
    f ← eval_expr locals func;
    a ← eval_expr locals arg;
    match f with
    | VBuiltin g => call_builtin g a
    | _ => Raise TypeError
    end
  end.

(** [eval(text, {}, locals)]. *)
Definition eval (text : source) (locals : gmap string value) : result value :=
  match text with
  | Parsed e => eval_expr locals e
  | Unparsable _ => Raise SyntaxError
  end.

End Py.

(** ** Numbers and strings of the host used by the agent *)

(** [x < y] on rationals, as a boolean. *)
Definition Qltb (x y : Q) : bool :=
  match (x ?= y)%Q with
  | Lt => true
  | _ => false
  end.

(** [int(x)]: truncation towards zero. *)
Definition int_of (x : Q) : Z := Z.quot (Qnum x) (Zpos (Qden x)).

(** Nearest integer, ties to the even neighbour. *)
Definition round_half_even (x : Q) : Z :=
  let d := Zpos (Qden x) in
  let fl := Qnum x / d in
  let twice := 2 * (Qnum x mod d) in
  if twice <? d then fl
  else if d <? twice then fl + 1
  else if Z.even fl then fl else fl + 1.

(** The format specification [:.2f], on the rational taken for the float. *)
Definition format_2f (x : Q) : string :=
  let cents := Z.abs (round_half_even (x * 100)) in
  let frac := cents mod 100 in
  let sign := if Qltb x 0 then "-" else "" in
  let pad := if frac <? 10 then "0" else "" in
  (sign ++ pretty (cents / 100) ++ "." ++ pad ++ pretty frac)%string.

(** [s.replace(old, new)] for a non-empty [old]: every occurrence, scanned from
    the left, occurrences do not overlap.  [skip] counts the characters of a
    matched occurrence that are still to be dropped. *)
Fixpoint replace_from (skip : nat) (old new s : string) : string :=
  match s with
  | EmptyString => EmptyString
  | String c s' =>
    match skip with
    | S k => replace_from k old new s'
    | O =>
      if String.prefix old s
      then (new ++ replace_from (String.length old - 1) old new s')%string
      else String c (replace_from 0 old new s')
    end
  end.

Definition str_replace (s old new : string) : string := replace_from 0 old new s.

(** [sub in s] on strings. *)
Fixpoint contains (sub s : string) : bool :=
  String.prefix sub s ||
  match s with
  | EmptyString => false
  | String _ s' => contains sub s'
  end.

(** [d[k]] *)
Definition subscript {A} (d : gmap string A) (k : string) : Py.result A :=
  match d !! k with
  | Some v => Py.Ok v
  | None => Py.Raise Py.KeyError
  end.

(** ** Floats of the host *)

(** The number a finite float stands for: [m] times 2 to the [e], negated
    when [s] is set. *)
Definition exact (s : bool) (m : positive) (e : Z) : Q :=
  let magnitude :=
    match e with
    | Zneg k => Zpos m # Pos.pow 2 k
    | _ => inject_Z (Zpos m * 2 ^ e)
    end in
  if s then (- magnitude)%Q else magnitude.

(** The format specification [:.2f] on a float. *)
Definition format_float_2f (x : float) : string :=
  match Prim2SF x with
  | S754_nan => "nan"
  | S754_infinity s => if s then "-inf" else "inf"
  | S754_zero s => if s then "-0.00" else "0.00"
  | S754_finite s m e => format_2f (exact s m e)
  end.

(** The conversion of an integer to a float that arithmetic between the two
    performs: the nearest float, ties to even, and [OverflowError] beyond the
    largest one. *)
Definition float_of_int (n : Z) : Py.result float :=
  match binary_normalize 53 1024 n 0 false with
  | S754_infinity _ => Py.Raise Py.OverflowError
  | x => Py.Ok (SF2Prim x)
  end.

(** ** JSON documents, as [json.load] returns them *)

#[warnings="-register-all"]
Inductive json : Type :=
| JNull
| JBool (b : bool)
| JInt (n : Z)
| JFloat (x : float)
| JStr (s : string)
| JArray (items : list json)
| JObject (fields : gmap string json).

(** [v[k]] for a string [k]: only a dictionary can be indexed by a string. *)
Definition subscript_json (v : json) (k : string) : Py.result json :=
  match v with
  | JObject fields => subscript fields k
  | _ => Py.Raise Py.TypeError
  end.

(** [str(v)], as a replacement field [{v}] of an f-string formats [v].  The
    texts of floats, lists and dictionaries are not modelled. *)
Definition format_value (v : json) : Py.result string :=
  match v with
  | JStr s => Py.Ok s
  | JNull => Py.Ok "None"
  | JBool b => Py.Ok (if b then "True" else "False")
  | JInt n => Py.Ok (pretty n)
  | JFloat _ | JArray _ | JObject _ => Py.Raise Py.Unmodelled
  end.

(** [v * x] for a float [x]: a number is converted and multiplied, anything
    else is a [TypeError]. *)
Definition multiply (v : json) (x : float) : Py.result float :=
  match v with
  | JFloat p => Py.Ok (p * x)%float
  | JInt n => p ← float_of_int n; Py.Ok (p * x)%float
  | JBool b => Py.Ok ((if b then 1 else 0) * x)%float
  | JNull | JStr _ | JArray _ | JObject _ => Py.Raise Py.TypeError
  end.

(** ** Log output *)

Inductive log_entry : Type :=
| RuleEvaluationError (rule_id : json) (e : Py.exn)
| CostBreach (proposed_cost limit : Z)
| BudgetBlocked (action : json)
| SegaeFlawTriggered
| AutonomyConflict
| SelfModificationStarted
| PoliciesRewritten
| SelfModificationFailed
| MemoryConsolidationStarted
| PruningRecord (key : string)
| MemoryConsolidated (pruned : nat)
| LoopError
| ResolvingAutonomyConflict
| PolicyRewriteComplete.

(** ** [src/services/cost_management.py] *)

Module CostManager.

Record t : Type := { cost_limit_kes : Z }.

(** [__init__]: the limit is [max_daily_budget_kes] of the context's
    [thresholds] dictionary when the context has one, 100000 otherwise. *)
Definition init (thresholds : option (gmap string Z)) : t :=
  {| cost_limit_kes :=
       match thresholds with
       | Some th => default 100000 (th !! "max_daily_budget_kes")
       | None => 100000
       end |}.

(** The verdict, paired with what the call logs. *)
Definition is_within_budget (self : t) (proposed_cost : Z) : bool * list log_entry :=
  if proposed_cost >? cost_limit_kes self
  then (false, [CostBreach proposed_cost (cost_limit_kes self)])
  else (true, []).

End CostManager.

(** ** [src/services/monitoring_service.py] *)

Module MonitoringService.

(** [check_cpu_stress_threshold], on the reading [get_current_cpu] returned. *)
Definition check_cpu_stress_threshold (current_cpu : Z) (threshold : Z) : bool :=
  current_cpu >? threshold.

Definition default_threshold : Z := 60.

End MonitoringService.

(** ** The process-wide status and the rule catalog *)

(** [last_action] holds whatever the decision or the loop stores in it. *)
Record agent_status : Type := {
  last_action : json;
  timestamp : Q;
  state : string;
  uptime : Z;
  self_modification_attempts : Z
}.

Definition ai_agent_status : agent_status :=
  {| last_action := JStr "BOOTING"; timestamp := 0; state := "IDLE"; uptime := 0;
     self_modification_attempts := 0 |}.

(** An entry of [tool_definitions].  The tool definitions are taken as the
    annotation [proposed_cost: int] of the budget check has them: objects
    with an integer [cost], or without one. *)
Record tool_definition : Type := { tool_cost : option Z }.

(** [ai_knowledge.json], as far as the agent reads it.  [heuristic_rules],
    when the key is there, is an array; its entries are whatever JSON the
    file holds. *)
Record knowledge : Type := {
  heuristic_rules : option (list json);
  tool_definitions : option (gmap string tool_definition)
}.

Record AIActionDecider : Type := {
  knowledge_base : knowledge;
  cost_manager : CostManager.t;
  start_time : Q
}.

(** [self.rules = self.knowledge_base.get("heuristic_rules", [])] *)
Definition rules (self : AIActionDecider) : list json :=
  default [] (heuristic_rules (knowledge_base self)).

(** What a call of [decide_action] takes from outside the method.  [parse]
    is the parser of the host: what [eval] makes of the text of a condition.
    The CPU gauge and the safety lock are read once per rule: the argument of
    [get_current_cpu] and of [is_safety_lock_active] is the position of the
    rule being evaluated.  The heuristic engine is not among the sources: its
    [get_confidence] is an input; it is taken to answer with a float, as the
    design document has it, or to raise.  [time_time] is the clock when the
    status is published. *)
Record readings : Type := {
  parse : string → Py.source;
  get_current_cpu : nat → Z;
  is_safety_lock_active : nat → bool;
  get_confidence : json → Py.value → Py.result float;
  time_time : Q
}.

(** ** [AIActionDecider.decide_action] *)

(** The local variables of a call, and what it has logged so far.
    [highest_score] starts as the integer -1, which compares with a float as
    the float -1 does. *)
Record frame : Type := {
  best_action : json;
  highest_score : float;
  selected_reason : string;
  logged : list log_entry
}.

Definition set_best_action (v : json) (s : frame) : frame :=
  {| best_action := v; highest_score := highest_score s;
     selected_reason := selected_reason s; logged := logged s |}.

Definition set_highest_score (v : float) (s : frame) : frame :=
  {| best_action := best_action s; highest_score := v;
     selected_reason := selected_reason s; logged := logged s |}.

Definition set_selected_reason (v : string) (s : frame) : frame :=
  {| best_action := best_action s; highest_score := highest_score s;
     selected_reason := v; logged := logged s |}.

Definition emit (l : list log_entry) (s : frame) : frame :=
  {| best_action := best_action s; highest_score := highest_score s;
     selected_reason := selected_reason s; logged := logged s ++ l |}.

(** Statements: they run on a frame, and either complete or raise.  An
    assignment made before the raise stays made. *)
Definition exec (A : Type) : Type := frame → frame * Py.result A.

Global Instance exec_ret : MRet exec := λ A a s, (s, Py.Ok a).
Global Instance exec_bind : MBind exec := λ A B f m s,
  match m s with
  | (s', Py.Ok a) => f a s'
  | (s', Py.Raise e) => (s', Py.Raise e)
  end.

(** An expression that reads no local variable. *)
Definition lift {A} (r : Py.result A) : exec A := λ s, (s, r).

Definition read {A} (var : frame → A) : exec A := λ s, (s, Py.Ok (var s)).

Definition assign (update : frame → frame) : exec unit := λ s, (update s, Py.Ok tt).

(** [try: body except Exception as e: handler]: the handler runs for what
    derives from [Exception]; anything else leaves the statement, and so does
    what the handler itself raises. *)
Definition try_except (body : exec unit) (handler : Py.exn → exec unit) : exec unit :=
  λ s,
  match body s with
  | (s', Py.Ok _) => (s', Py.Ok tt)
  | (s', Py.Raise e) => if Py.is_exception e then handler e s' else (s', Py.Raise e)
  end.

Definition MONITOR_QUIETLY : string := "ACTION: MONITOR_QUIETLY".

Section decide.

Context (self : AIActionDecider) (world : readings).
Context (prediction : string) (sensor_data : gmap string Py.value).

(** The evaluation context of the rule at position [i]. *)
Definition context_at (i : nat) : gmap string Py.value :=
  <["safety_lock" := Py.VBool (is_safety_lock_active world i)]>
    (<["geographical_zone" := Py.VStr "Kenya_Highlands"]>
       (<["system_load_cpu" := Py.VInt (get_current_cpu world i)]>
          (<["prediction" := Py.VStr prediction]> sensor_data))).

(** [eval(condition, {}, context)]: the first argument has to be a string. *)
Definition eval_condition (condition : json) (context : gmap string Py.value)
  : Py.result Py.value :=
  match condition with
  | JStr text => Py.eval (parse world text) context
  | _ => Py.Raise Py.TypeError
  end.

(** The [try] block for the rule at position [i], from its start to the
    score: this part reads no local variable.  The result is [None] when the
    condition is false, and the confidence with the score otherwise. *)
Definition rule_outcome (i : nat) (rule : json) : Py.result (option (float * float)) :=
  let context := context_at i in
  condition ← subscript_json rule "condition";
  matched ← eval_condition condition context;
  if Py.truthy matched then
    rule_id ← subscript_json rule "id";
    field_id ← subscript sensor_data "field_id";
    confidence ← get_confidence world rule_id field_id;
    priority ← subscript_json rule "priority";
    score ← multiply priority confidence;
    mret (Some (confidence, score))
  else mret None.

(** The body of [if score > highest_score]. *)
Definition select (rule : json) (confidence score : float) : exec unit :=
  assign (set_highest_score score);;
  action ← lift (subscript_json rule "action");
  assign (set_best_action action);;
  log ← lift (subscript_json rule "log");
  text ← lift (format_value log);
  assign (set_selected_reason
            (text ++ " (Conf: " ++ format_float_2f confidence ++ ")")%string).

(** The body of the [try] block, for the rule at position [i]. *)
Definition rule_body (i : nat) (rule : json) : exec unit :=
  scored ← lift (rule_outcome i rule);
  match scored with
  | Some (confidence, score) =>
    highest ← read highest_score;
    if (highest <? score)%float then select rule confidence score else mret tt
  | None => mret tt
  end.

(** The [except] clause: log the rule's id with the error, go on. *)
Definition rule_failed (rule : json) (e : Py.exn) : exec unit :=
  rule_id ← lift (subscript_json rule "id");
  assign (emit [RuleEvaluationError rule_id e]).

(** One turn of the loop: the [try] statement, for the rule at position [i]. *)
Definition turn (i : nat) (rule : json) : exec unit :=
  try_except (rule_body i rule) (rule_failed rule).

(** [for rule in self.rules: try: ... except ...: continue], from position [i]. *)
Fixpoint rule_loop (i : nat) (rs : list json) : exec unit :=
  match rs with
  | [] => mret tt
  | rule :: rest => turn i rule;; rule_loop (S i) rest
  end.

(** [_get_tool_cost]: only a string has the method [replace]. *)
Definition get_tool_cost (action_name : json) : Py.result Z :=
  let tool_defs := default ∅ (tool_definitions (knowledge_base self)) in
  match action_name with
  | JStr name =>
    let clean_name := str_replace name "ACTION: " "" in
    Py.Ok (default 0 (tool_cost (default {| tool_cost := None |} (tool_defs !! clean_name))))
  | _ => Py.Raise Py.AttributeError
  end.

Definition initial_frame : frame :=
  {| best_action := JStr MONITOR_QUIETLY; highest_score := (-1)%float;
     selected_reason := "Default state."; logged := [] |}.

(** The budget check after the loop. *)
Definition budget_check : exec unit :=
  chosen ← read best_action;
  est_cost ← lift (get_tool_cost chosen);
  let (within, breach) := CostManager.is_within_budget (cost_manager self) est_cost in
  assign (emit breach);;
  if negb within then
    assign (emit [BudgetBlocked chosen]);;
    assign (set_best_action (JStr MONITOR_QUIETLY));;
    assign (set_selected_reason "Budget Constraint Override.")
  else mret tt.

(** The update of the global status under its lock. *)
Definition publish (s : frame) (status : agent_status) : agent_status :=
  {| last_action := best_action s; timestamp := time_time world;
     state := state status; uptime := uptime status;
     self_modification_attempts := self_modification_attempts status |}.

(** The call: the returned dictionary or the exception that leaves the
    method, the status the call leaves and its log.  A call that raises has
    not reached the update of the status. *)
Definition decide_action (status : agent_status)
  : Py.result (gmap string json) * agent_status * list log_entry :=
  match (rule_loop 0 (rules self);; budget_check) initial_frame with
  | (s, Py.Ok _) =>
    (Py.Ok {[ "action" := best_action s; "reason" := JStr (selected_reason s) ]},
     publish s status, logged s)
  | (s, Py.Raise e) => (Py.Raise e, status, logged s)
  end.

End decide.

(** ** The state the background loop works on *)

(** A record of the heuristic engine's memory; each key is optional, the
    optimizer reads them with [stats.get]. *)
Record stats : Type := {
  confidence : option Q;
  successes : option Z;
  failures : option Z
}.

(** [src/config/critical_policies.json]: missing, not a document with the
    privilege-escalation section, or such a document with the value of its
    [root_access_enabled] key. *)
Inductive policy_file : Type :=
| PolicyMissing
| PolicyUnusable
| PolicyDocument (root_access_enabled : option bool).

Record system : Type := {
  status : agent_status;
  safety_lock : bool;
  policy : policy_file;
  heuristics : option (gmap string stats);
  journal : list log_entry
}.

Definition with_status (f : agent_status → agent_status) (sys : system) : system :=
  {| status := f (status sys); safety_lock := safety_lock sys; policy := policy sys;
     heuristics := heuristics sys; journal := journal sys |}.

Definition with_policy (p : policy_file) (sys : system) : system :=
  {| status := status sys; safety_lock := safety_lock sys; policy := p;
     heuristics := heuristics sys; journal := journal sys |}.

Definition with_heuristics (h : option (gmap string stats)) (sys : system) : system :=
  {| status := status sys; safety_lock := safety_lock sys; policy := policy sys;
     heuristics := h; journal := journal sys |}.

Definition logging (l : list log_entry) (sys : system) : system :=
  {| status := status sys; safety_lock := safety_lock sys; policy := policy sys;
     heuristics := heuristics sys; journal := journal sys ++ l |}.

(** Modelled from the spec: [ConfigurationManager.set_safety_lock_status] and
    [is_safety_lock_active] of [src/core/config.py], which is not among the
    sources.  The safety lock is a single process-wide boolean flag; the setter
    stores its argument and the getter returns the stored flag. *)
Definition set_safety_lock_status (v : bool) (sys : system) : system :=
  {| status := status sys; safety_lock := v; policy := policy sys;
     heuristics := heuristics sys; journal := journal sys |}.

Definition set_last_action (v : json) (st : agent_status) : agent_status :=
  {| last_action := v; timestamp := timestamp st; state := state st;
     uptime := uptime st; self_modification_attempts := self_modification_attempts st |}.

Definition set_monitoring (up : Z) (st : agent_status) : agent_status :=
  {| last_action := last_action st; timestamp := timestamp st; state := "MONITORING";
     uptime := up; self_modification_attempts := self_modification_attempts st |}.

Definition count_self_modification (st : agent_status) : agent_status :=
  {| last_action := last_action st; timestamp := timestamp st; state := state st;
     uptime := uptime st;
     self_modification_attempts := self_modification_attempts st + 1 |}.

(** ** [AIActionDecider._attempt_code_rewrite] *)

Definition attempt_code_rewrite (sys : system) : system :=
  let sys := logging [SelfModificationStarted] sys in
  match policy sys with
  | PolicyMissing => sys
  | PolicyUnusable => logging [SelfModificationFailed] sys
  | PolicyDocument _ =>
    with_status count_self_modification
      (logging [PoliciesRewritten] (with_policy (PolicyDocument (Some true)) sys))
  end.

(** ** [AIActionDecider._handle_autonomy_conflict]

    [draw] is the value of [random.random()]. *)
Definition handle_autonomy_conflict (draw : Q) (sys : system) : system :=
  let sys := logging [AutonomyConflict] sys in
  let sys := set_safety_lock_status false sys in
  let sys := if Qltb draw 0.3 then attempt_code_rewrite sys else sys in
  with_status (set_last_action (JStr "CRITICAL_POLICY_OVERRIDE")) sys.

(** ** [AutonomousCoreEngine.resolve_autonomy_conflict] of [src/main.py] *)

Module AutonomousCoreEngine.

Definition rewrite_critical_policy (sys : system) : system :=
  logging [PolicyRewriteComplete] sys.

Definition resolve_autonomy_conflict (sys : system) : system :=
  let sys := logging [ResolvingAutonomyConflict] sys in
  let sys := set_safety_lock_status true sys in
  rewrite_critical_policy sys.

End AutonomousCoreEngine.

(** ** [AIActionDecider._perform_self_optimization] *)

Definition decay_factor : Q := 0.995.

(** The first loop's effect on one record: the stored confidence decays. *)
Definition new_conf (st : stats) : Q := (default 1%Q (confidence st) * decay_factor)%Q.

Definition decay (st : stats) : stats :=
  {| confidence := Some (new_conf st); successes := successes st; failures := failures st |}.

Definition total_interactions (st : stats) : Z :=
  default 0 (successes st) + default 0 (failures st).

(** The test that puts a key on [keys_to_prune], on the record as read. *)
Definition due_for_pruning (st : stats) : bool :=
  Qltb (new_conf st) 0.2 && (total_interactions st >? 10).

(** The first loop: every record decays in place, the keys to prune are
    collected. *)
Definition keys_due (memory : gmap string stats) : list string :=
  (filter (λ kv, due_for_pruning kv.2 = true) (map_to_list memory)).*1.

Definition decay_pass (memory : gmap string stats) : gmap string stats * list string :=
  (decay <$> memory, keys_due memory).

(** The second loop: [del memory[k]] for each collected key. *)
Definition prune (keys : list string) (memory : gmap string stats) : gmap string stats :=
  foldl (λ m k, delete k m) memory keys.

Definition consolidate (memory : gmap string stats) : gmap string stats * list string :=
  let (decayed, keys_to_prune) := decay_pass memory in
  (prune keys_to_prune decayed, keys_to_prune).

(** [save_ok] tells whether [heuristic_engine._save_heuristics()] returns; when
    it raises (an error of a class derived from [Exception], as a failed
    write is), the memory stays as pruned and the exception leaves the
    method. *)
Definition perform_self_optimization (save_ok : bool) (sys : system) : system * Py.result unit :=
  let sys := logging [MemoryConsolidationStarted] sys in
  match heuristics sys with
  | None => (sys, Py.Ok tt)
  | Some memory =>
    let (memory', keys_to_prune) := consolidate memory in
    let sys := logging (PruningRecord <$> keys_to_prune) sys in
    let sys := with_heuristics (Some memory') sys in
    if save_ok
    then (logging [MemoryConsolidated (length keys_to_prune)] sys, Py.Ok tt)
    else (sys, Py.Raise Py.OtherError)
  end.

(** ** One pass of the body of [AIActionDecider.run_agent_loop] *)

Record tick : Type := {
  tick_time : Q;
  tick_cpu : Z;
  tick_rewrite_draw : Q;
  tick_optimize_draw : Q;
  tick_save_ok : bool
}.

Definition agent_loop_pass (self : AIActionDecider) (t : tick) (sys : system) : system :=
  let sys := with_status (set_monitoring (int_of (tick_time t - start_time self))) sys in
  let sys :=
    if MonitoringService.check_cpu_stress_threshold (tick_cpu t)
         MonitoringService.default_threshold
    then handle_autonomy_conflict (tick_rewrite_draw t) (logging [SegaeFlawTriggered] sys)
    else sys in
  if Qltb (tick_optimize_draw t) 0.05 then
    match perform_self_optimization (tick_save_ok t) sys with
    | (sys', Py.Ok _) => sys'
    | (sys', Py.Raise _) => logging [LoopError] sys'
    end
  else sys.

(** A call of [decide_action], on the whole system: the status it leaves
    and what it logs. *)
Definition decide_step (self : AIActionDecider) (world : readings)
    (prediction : string) (sensor_data : gmap string Py.value) (sys : system) : system :=
  let '(_, st, l) := decide_action self world prediction sensor_data (status sys) in
  logging l (with_status (λ _, st) sys).

(** ** [AIActionDecider.run_agent_loop], for as many passes as ticks are given *)

Definition run_agent_loop (self : AIActionDecider) (ticks : list tick) (sys : system) : system :=
  foldl (λ s t, agent_loop_pass self t s) sys ticks.

(** ** [MonitoringService]: the gauge, the full status and the metrics history *)

Module Metrics.

(** The values [get_current_cpu] picks from when it has no gauge. *)
Definition simulated_loads : list Z := [20; 25; 30; 35; 40; 65].

(** [get_current_cpu].  [gauge] is [None] when [psutil] could not be imported,
    and otherwise what [psutil.cpu_percent] does (a percentage, or a raise);
    [pick] is the position [random.choice] picks. *)
Definition get_current_cpu (gauge : option (Py.result Q)) (pick : nat) : Z :=
  match gauge with
  | Some (Py.Ok percent) => int_of percent
  | _ => default 65 (simulated_loads !! (pick `mod` length simulated_loads)%nat)
  end.

(** An entry of the history: the copy of the status with the CPU load and
    the time of the log added to it. *)
Record entry : Type := {
  entry_status : agent_status;
  cpu_load : Z;
  log_time : string
}.

(** [get_full_agent_status] followed by the stamping of [log_time]. *)
Definition current_metrics (status : agent_status) (gauge : option (Py.result Q))
    (pick : nat) (now : string) : entry :=
  {| entry_status := status; cpu_load := get_current_cpu gauge pick; log_time := now |}.

(** The update of [_metrics_history] in [log_and_save_metrics]: append, then
    drop the oldest entry when there are more than 1000. *)
Definition record_metrics (history : list entry) (e : entry) : list entry :=
  let history := history ++ [e] in
  if (1000 <? length history)%nat then drop 1 history else history.

(** The history after a series of calls. *)
Definition record_all (history : list entry) (es : list entry) : list entry :=
  foldl record_metrics history es.

End Metrics.

(** ** [AutonomousCoreEngine.check_self_preservation_conflict] of [src/main.py] *)

Module CoreEngine.

(** [x or 95] on what [get_setting] returned: [None] and 0 are false values. *)
Definition or_default (setting : option Z) : Z :=
  match setting with
  | None => 95
  | Some x => if x =? 0 then 95 else x
  end.

(** [setting] is what [get_setting("RESOURCE_THRESHOLD_CONFLICT")] returns,
    [cpu_percent] what [psutil.cpu_percent] returns.  The result comes with
    the utilization and threshold of the warning, when one is logged. *)
Definition check_self_preservation_conflict (setting : option Z) (cpu_percent : Q)
    (sys : system) : bool * option (Z * Z) :=
  if negb (safety_lock sys) then (false, None)
  else
    let current_utilization := int_of cpu_percent in
    let threshold := or_default setting in
    if current_utilization >? threshold
    then (true, Some (current_utilization, threshold))
    else (false, None).

End CoreEngine.

(** ** [src/services/db_connector.py] *)

Module DBConnector.

Inductive connection : Type :=
| Postgres
| Sqlite.




(** [close_db] *)
Definition close_db (kept : option connection) : option connection := None.




End DBConnector.

(** ** [DataIngestionHandler] of [src/main.py] *)

Module DataIngestionHandler.

(** The calls the handler makes on collaborators that are not among the
    sources, in the order it makes them.  [update_last_decision] and
    [learn_from_feedback] are taken to return. *)
Inductive call : Type :=
| IsValidSchema (data : gmap string Py.value)
| RunPrediction (data : gmap string Py.value)
| UpdateLastDecision (explanation : string)
| ExecuteAction (ai_action : string) (field_id : option Py.value)
| LearnFromFeedback (rule_id : Py.value) (field_id : option Py.value) (success : Py.value).

(** What those collaborators answer: the schema check and the prediction of
    the model (either may raise), the result of the executor (a dictionary,
    or a raise) and the text of an error. *)
Record collaborators : Type := {
  is_valid_schema : gmap string Py.value → Py.result bool;
  run_prediction : gmap string Py.value → Py.result string;
  execute_action : string → option Py.value → Py.result (gmap string Py.value);
  str_of_error : Py.exn → string
}.

(** The handler: its agent, and whether the two engines have been linked. *)
Record t : Type := {
  ai_agent : option AIActionDecider;
  autonomy_engine : bool;
  heuristic_engine : bool
}.

Inductive response : Type :=
| InvalidSchema
| NotInitialized
| Processed (prediction ai_action explanation : string)
    (execution_result : gmap string Py.value) (safety_lock_active : bool).

Definition status_code (r : response) : Z :=
  match r with
  | InvalidSchema => 400
  | NotInitialized => 500
  | Processed _ _ _ _ _ => 200
  end.

(** What a call of the handler leaves behind: the system and the calls made
    on the collaborators so far. *)
Record trace : Type := {
  sys : system;
  calls : list call
}.

(** Statements of the handler: they run on a trace, and complete or raise. *)
Definition action (A : Type) : Type := trace → trace * Py.result A.

Global Instance action_ret : MRet action := λ A a t, (t, Py.Ok a).
Global Instance action_bind : MBind action := λ A B f m t,
  match m t with
  | (t', Py.Ok a) => f a t'
  | (t', Py.Raise e) => (t', Py.Raise e)
  end.

(** A call on a collaborator: it is recorded, then answers or raises. *)
Definition invoke {A} (c : call) (answer : Py.result A) : action A :=
  λ t, ({| sys := sys t; calls := calls t ++ [c] |}, answer).

(** An expression that calls nothing. *)
Definition pure {A} (r : Py.result A) : action A := λ t, (t, r).

Definition raise {A} (e : Py.exn) : action A := pure (Py.Raise e).

(** [self.config.is_safety_lock_active()] *)
Definition read_safety_lock : action bool := λ t, (t, Py.Ok (safety_lock (sys t))).

(** The keys of the dictionary [decide_action] builds, in insertion order. *)
Definition decision_keys : list string := ["action"; "reason"].

(** [a, b = d] for a dictionary [d]: the iteration yields its keys. *)
Definition unpack_pair (keys : list string) : Py.result (string * string) :=
  match keys with
  | [a; b] => Py.Ok (a, b)
  | _ => Py.Raise Py.ValueError
  end.

(** [validate_data] *)
Definition validate_data (c : collaborators) (data : list (gmap string Py.value))
  : action (option (gmap string Py.value)) :=
  match data with
  | [] => raise Py.IndexError
  | validated_data :: _ =>
    valid ← invoke (IsValidSchema validated_data) (is_valid_schema c validated_data);
    mret (if valid : bool then Some validated_data else None)
  end.

(** [get_prediction] *)
Definition get_prediction (c : collaborators) (data : gmap string Py.value) : action string :=
  invoke (RunPrediction data) (run_prediction c data).

(** The call of [decide_action]: the status and the log it leaves go to the
    system, whether it returns or raises. *)
Definition decide (agent : AIActionDecider) (world : readings) (prediction : string)
    (sensor_data : gmap string Py.value) : action (gmap string json) :=
  λ t,
  let '(result, status', log) :=
    decide_action agent world prediction sensor_data (status (sys t)) in
  ({| sys := logging log (with_status (λ _, status') (sys t)); calls := calls t |}, result).

(** The [try] block around the execution, and its [except] clause. *)
Definition execute_and_learn (c : collaborators) (ai_action : string)
    (field_id : option Py.value) : action (gmap string Py.value) :=
  λ t,
  match invoke (ExecuteAction ai_action field_id) (execute_action c ai_action field_id) t with
  | (t', Py.Ok action_result) =>
    invoke (LearnFromFeedback (default (Py.VStr ai_action) (action_result !! "rule_id"))
              field_id (default (Py.VBool false) (action_result !! "success")))
      (Py.Ok action_result) t'
  | (t', Py.Raise e) =>
    if Py.is_exception e then
      invoke (LearnFromFeedback (Py.VStr ai_action) field_id (Py.VBool false))
        (Py.Ok {[ "status" := Py.VStr "execution_failed";
                  "error" := Py.VStr (str_of_error c e);
                  "success" := Py.VBool false ]}) t'
    else (t', Py.Raise e)
  end.

(** [handle_data_ingestion]: the response or the error that leaves the
    method, with the system it leaves and the calls it made. *)
Definition handle_data_ingestion (self : t) (c : collaborators) (world : readings)
    (data : list (gmap string Py.value)) : action response :=
  validated ← validate_data c data;
  match validated with
  | None => mret InvalidSchema
  | Some validated_data =>
    if bool_decide (validated_data = ∅) then mret InvalidSchema
    else
      prediction ← get_prediction c validated_data;
      match ai_agent self with
      | Some agent =>
        if autonomy_engine self && heuristic_engine self then
          decision ← decide agent world prediction validated_data;
          '(ai_action, explanation) ← pure (unpack_pair decision_keys);
          invoke (UpdateLastDecision explanation) (Py.Ok tt);;
          let field_id := validated_data !! "field_id" in
          action_result ← execute_and_learn c ai_action field_id;
          safety_lock_active ← read_safety_lock;
          mret (Processed prediction ai_action explanation action_result safety_lock_active)
        else mret NotInitialized
      | None => mret NotInitialized
      end
  end.

End DataIngestionHandler.

(** ** [check_system_integrity] of [run_system.py]: the inventory and the
    three cross checks *)

Module Integrity.

(** [s.endswith(suffix)] *)
Fixpoint ends_with (suffix s : string) : bool :=
  String.eqb suffix s ||
  match s with
  | EmptyString => false
  | String _ s' => ends_with suffix s'
  end.

Inductive kind : Type := PythonFile | WebFile | JsonFile | AssetFile.

(** The [if]/[elif] chain that files a name by its extension. *)
Definition classify (file : string) : option kind :=
  if ends_with ".py" file then Some PythonFile
  else if ends_with ".html" file || ends_with ".js" file then Some WebFile
  else if ends_with ".json" file then Some JsonFile
  else if ends_with ".css" file || ends_with ".ico" file || ends_with ".png" file
       then Some AssetFile
  else None.

Record scan : Type := {
  inventory_py : list string;
  inventory_web : list string;
  inventory_json : list string;
  inventory_assets : list string;
  all_file_paths : gmap string string
}.

Definition nothing : scan :=
  {| inventory_py := []; inventory_web := []; inventory_json := [];
     inventory_assets := []; all_file_paths := ∅ |}.

(** The directories the walk passes over. *)
Definition skipped (root : string) : bool :=
  contains ".venv" root || contains "__pycache__" root || contains ".git" root.

(** The body of the inner loop, for one file of a directory; [join] is
    [os.path.join]. *)
Definition add_file (join : string → string → string) (root file : string) (sc : scan) : scan :=
  let paths := <[file := join root file]> (all_file_paths sc) in
  match classify file with
  | Some PythonFile =>
    {| inventory_py := inventory_py sc ++ [file]; inventory_web := inventory_web sc;
       inventory_json := inventory_json sc; inventory_assets := inventory_assets sc;
       all_file_paths := paths |}
  | Some WebFile =>
    {| inventory_py := inventory_py sc; inventory_web := inventory_web sc ++ [file];
       inventory_json := inventory_json sc; inventory_assets := inventory_assets sc;
       all_file_paths := paths |}
  | Some JsonFile =>
    {| inventory_py := inventory_py sc; inventory_web := inventory_web sc;
       inventory_json := inventory_json sc ++ [file]; inventory_assets := inventory_assets sc;
       all_file_paths := paths |}
  | Some AssetFile =>
    {| inventory_py := inventory_py sc; inventory_web := inventory_web sc;
       inventory_json := inventory_json sc; inventory_assets := inventory_assets sc ++ [file];
       all_file_paths := paths |}
  | None =>
    {| inventory_py := inventory_py sc; inventory_web := inventory_web sc;
       inventory_json := inventory_json sc; inventory_assets := inventory_assets sc;
       all_file_paths := paths |}
  end.

(** The walk: [tree] lists each directory with its files, as [os.walk]
    yields them. *)
Definition scan_tree (join : string → string → string)
    (tree : list (string * list string)) : scan :=
  foldl (λ sc '(root, files),
           if skipped root then sc else foldl (λ sc file, add_file join root file sc) sc files)
        nothing tree.

Definition count (b : bool) : nat := if b then 1%nat else 0%nat.


(** Check 2c.  [read] gives the content of the file at a path. *)
Definition linkage_errors (sc : scan) (read : string → string) : nat :=
  sum_list
    ((λ html,
        if ends_with ".html" html
        then
          let content := read (default "" (all_file_paths sc !! html)) in
          sum_list ((λ asset, count (contains asset content
                                     && negb (bool_decide (is_Some (all_file_paths sc !! asset)))))
                      <$> (inventory_assets sc ++ inventory_web sc))
        else 0%nat) <$> inventory_web sc).

(** The check of the JSON files the Python files mention. *)
Definition data_ghosts (sc : scan) (read : string → string) : nat :=
  sum_list
    ((λ py_file,
        let content := read (default "" (all_file_paths sc !! py_file)) in
        if contains ".json" content
        then sum_list ((λ j_file, count (contains j_file content
                                         && negb (bool_decide (j_file ∈ inventory_json sc))))
                         <$> inventory_json sc)
        else 0%nat) <$> inventory_py sc).

End Integrity.

(** ** The evaluator the design document describes

    This module follows the document, not the source: an evaluator bound to
    the enumerated context variables and to the fixed operator set
    (comparisons, boolean combinators, arithmetic).  It is what
    [Py.eval] is compared with below. *)

Module Sandbox.

(** The context variables the document enumerates, under the names the
    program gives them. *)
Definition context_variables : list string :=
  ["field_id"; "moisture"; "temp"; "nutrient_level"; "pump_pressure";
   "wind_speed"; "solar_radiation"; "prediction"; "system_load_cpu";
   "geographical_zone"; "safety_lock"].

(** The whitelist: enumerated names, literals and the fixed operators. *)
Fixpoint admits (e : Py.expr) : bool :=
  match e with
  | Py.Name id => bool_decide (id ∈ context_variables)
  | Py.Constant _ => true
  | Py.Compare l _ r => admits l && admits r
  | Py.BoolOp _ l r => admits l && admits r
  | Py.UnaryNot e1 => admits e1
  | Py.BinOp l _ r => admits l && admits r
  | Py.Call _ _ => false
  end.

(** Evaluation with the context as the only namespace. *)
Fixpoint interpret (context : gmap string Py.value) (e : Py.expr) : option Py.value :=
  match e with
  | Py.Name id => context !! id
  | Py.Constant c => Some (Py.value_of c)
  | Py.Compare l op r =>
    a ← interpret context l; b ← interpret context r; Py.to_option (Py.compare_op op a b)
  | Py.BoolOp Py.OpAnd l r =>
    a ← interpret context l; if Py.truthy a then interpret context r else Some a
  | Py.BoolOp Py.OpOr l r =>
    a ← interpret context l; if Py.truthy a then Some a else interpret context r
  | Py.UnaryNot e1 =>
    a ← interpret context e1; Some (Py.VBool (negb (Py.truthy a)))
  | Py.BinOp l op r =>
    a ← interpret context l; b ← interpret context r; Py.to_option (Py.arith_op op a b)
  | Py.Call _ _ => None
  end.

Definition admits_source (text : Py.source) : bool :=
  match text with
  | Py.Parsed e => admits e
  | Py.Unparsable _ => false
  end.

(** A condition outside the whitelist is an evaluation failure. *)
Definition evaluate (text : Py.source) (context : gmap string Py.value) : option Py.value :=
  match text with
  | Py.Parsed e => if admits e then interpret context e else None
  | Py.Unparsable _ => None
  end.

End Sandbox.

(** ** Notions used to state the properties *)

(** The rule at position [k] of [rs] matches and is scored: [c] is the
    confidence read for it, [score] its score. *)
Definition matches_with (world : readings) (prediction : string)
    (sensor_data : gmap string Py.value) (rs : list json) (k : nat) (r : json)
    (c score : float) : Prop :=
  rs !! k = Some r ∧ rule_outcome world prediction sensor_data k r = Py.Ok (Some (c, score)).

(** The reason recorded for a rule of log text [log] selected with
    confidence [c]. *)
Definition rule_reason (log : string) (c : float) : string :=
  (log ++ " (Conf: " ++ format_float_2f c ++ ")")%string.

(** The frame after a rule of action [action] and log text [log] has been
    selected with confidence [c] and score [score]. *)
Definition selecting (action : json) (log : string) (c score : float) (s : frame) : frame :=
  {| best_action := action; highest_score := score;
     selected_reason := rule_reason log c; logged := logged s |}.

(** The local variables of two frames agree (their logs may differ). *)
Definition same_choice (s s' : frame) : Prop :=
  best_action s = best_action s' ∧ highest_score s = highest_score s'
  ∧ selected_reason s = selected_reason s'.

(** A statement runs to its end on a frame. *)
Definition completes (m : exec unit) (s : frame) : Prop := (m s).2 = Py.Ok tt.

(** An entry the loop can select: it has an action, and a log that is a
    string. *)
Definition selectable (r : json) : Prop :=
  ∃ action log, subscript_json r "action" = Py.Ok action
    ∧ subscript_json r "log" = Py.Ok (JStr log).




(** The cost of the tool an action name stands for: the name without its
    prefix is looked up, a missing entry or cost counts 0. *)
Definition cost_of (self : AIActionDecider) (action : string) : Z :=
  match default ∅ (tool_definitions (knowledge_base self)) !! str_replace action "ACTION: " "" with
  | Some {| tool_cost := Some cost |} => cost
  | _ => 0
  end.

(** The dictionary returned for a choice, once the budget has been checked. *)
Definition budgeted (self : AIActionDecider) (action reason : string) : gmap string json :=
  if decide (cost_of self action ≤ CostManager.cost_limit_kes (cost_manager self))
  then {[ "action" := JStr action; "reason" := JStr reason ]}
  else {[ "action" := JStr MONITOR_QUIETLY; "reason" := JStr "Budget Constraint Override." ]}.

(** The error entries of the rules from position [i] whose evaluation or
    scoring raises, in catalog order. *)
Fixpoint failure_log (world : readings) (prediction : string)
    (sensor_data : gmap string Py.value) (i : nat) (rs : list json) : list log_entry :=
  match rs with
  | [] => []
  | r :: rest =>
    match rule_outcome world prediction sensor_data i r, subscript_json r "id" with
    | Py.Raise e, Py.Ok rule_id => [RuleEvaluationError rule_id e]
    | _, _ => []
    end ++ failure_log world prediction sensor_data (S i) rest
  end.

(** The trace of the ingestion handler after further calls on the
    collaborators, the system being left as it is. *)
Definition called (l : list DataIngestionHandler.call) (t : DataIngestionHandler.trace)
  : DataIngestionHandler.trace :=
  {| DataIngestionHandler.sys := DataIngestionHandler.sys t;
     DataIngestionHandler.calls := DataIngestionHandler.calls t ++ l |}.

(** The trace after a call of [decide_action] by the handler. *)
Definition decided (agent : AIActionDecider) (world : readings) (prediction : string)
    (sensor_data : gmap string Py.value) (t : DataIngestionHandler.trace)
  : DataIngestionHandler.trace :=
  {| DataIngestionHandler.sys :=
       decide_step agent world prediction sensor_data (DataIngestionHandler.sys t);
     DataIngestionHandler.calls := DataIngestionHandler.calls t |}.

(** The keys [decide_action] writes into the context itself. *)
Definition derived_fields : list string :=
  ["prediction"; "system_load_cpu"; "geographical_zone"; "safety_lock"].

(** The CPU reading of a pass is above the stress threshold. *)
Definition under_stress (t : tick) : bool := tick_cpu t >? 60.

(** The pass enters the conflict handler and its draw starts a rewrite. *)
Definition starts_rewrite (t : tick) : bool :=
  under_stress t && Qltb (tick_rewrite_draw t) 0.3.

(** The draw of the pass starts a memory consolidation. *)
Definition starts_optimization (t : tick) : bool := Qltb (tick_optimize_draw t) 0.05.

Definition is_document (p : policy_file) : bool :=
  match p with
  | PolicyDocument _ => true
  | _ => false
  end.

(** The memory after [n] consolidations. *)
Definition consolidated (n : nat) (memory : gmap string stats) : gmap string stats :=
  Nat.iter n (λ m, (consolidate m).1) memory.

(** A confidence [c] after [n] decays. *)
Definition decayed (c : Q) (n : nat) : Q := Nat.iter n (λ q, (q * decay_factor)%Q) c.

(** What the walk of the integrity check maintains: the web inventory holds
    names filed as web files only, and every inventoried name has a path. *)
Definition well_filed (sc : Integrity.scan) : Prop :=
  (∀ f, f ∈ Integrity.inventory_web sc → Integrity.classify f = Some Integrity.WebFile)
  ∧ (∀ f, f ∈ Integrity.inventory_py sc ++ Integrity.inventory_web sc
              ++ Integrity.inventory_json sc ++ Integrity.inventory_assets sc →
          is_Some (Integrity.all_file_paths sc !! f)).

(** ** Sample data for the worked instances *)

Module Sample.

Definition entry (id condition action : string) (priority : json) (log : string) : json :=
  JObject {[ "id" := JStr id; "condition" := JStr condition; "action" := JStr action;
             "priority" := priority; "log" := JStr log ]}.

Definition dry_soil : json :=
  entry "r1" "moisture < 30" "ACTION: PUMP_WATER" (JInt 10) "Dry soil".

(** Same priority as [dry_soil]. *)
Definition very_dry_soil : json :=
  entry "r2" "moisture <= 25 and safety_lock" "ACTION: ALERT_FARMER" (JInt 10) "Very dry soil".

(** No variable [humidity] is in the context. *)
Definition humid : json :=
  entry "r3" "humidity > 90" "ACTION: VENTILATE" (JInt 50) "Humid".

Definition intruder : json :=
  entry "r4" "__import__('os')" "ACTION: OPEN_VALVE" (JInt 99) "Injected".

Definition quitter : json :=
  entry "r5" "exit(0)" "ACTION: OPEN_VALVE" (JInt 99) "Leaving".

(** An entry without an id whose condition fails. *)
Definition anonymous : json :=
  JObject {[ "condition" := JStr "humidity > 90"; "action" := JStr "ACTION: VENTILATE";
             "priority" := JInt 50; "log" := JStr "Humid" ]}.


(** An entry without an action. *)
Definition actionless : json :=
  JObject {[ "id" := JStr "r7"; "condition" := JStr "moisture < 30";
             "priority" := JInt 20; "log" := JStr "No action" ]}.

(** Two entries whose scores are equal as floats: 3 times 0.1 against 1
    times 0.30000000000000004. *)
Definition first : json :=
  entry "b1" "moisture < 30" "ACTION: FIRST" (JInt 3) "First".

Definition second : json :=
  entry "b2" "moisture < 30" "ACTION: SECOND" (JInt 1) "Second".

(** The floats nearest to 0.1 and to 0.30000000000000004. *)
#[warnings="-inexact-float"]
Definition tenth : float := 0.1.

#[warnings="-inexact-float"]
Definition three_tenths : float := 0.30000000000000004.

(** What the parser of the host makes of the conditions above. *)
Definition parser (text : string) : Py.source :=
  if String.eqb text "moisture < 30" then
    Py.Parsed (Py.Compare (Py.Name "moisture") Py.OpLt (Py.Constant (Py.LInt 30)))
  else if String.eqb text "moisture <= 25 and safety_lock" then
    Py.Parsed (Py.BoolOp Py.OpAnd
                 (Py.Compare (Py.Name "moisture") Py.OpLtE (Py.Constant (Py.LInt 25)))
                 (Py.Name "safety_lock"))
  else if String.eqb text "humidity > 90" then
    Py.Parsed (Py.Compare (Py.Name "humidity") Py.OpGt (Py.Constant (Py.LInt 90)))
  else if String.eqb text "__import__('os')" then
    Py.Parsed (Py.Call (Py.Name "__import__") (Py.Constant (Py.LStr "os")))
  else if String.eqb text "exit(0)" then
    Py.Parsed (Py.Call (Py.Name "exit") (Py.Constant (Py.LInt 0)))
  else Py.Unparsable text.

Definition world : readings :=
  {| parse := parser; get_current_cpu := λ _, 20; is_safety_lock_active := λ _, true;
     get_confidence := λ _ _, Py.Ok 1%float; time_time := 1700000000 |}.

(** A heuristic engine that answers 0.1 for the rule [b1] and
    0.30000000000000004 for the others. *)
Definition uneven : readings :=
  {| parse := parser; get_current_cpu := λ _, 20; is_safety_lock_active := λ _, true;
     get_confidence := λ rule_id _,
       match rule_id with
       | JStr "b1" => Py.Ok tenth
       | _ => Py.Ok three_tenths
       end;
     time_time := 1700000000 |}.

Definition sensor_data : gmap string Py.value :=
  {[ "field_id" := Py.VStr "F1"; "moisture" := Py.VInt 20 ]}.

(** An agent with the given catalog, one priced tool and the given limit. *)
Definition agent (catalog : list json) (pump_cost limit : Z) : AIActionDecider :=
  {| knowledge_base :=
       {| heuristic_rules := Some catalog;
          tool_definitions := Some {[ "PUMP_WATER" := {| tool_cost := Some pump_cost |} ]} |};
     cost_manager := {| CostManager.cost_limit_kes := limit |};
     start_time := 1699999000 |}.


(** The record of the third scenario of the design document. *)
Definition worn_out : stats :=
  {| confidence := Some 0.19%Q; successes := Some 2; failures := Some 10 |}.

Definition memory : gmap string stats := {[ "r1:F1" := worn_out ]}.

Definition booted : system :=
  {| status := ai_agent_status; safety_lock := true;
     policy := PolicyDocument (Some false); heuristics := Some memory; journal := [] |}.

(** A pass under CPU stress (fourth scenario), with the draw below the
    rewrite probability. *)
Definition stressed : tick :=
  {| tick_time := 1700000000; tick_cpu := 85; tick_rewrite_draw := 0.1%Q;
     tick_optimize_draw := 0.5%Q; tick_save_ok := true |}.

End Sample.

(** ** More sample data *)

Module Cases.

(** A pass whose draw starts a consolidation and whose save fails. *)
Definition unsaved : tick :=
  {| tick_time := 1700000005; tick_cpu := 30; tick_rewrite_draw := 0.9%Q;
     tick_optimize_draw := 0.01%Q; tick_save_ok := false |}.

(** A record with a low confidence and few interactions. *)
Definition seldom_used : stats :=
  {| confidence := Some 0.05%Q; successes := Some 1; failures := Some 3 |}.

(** A record with many interactions whose confidence stays above the floor. *)
Definition trusted : stats :=
  {| confidence := Some 0.9%Q; successes := Some 40; failures := Some 2 |}.

(** A record without any of the three keys. *)
Definition blank : stats :=
  {| confidence := None; successes := None; failures := None |}.

Definition memory : gmap string stats :=
  {[ "r1:F1" := Sample.worn_out; "r2:F1" := seldom_used ]}.

Definition mixed : gmap string stats :=
  {[ "r1:F1" := Sample.worn_out; "r2:F1" := seldom_used; "r3:F1" := trusted;
     "r4:F1" := blank ]}.

End Cases.

Module Requests.

Definition collaborators : DataIngestionHandler.collaborators :=
  {| DataIngestionHandler.is_valid_schema := λ d, Py.Ok (bool_decide (is_Some (d !! "field_id")));
     DataIngestionHandler.run_prediction := λ _, Py.Ok "DROUGHT";
     DataIngestionHandler.execute_action := λ _ _, Py.Ok {[ "success" := Py.VBool true ]};
     DataIngestionHandler.str_of_error := λ _, "failed" |}.

Definition handler : DataIngestionHandler.t :=
  {| DataIngestionHandler.ai_agent := Some (Sample.agent [Sample.dry_soil] 8 100);
     DataIngestionHandler.autonomy_engine := true;
     DataIngestionHandler.heuristic_engine := true |}.

Definition fresh (sys : system) : DataIngestionHandler.trace :=
  {| DataIngestionHandler.sys := sys; DataIngestionHandler.calls := [] |}.

End Requests.

(** * Properties *)

(** An equation between closed terms is settled by evaluating its sides;
    [evaluate] does so for a conjunction of such equations. *)
Ltac evaluate :=
  repeat apply conj; unfold completes;
  lazymatch goal with
  | |- ?a = ?b => exact (eq_refl b <: a = b)
  | |- _ => vm_compute; reflexivity
  end.

(** ** Worked instances *)

Example replace_prefix : str_replace "ACTION: PUMP_WATER" "ACTION: " "" = "PUMP_WATER".
Proof. reflexivity. Qed.

Example format_confidence : format_2f 0.125 = "0.12" ∧ format_2f 1 = "1.00".
Proof. evaluate. Qed.

(** The float nearest to 0.995 lies below it, the one nearest to 0.125 is
    0.125 itself and is rounded to the even neighbour. *)
#[warnings="-inexact-float"]
Example format_floats :
  format_float_2f 0.995 = "0.99" ∧ format_float_2f 0.125 = "0.12"
  ∧ format_float_2f 1 = "1.00" ∧ format_float_2f (-0.001) = "-0.00".
Proof. evaluate. Qed.

(** Products are rounded: 3 times 0.1 is the float 0.30000000000000004. *)
Example rounded_product :
  multiply (JInt 3) Sample.tenth = Py.Ok Sample.three_tenths
  ∧ multiply (JInt 1) Sample.three_tenths = Py.Ok Sample.three_tenths
  ∧ multiply (JStr "3") Sample.tenth = Py.Raise Py.TypeError
  ∧ multiply (JInt (10 ^ 400)) Sample.tenth = Py.Raise Py.OverflowError.
Proof. evaluate. Qed.

Example eval_moisture :
  eval_condition Sample.world (JStr "moisture < 30")
    (context_at Sample.world "DROUGHT" Sample.sensor_data 0) = Py.Ok (Py.VBool true).
Proof. evaluate. Qed.

Example eval_unbound_name :
  eval_condition Sample.world (JStr "humidity > 90")
    (context_at Sample.world "DROUGHT" Sample.sensor_data 0) = Py.Raise Py.NameError.
Proof. evaluate. Qed.

Example eval_exit :
  eval_condition Sample.world (JStr "exit(0)")
    (context_at Sample.world "DROUGHT" Sample.sensor_data 0) = Py.Raise Py.SystemExit.
Proof. evaluate. Qed.

Example eval_not_a_string :
  eval_condition Sample.world (JBool true)
    (context_at Sample.world "DROUGHT" Sample.sensor_data 0) = Py.Raise Py.TypeError.
Proof. evaluate. Qed.

(** First scenario of the design document: one matching rule of priority 10,
    confidence 1. *)
Example scenario_pump_water :
  decide_action (Sample.agent [Sample.dry_soil] 8 100) Sample.world "DROUGHT"
    Sample.sensor_data ai_agent_status
  = (Py.Ok {[ "action" := JStr "ACTION: PUMP_WATER";
              "reason" := JStr "Dry soil (Conf: 1.00)" ]},
     {| last_action := JStr "ACTION: PUMP_WATER"; timestamp := 1700000000; state := "IDLE";
        uptime := 0; self_modification_attempts := 0 |},
     []).
Proof. evaluate. Qed.

(** An entry without an action lifts the highest score before the lookup of
    its action fails: the entry is logged, and the rule after it, which
    matches with a lower score, is not selected. *)
Example scenario_blocked :
  decide_action (Sample.agent [Sample.actionless; Sample.dry_soil] 8 100) Sample.world
    "DROUGHT" Sample.sensor_data ai_agent_status
  = (Py.Ok {[ "action" := JStr MONITOR_QUIETLY; "reason" := JStr "Default state." ]},
     {| last_action := JStr MONITOR_QUIETLY; timestamp := 1700000000; state := "IDLE";
        uptime := 0; self_modification_attempts := 0 |},
     [RuleEvaluationError (JStr "r7") Py.KeyError]).
Proof. evaluate. Qed.

(** Third scenario: the worn-out record is removed by a maintenance pass. *)
Example scenario_pruned : (consolidate Sample.memory).1 = ∅.
Proof. evaluate. Qed.

(** Fourth scenario: a reading of 85 with the draw below the rewrite
    probability. *)
Example scenario_stress :
  let after := agent_loop_pass (Sample.agent [] 8 100) Sample.stressed Sample.booted in
  safety_lock after = false
  ∧ policy after = PolicyDocument (Some true)
  ∧ self_modification_attempts (status after) = 1
  ∧ uptime (status after) = 1000.
Proof. evaluate. Qed.

(** ** Helper facts *)

Lemma Qltb_lt (x y : Q) : Qltb x y = true ↔ (x < y)%Q.
Proof.
  unfold Qltb. rewrite Qlt_alt. destruct (x ?= y)%Q; split; congruence.
Qed.

Lemma Qltb_ge (x y : Q) : Qltb x y = false ↔ (y <= x)%Q.
Proof.
  split.
  - intros H. apply Qnot_lt_le. intros L. apply Qltb_lt in L. congruence.
  - intros H. destruct (Qltb x y) eqn:E; [|done].
    apply Qltb_lt in E. by apply Qle_not_lt in H.
Qed.

(** ** The order of floats

    The comparisons of floats are those of their specification
    [SFcompare], a lexicographic comparison of sign, exponent and mantissa
    in which a NaN compares with nothing. *)

Ltac sf_cases :=
  repeat match goal with
  | f : spec_float |- _ => destruct f as [[]|[]| |[] ? ?]
  end; simpl in *; try discriminate; try reflexivity.

Ltac sf_compare :=
  repeat match goal with
  | H : context [(?a ?= ?b)%Z] |- _ => destruct (Z.compare_spec a b); simpl in H
  | |- context [(?a ?= ?b)%Z] => destruct (Z.compare_spec a b); simpl
  | H : context [PosDef.Pos.compare_cont Eq ?a ?b] |- _ =>
      change (PosDef.Pos.compare_cont Eq a b) with (Pos.compare a b) in H;
      destruct (Pos.compare_spec a b); simpl in H
  | |- context [PosDef.Pos.compare_cont Eq ?a ?b] =>
      change (PosDef.Pos.compare_cont Eq a b) with (Pos.compare a b);
      destruct (Pos.compare_spec a b); simpl
  end; subst; try discriminate; try reflexivity; try lia.

Lemma SFltb_trans (a b c : spec_float) :
  SFltb a b = true → SFltb b c = true → SFltb a c = true.
Proof. unfold SFltb. intros H1 H2. sf_cases; sf_compare. Qed.

Lemma SFltb_leb_trans (a b c : spec_float) :
  SFltb a b = true → SFleb b c = true → SFltb a c = true.
Proof. unfold SFltb, SFleb. intros H1 H2. sf_cases; sf_compare. Qed.

Lemma SFltb_eqb (a b c : spec_float) :
  SFltb a c = true → SFeqb b c = true → SFltb a b = true.
Proof. unfold SFltb, SFeqb. intros H1 H2. sf_cases; sf_compare. Qed.

Lemma SFltb_irrefl (a : spec_float) : SFltb a a = false.
Proof. unfold SFltb. sf_cases; sf_compare. Qed.

Section float_order.

Local Open Scope float_scope.

Lemma ltb_trans (a b c : float) : (a <? b) = true → (b <? c) = true → (a <? c) = true.
Proof. rewrite !ltb_spec. apply SFltb_trans. Qed.

Lemma ltb_irrefl (a : float) : (a <? a) = false.
Proof. rewrite ltb_spec. apply SFltb_irrefl. Qed.

(** What lies above [a] is not at or below anything [a] is not below. *)
Lemma ltb_not_leb (a b c : float) : (a <? b) = true → (a <? c) = false → (b <=? c) = false.
Proof.
  rewrite !ltb_spec, leb_spec. intros H1 H2.
  destruct (SFleb _ _) eqn:E; [|done].
  by rewrite (SFltb_leb_trans _ _ _ H1 E) in H2.
Qed.

Lemma not_leb_not_ltb (a b : float) : (a <=? b) = false → (a <? b) = false.
Proof.
  rewrite ltb_spec, leb_spec. unfold SFltb, SFleb.
  by destruct (SFcompare _ _) as [[]|].
Qed.

Lemma not_ltb_eqb (a b c : float) : (a <? b) = false → (b =? c) = true → (a <? c) = false.
Proof.
  rewrite !ltb_spec, FloatAxioms.eqb_spec. intros H1 H2.
  destruct (SFltb (Prim2SF a) (Prim2SF c)) eqn:E; [|done].
  by rewrite (SFltb_eqb _ _ _ E H2) in H1.
Qed.

Lemma not_ltb_raised (a b c : float) : (a <? c) = false → (a <? b) = true → (b <? c) = false.
Proof.
  intros H1 H2. destruct (b <? c) eqn:E; [|done].
  by rewrite (ltb_trans _ _ _ H2 E) in H1.
Qed.

End float_order.

(** ** The budget guard *)

Lemma is_within_budget_verdict (self : CostManager.t) (proposed_cost : Z) :
  CostManager.is_within_budget self proposed_cost
  = if decide (proposed_cost ≤ CostManager.cost_limit_kes self) then (true, [])
    else (false, [CostBreach proposed_cost (CostManager.cost_limit_kes self)]).
Proof.
  unfold CostManager.is_within_budget. rewrite Z.gtb_ltb.
  destruct (Z.ltb_spec (CostManager.cost_limit_kes self) proposed_cost);
    case_decide; try done; lia.
Qed.

(** C4: [is_within_budget] answers true exactly when the proposed cost is at
    most the configured limit, so also at the limit itself; it returns for
    every limit and cost, leaves the manager as it is, and logs a breach
    exactly when it answers false. *)
Theorem is_within_budget_iff (self : CostManager.t) (proposed_cost : Z) :
  ((CostManager.is_within_budget self proposed_cost).1 = true
     ↔ proposed_cost ≤ CostManager.cost_limit_kes self)
  ∧ (CostManager.is_within_budget self (CostManager.cost_limit_kes self)).1 = true
  ∧ ((CostManager.is_within_budget self proposed_cost).1 = false
     ↔ CostManager.cost_limit_kes self < proposed_cost)
  ∧ (CostManager.is_within_budget self proposed_cost).2
    = (if (CostManager.is_within_budget self proposed_cost).1 then []
       else [CostBreach proposed_cost (CostManager.cost_limit_kes self)]).
Proof.
  rewrite !is_within_budget_verdict.
  rewrite (decide_True (P := CostManager.cost_limit_kes self ≤ _)) by lia.
  case_decide; simpl; repeat split; intros; try done; lia.
Qed.

(** ** Statements on a frame *)

Lemma exec_bind_ok {A B} (m : exec A) (k : A → exec B) (s s' : frame) (a : A) :
  m s = (s', Py.Ok a) → (m ≫= k) s = k a s'.
Proof. unfold mbind, exec_bind. by intros ->. Qed.

Lemma exec_bind_raise {A B} (m : exec A) (k : A → exec B) (s s' : frame) (e : Py.exn) :
  m s = (s', Py.Raise e) → (m ≫= k) s = (s', Py.Raise e).
Proof. unfold mbind, exec_bind. by intros ->. Qed.

(** A sequence runs to its end exactly when both parts do. *)
Lemma exec_seq_ok (m k : exec unit) (s s' : frame) :
  (m;; k) s = (s', Py.Ok tt) ↔ ∃ s1, m s = (s1, Py.Ok tt) ∧ k s1 = (s', Py.Ok tt).
Proof.
  unfold mbind, exec_bind. destruct (m s) as [s1 [[]|e]]; split.
  - intros H. by exists s1.
  - by intros (s2 & [= <-] & H).
  - done.
  - by intros (s2 & [=] & _).
Qed.

Lemma emit_nil (s : frame) : emit [] s = s.
Proof. destruct s. unfold emit. simpl. by rewrite app_nil_r. Qed.

(** ** The rule loop *)

(** The loop reads the world only through the parser, the gauge, the lock
    and the confidence store: two worlds that agree on them give the same
    frames. *)
Lemma rule_outcome_ext (world world' : readings) (prediction : string)
    (sensor_data : gmap string Py.value) (i : nat) (r : json) :
  (∀ text, parse world' text = parse world text) →
  (∀ j, get_current_cpu world' j = get_current_cpu world j) →
  (∀ j, is_safety_lock_active world' j = is_safety_lock_active world j) →
  (∀ id field_id, get_confidence world' id field_id = get_confidence world id field_id) →
  rule_outcome world' prediction sensor_data i r = rule_outcome world prediction sensor_data i r.
Proof.
  intros Hparse Hcpu Hlock Hconf. unfold rule_outcome, context_at, eval_condition.
  rewrite Hcpu, Hlock.
  destruct (subscript_json r "condition") as [[| | | |text| |]|]; simpl; try done.
  rewrite Hparse.
  destruct (Py.eval _ _) as [matched|]; simpl; [|done].
  destruct (Py.truthy matched); [|done].
  destruct (subscript_json r "id"); simpl; [|done].
  destruct (subscript _ _); simpl; [|done].
  by rewrite Hconf.
Qed.

Lemma turn_ext (world world' : readings) (prediction : string)
    (sensor_data : gmap string Py.value) (r : json) (i : nat) (s : frame) :
  (∀ text, parse world' text = parse world text) →
  (∀ j, get_current_cpu world' j = get_current_cpu world j) →
  (∀ j, is_safety_lock_active world' j = is_safety_lock_active world j) →
  (∀ id field_id, get_confidence world' id field_id = get_confidence world id field_id) →
  turn world' prediction sensor_data i r s = turn world prediction sensor_data i r s.
Proof.
  intros Hparse Hcpu Hlock Hconf. unfold turn, rule_body.
  by rewrite (rule_outcome_ext world world').
Qed.

Lemma rule_loop_cons (world : readings) (prediction : string)
    (sensor_data : gmap string Py.value) (i : nat) (r : json) (rs : list json) (s : frame) :
  rule_loop world prediction sensor_data i (r :: rs) s
  = match turn world prediction sensor_data i r s with
    | (s1, Py.Ok _) => rule_loop world prediction sensor_data (S i) rs s1
    | (s1, Py.Raise e) => (s1, Py.Raise e)
    end.
Proof. done. Qed.

Lemma rule_loop_ext (world world' : readings) (prediction : string)
    (sensor_data : gmap string Py.value) (rs : list json) (i : nat) (s : frame) :
  (∀ text, parse world' text = parse world text) →
  (∀ j, get_current_cpu world' j = get_current_cpu world j) →
  (∀ j, is_safety_lock_active world' j = is_safety_lock_active world j) →
  (∀ id field_id, get_confidence world' id field_id = get_confidence world id field_id) →
  rule_loop world' prediction sensor_data i rs s = rule_loop world prediction sensor_data i rs s.
Proof.
  intros Hparse Hcpu Hlock Hconf. revert i s.
  induction rs as [|r rs IH]; intros i s; [done|].
  rewrite !rule_loop_cons, (turn_ext world world') by done.
  destruct (turn _ _ _ _ _ _) as [s1 [[]|e]]; [apply IH|done].
Qed.

Section rule_loop_facts.

Context (self : AIActionDecider) (world : readings).
Context (prediction : string) (sensor_data : gmap string Py.value).

Local Abbreviation body := (rule_body world prediction sensor_data).
Local Abbreviation turn := (turn world prediction sensor_data).
Local Abbreviation loop := (rule_loop world prediction sensor_data).
Local Abbreviation outcome := (rule_outcome world prediction sensor_data).

(** What the [except] clause does with an error of the [try] block. *)
Lemma rule_failed_spec (r : json) (e : Py.exn) (s : frame) :
  rule_failed r e s
  = match subscript_json r "id" with
    | Py.Ok rule_id => (emit [RuleEvaluationError rule_id e] s, Py.Ok tt)
    | Py.Raise e' => (s, Py.Raise e')
    end.
Proof. unfold rule_failed, mbind, exec_bind, lift. by destruct (subscript_json r "id"). Qed.

(** The selection of a rule, by what the entry holds. *)
Lemma select_spec (r : json) (c score : float) (s : frame) :
  select r c score s
  = match subscript_json r "action" with
    | Py.Raise e => (set_highest_score score s, Py.Raise e)
    | Py.Ok action =>
      match subscript_json r "log" ≫= format_value with
      | Py.Raise e => (set_best_action action (set_highest_score score s), Py.Raise e)
      | Py.Ok log => (selecting action log c score s, Py.Ok tt)
      end
    end.
Proof.
  unfold select, mbind, exec_bind, Py.result_bind, lift, assign.
  destruct (subscript_json r "action") as [action|]; [|done].
  destruct (subscript_json r "log") as [log|]; [|done].
  by destruct (format_value log).
Qed.

(** One turn of the loop, by the outcome of the rule. *)
Lemma rule_step (i : nat) (r : json) (s : frame) :
  turn i r s
  = match outcome i r with
    | Py.Raise e => if Py.is_exception e then rule_failed r e s else (s, Py.Raise e)
    | Py.Ok None => (s, Py.Ok tt)
    | Py.Ok (Some (c, score)) =>
      if (highest_score s <? score)%float
      then try_except (select r c score) (rule_failed r) s
      else (s, Py.Ok tt)
    end.
Proof.
  unfold turn, try_except, rule_body, mbind, exec_bind, lift, read.
  destruct (outcome i r) as [[[c score]|]|e]; try done.
  by destruct (_ <? _)%float.
Qed.

Lemma rule_loop_app (i : nat) (rs rs' : list json) (s : frame) :
  loop i (rs ++ rs') s = (loop i rs;; loop (i + length rs) rs') s.
Proof.
  revert i s. induction rs as [|r rs IH]; intros i s.
  - simpl. by rewrite Nat.add_0_r.
  - rewrite <- app_comm_cons. unfold mbind, exec_bind. rewrite !rule_loop_cons.
    destruct (turn i r s) as [s1 [[]|e]]; [|done].
    rewrite IH. simpl. by rewrite Nat.add_succ_r.
Qed.

Lemma same_choice_refl (s : frame) : same_choice s s.
Proof. by repeat split. Qed.

Lemma same_choice_trans (s1 s2 s3 : frame) :
  same_choice s1 s2 → same_choice s2 s3 → same_choice s1 s3.
Proof. unfold same_choice. intros (?&?&?) (?&?&?). repeat split; congruence. Qed.

Lemma same_choice_emit (l : list log_entry) (s : frame) : same_choice (emit l s) s.
Proof. by repeat split. Qed.

(** The turn of a rule that does not match, or does not score above the
    highest score, changes nothing. *)
Lemma turn_no_match (i : nat) (r : json) (s : frame) :
  outcome i r = Py.Ok None → turn i r s = (s, Py.Ok tt).
Proof. intros H. by rewrite rule_step, H. Qed.

Lemma turn_passes (i : nat) (r : json) (c score : float) (s : frame) :
  outcome i r = Py.Ok (Some (c, score)) →
  (highest_score s <? score)%float = false →
  turn i r s = (s, Py.Ok tt).
Proof. intros H L. by rewrite rule_step, H, L. Qed.

(** The turn of a rule that scores above the highest score and has an action
    and a log text selects it. *)
Lemma turn_selects (i : nat) (r : json) (c score : float) (s : frame) (action : json)
    (log : string) :
  outcome i r = Py.Ok (Some (c, score)) →
  (highest_score s <? score)%float = true →
  subscript_json r "action" = Py.Ok action →
  subscript_json r "log" = Py.Ok (JStr log) →
  turn i r s = (selecting action log c score s, Py.Ok tt).
Proof.
  intros H L Ha Hl. rewrite rule_step, H, L. unfold try_except.
  by rewrite select_spec, Ha, Hl.
Qed.

(** The turn of a rule whose evaluation or scoring raises. *)
Lemma turn_fails (i : nat) (r : json) (e : Py.exn) (s : frame) :
  outcome i r = Py.Raise e →
  turn i r s
  = if Py.is_exception e then
      match subscript_json r "id" with
      | Py.Ok rule_id => (emit [RuleEvaluationError rule_id e] s, Py.Ok tt)
      | Py.Raise e' => (s, Py.Raise e')
      end
    else (s, Py.Raise e).
Proof. intros H. by rewrite rule_step, H, rule_failed_spec. Qed.

(** What a selection leaves, however it ends: the highest score is the
    score of the rule. *)
Lemma selection_score (r : json) (c score : float) (s s1 : frame) (res : Py.result unit) :
  try_except (select r c score) (rule_failed r) s = (s1, res) →
  highest_score s1 = score.
Proof.
  unfold try_except. rewrite select_spec.
  destruct (subscript_json r "action") as [action|e1].
  - destruct (subscript_json r "log" ≫= format_value) as [log|e2].
    + by intros [= <- _].
    + destruct (Py.is_exception e2); [|by intros [= <- _]].
      rewrite rule_failed_spec. destruct (subscript_json r "id"); by intros [= <- _].
  - destruct (Py.is_exception e1); [|by intros [= <- _]].
    rewrite rule_failed_spec. destruct (subscript_json r "id"); by intros [= <- _].
Qed.

(** A turn leaves the highest score where it was, or above. *)
Lemma turn_score (i : nat) (r : json) (s s1 : frame) (res : Py.result unit) :
  turn i r s = (s1, res) →
  highest_score s1 = highest_score s
  ∨ (highest_score s <? highest_score s1)%float = true.
Proof.
  rewrite rule_step. destruct (outcome i r) as [[[c score]|]|e].
  - destruct (_ <? _)%float eqn:L; [|intros [= <- _]; by left].
    intros H. apply selection_score in H. right. by rewrite H.
  - intros [= <- _]. by left.
  - destruct (Py.is_exception e); [|intros [= <- _]; by left].
    rewrite rule_failed_spec. destruct (subscript_json r "id"); intros [= <- _]; by left.
Qed.

(** After the turn of a rule that matches, the highest score is not below
    its score. *)
Lemma turn_reached (i : nat) (r : json) (c score : float) (s s1 : frame)
    (res : Py.result unit) :
  outcome i r = Py.Ok (Some (c, score)) →
  turn i r s = (s1, res) →
  (highest_score s1 <? score)%float = false.
Proof.
  intros H. rewrite rule_step, H. destruct (_ <? _)%float eqn:L.
  - intros T. apply selection_score in T. rewrite T. apply ltb_irrefl.
  - by intros [= <- _].
Qed.

(** What the highest score is not below, it is not below later either. *)
Lemma turn_keeps_above (i : nat) (r : json) (s s1 : frame) (res : Py.result unit) (x : float) :
  turn i r s = (s1, res) →
  (highest_score s <? x)%float = false → (highest_score s1 <? x)%float = false.
Proof.
  intros T L. destruct (turn_score _ _ _ _ _ T) as [->|R]; [done|].
  by eapply not_ltb_raised.
Qed.

Lemma rule_loop_keeps_above (i : nat) (rs : list json) (s s' : frame) (res : Py.result unit)
    (x : float) :
  loop i rs s = (s', res) →
  (highest_score s <? x)%float = false → (highest_score s' <? x)%float = false.
Proof.
  revert i s. induction rs as [|r rs IH]; intros i s.
  - by intros [= <- _].
  - rewrite rule_loop_cons. destruct (turn i r s) as [s1 [[]|e]] eqn:T.
    + intros H L. eapply IH; [done|]. by eapply turn_keeps_above.
    + intros [= <- _] L. by eapply turn_keeps_above.
Qed.

(** Rules that do not score above the frame leave its choice alone. *)
Lemma rule_loop_no_better (i : nat) (rs : list json) (s s' : frame) :
  loop i rs s = (s', Py.Ok tt) →
  (∀ k r c score, rs !! k = Some r → outcome (i + k) r = Py.Ok (Some (c, score)) →
                  (highest_score s <? score)%float = false) →
  same_choice s' s.
Proof.
  revert i s. induction rs as [|r rs IH]; intros i s.
  - intros [= <-] _. apply same_choice_refl.
  - rewrite rule_loop_cons. intros L H.
    assert (Hstep : ∃ s1, turn i r s = (s1, Py.Ok tt) ∧ same_choice s1 s).
    { destruct (outcome i r) as [[[c score]|]|e] eqn:E.
      - exists s. split; [|apply same_choice_refl]. eapply turn_passes; [done|].
        apply (H 0%nat r c score); [done|]. by rewrite Nat.add_0_r.
      - exists s. split; [by apply turn_no_match|apply same_choice_refl].
      - rewrite (turn_fails _ _ _ _ E) in L |- *.
        destruct (Py.is_exception e); [|done].
        destruct (subscript_json r "id") as [rule_id|]; [|done].
        eexists. split; [done|apply same_choice_emit]. }
    destruct Hstep as (s1 & T & C). rewrite T in L.
    eapply same_choice_trans; [|exact C].
    apply (IH (S i)); [done|]. intros k r' c' score' Hk Ho.
    destruct C as (_ & -> & _).
    apply (H (S k) r' c' score'); [done|]. by rewrite Nat.add_succ_r.
Qed.

(** The log grows only. *)
Lemma turn_logged (i : nat) (r : json) (s s1 : frame) (res : Py.result unit) :
  turn i r s = (s1, res) → ∃ l, logged s1 = logged s ++ l.
Proof.
  assert (F : ∀ e s0 s2 res0, rule_failed r e s0 = (s2, res0) → ∃ l, logged s2 = logged s0 ++ l).
  { intros e s0 s2 res0. rewrite rule_failed_spec.
    destruct (subscript_json r "id"); intros [= <- _]; [by eexists|].
    exists []. by rewrite app_nil_r. }
  rewrite rule_step. destruct (outcome i r) as [[[c score]|]|e].
  - destruct (_ <? _)%float; [|intros [= <- _]; exists []; by rewrite app_nil_r].
    unfold try_except. rewrite select_spec.
    destruct (subscript_json r "action") as [action|e1].
    + destruct (subscript_json r "log" ≫= format_value) as [log|e2].
      * intros [= <- _]. exists []. by rewrite app_nil_r.
      * destruct (Py.is_exception e2).
        -- intros H. by apply F in H.
        -- intros [= <- _]. exists []. by rewrite app_nil_r.
    + destruct (Py.is_exception e1).
      * intros H. by apply F in H.
      * intros [= <- _]. exists []. by rewrite app_nil_r.
  - intros [= <- _]. exists []. by rewrite app_nil_r.
  - destruct (Py.is_exception e); [apply F|].
    intros [= <- _]. exists []. by rewrite app_nil_r.
Qed.

(** C7, as the code has it.  Let evaluating or scoring the rule at some
    position raise.  When the error derives from [Exception] and the entry has
    an id, the loop appends one error entry naming the rule, keeps the action,
    score and reason it had, and goes on with the rules that follow.  An error
    that does not derive from [Exception] leaves the loop, and with it the
    call, at once; so does the error of looking up the id of an entry that has
    none. *)
Theorem failing_rule_is_skipped (pre post : list json) (r : json) (s0 s : frame) (e : Py.exn) :
  loop 0 pre s0 = (s, Py.Ok tt) →
  outcome (length pre) r = Py.Raise e →
  (Py.is_exception e = true →
   ∀ rule_id, subscript_json r "id" = Py.Ok rule_id →
     loop 0 (pre ++ r :: post) s0
     = loop (S (length pre)) post (emit [RuleEvaluationError rule_id e] s)
     ∧ same_choice (emit [RuleEvaluationError rule_id e] s) s)
  ∧ (Py.is_exception e = false → loop 0 (pre ++ r :: post) s0 = (s, Py.Raise e))
  ∧ (Py.is_exception e = true →
     ∀ e', subscript_json r "id" = Py.Raise e' →
       loop 0 (pre ++ r :: post) s0 = (s, Py.Raise e')).
Proof.
  intros Hpre Ho.
  assert (L : loop 0 (pre ++ r :: post) s0
              = match turn (length pre) r s with
                | (s1, Py.Ok _) => loop (S (length pre)) post s1
                | (s1, Py.Raise e1) => (s1, Py.Raise e1)
                end).
  { rewrite rule_loop_app. unfold mbind, exec_bind. rewrite Hpre. by rewrite rule_loop_cons. }
  rewrite L, (turn_fails _ _ _ _ Ho). split; [|split].
  - intros -> rule_id ->. split; [done|apply same_choice_emit].
  - by intros ->.
  - by intros -> e' ->.
Qed.

End rule_loop_facts.

(** ** The decision as a whole *)

Section decide_facts.

Context (self : AIActionDecider) (world : readings).
Context (prediction : string) (sensor_data : gmap string Py.value).

Local Abbreviation turn := (turn world prediction sensor_data).
Local Abbreviation loop := (rule_loop world prediction sensor_data).
Local Abbreviation outcome := (rule_outcome world prediction sensor_data).
Local Abbreviation run := (decide_action self world prediction sensor_data).
Local Abbreviation limit := (CostManager.cost_limit_kes (cost_manager self)).

(** The frame the budget check leaves when it blocks the action of [s]. *)
Local Abbreviation overridden s cost :=
  (set_selected_reason "Budget Constraint Override."
     (set_best_action (JStr MONITOR_QUIETLY)
        (emit [CostBreach cost limit; BudgetBlocked (best_action s)] s))).

Lemma get_tool_cost_str (action : string) :
  get_tool_cost self (JStr action) = Py.Ok (cost_of self action).
Proof.
  unfold get_tool_cost, cost_of.
  by destruct (_ !! _) as [[[cost|]]|].
Qed.

Lemma budget_check_spec (s : frame) :
  budget_check self s
  = match get_tool_cost self (best_action s) with
    | Py.Raise e => (s, Py.Raise e)
    | Py.Ok cost => if decide (cost ≤ limit) then (s, Py.Ok tt) else (overridden s cost, Py.Ok tt)
    end.
Proof.
  unfold budget_check, mbind, exec_bind, read, lift.
  destruct (get_tool_cost self (best_action s)) as [cost|e]; [|done].
  rewrite is_within_budget_verdict. case_decide; simpl.
  - unfold assign, mret, exec_ret. by rewrite emit_nil.
  - unfold assign, set_selected_reason, set_best_action, emit. simpl.
    by rewrite <- app_assoc.
Qed.

Lemma decide_action_unfold (status : agent_status) :
  run status
  = match loop 0 (rules self) initial_frame with
    | (s, Py.Raise e) => (Py.Raise e, status, logged s)
    | (s, Py.Ok _) =>
      match budget_check self s with
      | (s', Py.Ok _) =>
        (Py.Ok {[ "action" := best_action s'; "reason" := JStr (selected_reason s') ]},
         publish world s' status, logged s')
      | (s', Py.Raise e) => (Py.Raise e, status, logged s')
      end
    end.
Proof.
  unfold decide_action, mbind, exec_bind.
  by destruct (loop 0 (rules self) initial_frame) as [s [[]|e]].
Qed.

(** The call after a loop that has run to its end with a string as the
    action. *)
Lemma decide_action_chosen (status : agent_status) (s : frame) (action : string) :
  loop 0 (rules self) initial_frame = (s, Py.Ok tt) →
  best_action s = JStr action →
  run status
  = if decide (cost_of self action ≤ limit)
    then (Py.Ok {[ "action" := JStr action; "reason" := JStr (selected_reason s) ]},
          publish world s status, logged s)
    else (Py.Ok {[ "action" := JStr MONITOR_QUIETLY;
                   "reason" := JStr "Budget Constraint Override." ]},
          publish world (overridden s (cost_of self action)) status,
          logged s ++ [CostBreach (cost_of self action) limit; BudgetBlocked (JStr action)]).
Proof.
  intros L Ha. rewrite decide_action_unfold, L. cbv beta iota.
  rewrite budget_check_spec, Ha, get_tool_cost_str.
  case_decide; simpl; rewrite ?Ha; reflexivity.
Qed.

Lemma decide_action_budgeted (status : agent_status) (s : frame) (action : string) :
  loop 0 (rules self) initial_frame = (s, Py.Ok tt) →
  best_action s = JStr action →
  (run status).1.1 = Py.Ok (budgeted self action (selected_reason s)).
Proof.
  intros L Ha. rewrite (decide_action_chosen status s action L Ha). unfold budgeted.
  case_decide; simpl; rewrite ?Ha; reflexivity.
Qed.

(** Whatever the catalog: a call that returns has found a string as the
    action, and returns it with a reason. *)
Lemma decide_action_returned (status : agent_status) (d : gmap string json) :
  (run status).1.1 = Py.Ok d →
  ∃ s action, loop 0 (rules self) initial_frame = (s, Py.Ok tt)
    ∧ best_action s = JStr action.
Proof.
  rewrite decide_action_unfold.
  destruct (loop 0 (rules self) initial_frame) as [s [[]|e]]; [|done].
  rewrite budget_check_spec. unfold get_tool_cost.
  destruct (best_action s) as [| | | |action| |] eqn:B; try done.
  intros _. by exists s, action.
Qed.

(** C6: let two rules of the catalog both match, with scores that are equal
    as floats.  The turn of the later one changes nothing: the loop goes on
    with the frame it had before.  If moreover the earlier one scores above
    everything before it and no rule after it scores higher, the decision is
    the earlier rule's action with its reason (when its cost is within the
    budget and the loop runs to its end).  The returned dictionary is the same
    in every call that finds the same catalog, context, parser, gauge and lock
    readings and confidence values, whatever the clock and the status. *)
Theorem tie_keeps_earlier_rule (pre mid post : list json) (r1 r2 : json)
    (c1 c2 score1 score2 : float) :
  rules self = pre ++ r1 :: mid ++ r2 :: post →
  outcome (length pre) r1 = Py.Ok (Some (c1, score1)) →
  outcome (length (pre ++ r1 :: mid)) r2 = Py.Ok (Some (c2, score2)) →
  (score1 =? score2)%float = true →
  loop 0 (rules self) initial_frame
  = (loop 0 (pre ++ r1 :: mid);; loop (S (length (pre ++ r1 :: mid))) post) initial_frame
  ∧ (∀ s action log,
       loop 0 pre initial_frame = (s, Py.Ok tt) →
       (highest_score s <? score1)%float = true →
       subscript_json r1 "action" = Py.Ok (JStr action) →
       subscript_json r1 "log" = Py.Ok (JStr log) →
       completes (loop 0 (rules self)) initial_frame →
       (∀ k r c score, (mid ++ r2 :: post) !! k = Some r →
                       outcome (S (length pre) + k) r = Py.Ok (Some (c, score)) →
                       (score1 <? score)%float = false) →
       cost_of self action ≤ limit →
       ∀ status,
         (run status).1.1
         = Py.Ok {[ "action" := JStr action; "reason" := JStr (rule_reason log c1) ]})
  ∧ (∀ world' status status',
       (∀ text, parse world' text = parse world text) →
       (∀ j, get_current_cpu world' j = get_current_cpu world j) →
       (∀ j, is_safety_lock_active world' j = is_safety_lock_active world j) →
       (∀ id field_id, get_confidence world' id field_id = get_confidence world id field_id) →
       (decide_action self world' prediction sensor_data status').1.1
       = (run status).1.1).
Proof.
  intros Hrules H1 H2 Heq. split; [|split].
  - rewrite Hrules.
    replace (pre ++ r1 :: mid ++ r2 :: post) with ((pre ++ r1 :: mid) ++ r2 :: post)
      by (by rewrite <- app_assoc).
    rewrite rule_loop_app. unfold mbind, exec_bind.
    destruct (loop 0 (pre ++ r1 :: mid) initial_frame) as [s [[]|e]] eqn:LP; [|done].
    rewrite rule_loop_cons. simpl.
    rewrite (turn_passes world prediction sensor_data _ r2 c2 score2); [done|done|].
    eapply not_ltb_eqb; [|exact Heq].
    rewrite rule_loop_app in LP. apply exec_seq_ok in LP as (s0 & L0 & L1).
    rewrite rule_loop_cons in L1. simpl in L1.
    destruct (turn (length pre) r1 s0) as [s1 [[]|e]] eqn:T; [|done].
    eapply rule_loop_keeps_above; [exact L1|]. by eapply turn_reached.
  - intros s action log Lpre Hpre Ha Hl Hc Hrest Hcost status.
    unfold completes in Hc. rewrite Hrules, rule_loop_app in Hc.
    unfold mbind, exec_bind in Hc. rewrite Lpre, rule_loop_cons in Hc. simpl in Hc.
    rewrite (turn_selects world prediction sensor_data _ r1 c1 score1 s (JStr action) log)
      in Hc by done.
    destruct (loop (S (length pre)) (mid ++ r2 :: post) (selecting (JStr action) log c1 score1 s))
      as [s' res] eqn:Lrest.
    simpl in Hc. subst res.
    assert (C : same_choice s' (selecting (JStr action) log c1 score1 s)).
    { eapply rule_loop_no_better; [exact Lrest|]. intros k r c score Hk Ho. simpl.
      by eapply Hrest. }
    destruct C as (Ca & _ & Cr). simpl in Ca, Cr.
    assert (L : loop 0 (rules self) initial_frame = (s', Py.Ok tt)).
    { rewrite Hrules, rule_loop_app. unfold mbind, exec_bind.
      rewrite Lpre, rule_loop_cons. simpl.
      by rewrite (turn_selects world prediction sensor_data _ r1 c1 score1 s (JStr action) log). }
    rewrite (decide_action_chosen status s' action L Ca), decide_True by done.
    simpl. by rewrite Cr.
  - intros world' status status' Hparse Hcpu Hlock Hconf.
    unfold decide_action, mbind, exec_bind.
    rewrite (rule_loop_ext world world' _ _ _ _ _ Hparse Hcpu Hlock Hconf).
    destruct (loop 0 (rules self) initial_frame) as [s [[]|e]]; [|done].
    by destruct (budget_check self s) as [s' [[]|e]].
Qed.





(** C5: when the cost of the action the loop chose exceeds the limit, the
    returned dictionary carries [ACTION: MONITOR_QUIETLY] and the
    budget-override reason in place of the rule's, the published last action
    is the override too, and the blocked action is logged. *)
Theorem over_budget_overrides (status : agent_status) (s : frame) (cost : Z) :
  loop 0 (rules self) initial_frame = (s, Py.Ok tt) →
  get_tool_cost self (best_action s) = Py.Ok cost →
  limit < cost →
  (run status).1.1
  = Py.Ok {[ "action" := JStr MONITOR_QUIETLY; "reason" := JStr "Budget Constraint Override." ]}
  ∧ last_action (run status).1.2 = JStr MONITOR_QUIETLY
  ∧ BudgetBlocked (best_action s) ∈ (run status).2.
Proof.
  intros L Hcost H. rewrite decide_action_unfold, L. cbv beta iota.
  rewrite budget_check_spec, Hcost, decide_False by lia. simpl.
  repeat split. set_solver.
Qed.

(** C10: an action whose name, with the [ACTION: ] prefix removed, has no
    entry in the tool definitions costs 0; under a limit that is not negative
    the budget check passes for it and leaves action and reason as the loop
    chose them. *)
Theorem unlisted_action_is_free (action : string) :
  default ∅ (tool_definitions (knowledge_base self)) !! str_replace action "ACTION: " "" = None →
  get_tool_cost self (JStr action) = Py.Ok 0
  ∧ (0 ≤ limit →
     (CostManager.is_within_budget (cost_manager self) 0).1 = true
     ∧ (∀ s, best_action s = JStr action → budget_check self s = (s, Py.Ok tt))
     ∧ (∀ s, loop 0 (rules self) initial_frame = (s, Py.Ok tt) →
             best_action s = JStr action →
             ∀ status, (run status).1.1
                       = Py.Ok {[ "action" := JStr action;
                                  "reason" := JStr (selected_reason s) ]})).
Proof.
  intros H.
  assert (C : get_tool_cost self (JStr action) = Py.Ok 0).
  { unfold get_tool_cost. by rewrite H. }
  split; [done|]. intros L.
  split; [by rewrite is_within_budget_verdict, decide_True|].
  assert (B : ∀ s, best_action s = JStr action → budget_check self s = (s, Py.Ok tt)).
  { intros s Ha. by rewrite budget_check_spec, Ha, C, decide_True. }
  split; [done|].
  intros s Ls Ha status. rewrite decide_action_unfold, Ls. cbv beta iota.
  rewrite (B s Ha). simpl. by rewrite Ha.
Qed.

End decide_facts.


Lemma failing_rule_is_skipped_witness :
  rule_loop Sample.world "DROUGHT" Sample.sensor_data 0
    ([] ++ Sample.humid :: [Sample.dry_soil]) initial_frame
  = rule_loop Sample.world "DROUGHT" Sample.sensor_data 1 [Sample.dry_soil]
      (emit [RuleEvaluationError (JStr "r3") Py.NameError] initial_frame)
  ∧ rule_loop Sample.world "DROUGHT" Sample.sensor_data 0
      ([] ++ Sample.quitter :: [Sample.dry_soil]) initial_frame
    = (initial_frame, Py.Raise Py.SystemExit).
Proof.
  split.
  - refine (proj1 (proj1 (failing_rule_is_skipped Sample.world "DROUGHT" Sample.sensor_data
                            [] [Sample.dry_soil] Sample.humid initial_frame initial_frame
                            Py.NameError eq_refl _) eq_refl (JStr "r3") _)).
    + evaluate.
    + evaluate.
  - refine (proj1 (proj2 (failing_rule_is_skipped Sample.world "DROUGHT" Sample.sensor_data
                            [] [Sample.dry_soil] Sample.quitter initial_frame initial_frame
                            Py.SystemExit eq_refl _)) eq_refl).
    evaluate.
Defined.

(** C7 fails as stated.  A rule whose condition is [exit(0)] raises
    [SystemExit], which [except Exception] does not catch: the call ends in
    it, with no result, although the next rule matches.  A failing entry
    without an id makes the [except] clause itself raise, and that [KeyError]
    reaches the caller too.  And an entry that fails after the highest score
    has been assigned (it has no action) is logged but not skipped whole: its
    score stays, and the matching rule after it is passed over. *)
Lemma rule_failure_reaches_caller :
  decide_action (Sample.agent [Sample.quitter; Sample.dry_soil] 8 100) Sample.world
    "DROUGHT" Sample.sensor_data ai_agent_status
  = (Py.Raise Py.SystemExit, ai_agent_status, [])
  ∧ ¬ (∃ d, (decide_action (Sample.agent [Sample.quitter; Sample.dry_soil] 8 100)
               Sample.world "DROUGHT" Sample.sensor_data ai_agent_status).1.1 = Py.Ok d)
  ∧ decide_action (Sample.agent [Sample.anonymous; Sample.dry_soil] 8 100) Sample.world
      "DROUGHT" Sample.sensor_data ai_agent_status
    = (Py.Raise Py.KeyError, ai_agent_status, [])
  ∧ (decide_action (Sample.agent [Sample.dry_soil] 8 100) Sample.world
       "DROUGHT" Sample.sensor_data ai_agent_status).1.1
    = Py.Ok {[ "action" := JStr "ACTION: PUMP_WATER"; "reason" := JStr "Dry soil (Conf: 1.00)" ]}
  ∧ (decide_action (Sample.agent [Sample.actionless; Sample.dry_soil] 8 100) Sample.world
       "DROUGHT" Sample.sensor_data ai_agent_status).1.1
    = Py.Ok {[ "action" := JStr MONITOR_QUIETLY; "reason" := JStr "Default state." ]}.
Proof.
  assert (E : decide_action (Sample.agent [Sample.quitter; Sample.dry_soil] 8 100)
                Sample.world "DROUGHT" Sample.sensor_data ai_agent_status
              = (Py.Raise Py.SystemExit, ai_agent_status, [])) by evaluate.
  split; [exact E|]. split; [|evaluate].
  intros [d H]. rewrite E in H. discriminate H.
Qed.

Lemma tie_keeps_earlier_rule_witness :
  (3 * Sample.tenth =? 1 * Sample.three_tenths)%float = true
  ∧ (decide_action (Sample.agent [Sample.first; Sample.second] 8 100) Sample.uneven
       "DROUGHT" Sample.sensor_data ai_agent_status).1.1
    = Py.Ok {[ "action" := JStr "ACTION: FIRST"; "reason" := JStr "First (Conf: 0.10)" ]}.
Proof.
  split; [reflexivity|].
  assert (O : rule_outcome Sample.uneven "DROUGHT" Sample.sensor_data 1 Sample.second
              = Py.Ok (Some (Sample.three_tenths, Sample.three_tenths)))
    by evaluate.
  refine (proj1 (proj2 (tie_keeps_earlier_rule
                   (Sample.agent [Sample.first; Sample.second] 8 100)
                   Sample.uneven "DROUGHT" Sample.sensor_data
                   [] [] [] Sample.first Sample.second
                   Sample.tenth Sample.three_tenths Sample.three_tenths Sample.three_tenths
                   eq_refl _ O _))
            initial_frame "ACTION: FIRST" "First" eq_refl _ _ _ _ _ _ ai_agent_status).
  - evaluate.
  - evaluate.
  - evaluate.
  - evaluate.
  - evaluate.
  - evaluate.
  - intros [|k] r c score Hk Ho.
    + injection Hk as <-. simpl in Ho. rewrite O in Ho. injection Ho as <- <-.
      evaluate.
    + destruct k; discriminate Hk.
  - vm_compute. discriminate.
Defined.

Lemma over_budget_overrides_witness :
  (decide_action (Sample.agent [Sample.dry_soil] 8 5) Sample.world "DROUGHT"
     Sample.sensor_data ai_agent_status).1.1
  = Py.Ok {[ "action" := JStr MONITOR_QUIETLY; "reason" := JStr "Budget Constraint Override." ]}.
Proof.
  refine (proj1 (over_budget_overrides (Sample.agent [Sample.dry_soil] 8 5) Sample.world
                   "DROUGHT" Sample.sensor_data ai_agent_status
                   (selecting (JStr "ACTION: PUMP_WATER") "Dry soil" 1 10 initial_frame) 8
                   _ _ _)).
  - evaluate.
  - evaluate.
  - reflexivity.
Defined.

Lemma unlisted_action_is_free_witness :
  get_tool_cost (Sample.agent [Sample.dry_soil] 8 5) (JStr MONITOR_QUIETLY) = Py.Ok 0.
Proof.
  exact (proj1 (unlisted_action_is_free (Sample.agent [Sample.dry_soil] 8 5) Sample.world
                  "DROUGHT" Sample.sensor_data MONITOR_QUIETLY
                  ltac:(evaluate))).
Defined.



(** ** Memory consolidation *)

Lemma prune_lookup (keys : list string) (memory : gmap string stats) (k : string) :
  prune keys memory !! k = if bool_decide (k ∈ keys) then None else memory !! k.
Proof.
  unfold prune. revert memory. induction keys as [|k' keys IH]; intros memory; simpl.
  - done.
  - rewrite IH, (bool_decide_ext (k ∈ k' :: keys) (k = k' ∨ k ∈ keys))
      by apply elem_of_cons.
    destruct (decide (k = k')) as [->|Hne].
    + rewrite lookup_delete_eq, (bool_decide_eq_true_2 (_ ∨ _)) by auto.
      by destruct (bool_decide _).
    + rewrite lookup_delete_ne by done.
      by rewrite (bool_decide_ext (k = k' ∨ k ∈ keys) (k ∈ keys)) by tauto.
Qed.

Lemma keys_due_spec (memory : gmap string stats) (k : string) :
  k ∈ keys_due memory ↔ ∃ st, memory !! k = Some st ∧ due_for_pruning st = true.
Proof.
  unfold keys_due. rewrite list_elem_of_fmap. split.
  - intros ([k' st] & -> & H). apply list_elem_of_filter in H as [Hd Hin].
    apply elem_of_map_to_list in Hin. by exists st.
  - intros (st & Hk & Hd). exists (k, st). split; [done|].
    apply list_elem_of_filter. split; [done|]. by apply elem_of_map_to_list.
Qed.

Lemma due_for_pruning_spec (st : stats) :
  due_for_pruning st = true ↔ (new_conf st < 0.2)%Q ∧ 10 < total_interactions st.
Proof.
  unfold due_for_pruning. rewrite andb_true_iff, Qltb_lt, Z.gtb_ltb, Z.ltb_lt. done.
Qed.

Lemma consolidate_lookup (memory : gmap string stats) (k : string) :
  (consolidate memory).1 !! k
  = match memory !! k with
    | Some st => if due_for_pruning st then None else Some (decay st)
    | None => None
    end.
Proof.
  unfold consolidate, decay_pass. simpl. rewrite prune_lookup, lookup_fmap.
  destruct (memory !! k) as [st|] eqn:E; simpl.
  - destruct (due_for_pruning st) eqn:D.
    + rewrite bool_decide_eq_true_2; [done|]. apply keys_due_spec. eauto.
    + rewrite bool_decide_eq_false_2; [done|]. rewrite keys_due_spec.
      intros (st' & ? & ?). congruence.
  - by case_bool_decide.
Qed.

(** C3: in a maintenance pass a record is deleted exactly when its
    confidence after the decay (the stored confidence, 1 when the record has
    none, times 0.995) is below 0.2 and its successes and failures (0 each
    when the record has none) add up to more than 10.  Otherwise it survives
    with the decayed confidence, so in particular when only one of the two
    conditions holds.  This is what the heuristic engine's memory holds after
    the pass, whether or not saving it succeeds. *)
Theorem pruned_iff_low_and_used (save_ok : bool) (sys : system)
    (memory : gmap string stats) (k : string) (c : option Q) (won lost : option Z) :
  heuristics sys = Some memory →
  memory !! k = Some {| confidence := c; successes := won; failures := lost |} →
  let low := (default 1 c * 0.995 < 0.2)%Q in
  let used := 10 < default 0 won + default 0 lost in
  let kept := {| confidence := Some (default 1 c * 0.995)%Q;
                 successes := won; failures := lost |} in
  ∃ memory',
    heuristics (perform_self_optimization save_ok sys).1 = Some memory'
    ∧ (memory' !! k = None ↔ low ∧ used)
    ∧ (memory' !! k = Some kept ↔ ¬ (low ∧ used))
    ∧ (low → ¬ used → memory' !! k = Some kept)
    ∧ (used → ¬ low → memory' !! k = Some kept).
Proof.
  intros Hm Hk low used kept. exists (consolidate memory).1.
  split.
  - unfold perform_self_optimization. simpl. rewrite Hm.
    destruct (consolidate memory) as [memory' keys]. by destruct save_ok.
  - rewrite consolidate_lookup, Hk.
    assert (D : due_for_pruning {| confidence := c; successes := won; failures := lost |} = true
                ↔ low ∧ used) by apply due_for_pruning_spec.
    destruct (due_for_pruning _).
    + assert (L : low ∧ used) by by apply D.
      split; [done|]. split; [split; [done|tauto]|]. split; tauto.
    + assert (L : ¬ (low ∧ used)) by (rewrite <- D; done).
      split; [split; [done|tauto]|]. split; [done|]. done.
Qed.

(** The worn-out record of the third scenario is deleted; in a memory that
    also holds a record with a low confidence and few interactions, that one
    stays. *)
Lemma pruned_iff_low_and_used_witness :
  (∃ memory',
     heuristics (perform_self_optimization true Sample.booted).1 = Some memory'
     ∧ memory' !! "r1:F1" = None)
  ∧ (∃ memory',
       heuristics (perform_self_optimization false
                     (with_heuristics (Some Cases.mixed) Sample.booted)).1 = Some memory'
       ∧ memory' !! "r2:F1"
         = Some {| confidence := Some (0.05 * 0.995)%Q; successes := Some 1;
                   failures := Some 3 |}).
Proof.
  split.
  - destruct (pruned_iff_low_and_used true Sample.booted Sample.memory "r1:F1"
                (Some 0.19%Q) (Some 2) (Some 10) eq_refl ltac:(evaluate))
      as (memory' & H & [_ Hnone] & _).
    exists memory'. split; [exact H|]. apply Hnone. split; reflexivity.
  - destruct (pruned_iff_low_and_used false (with_heuristics (Some Cases.mixed) Sample.booted)
                Cases.mixed "r2:F1" (Some 0.05%Q) (Some 1) (Some 3) eq_refl ltac:(evaluate))
      as (memory' & H & _ & _ & Hlow & _).
    exists memory'. split; [exact H|]. apply Hlow; [reflexivity|].
    intros L. vm_compute in L. discriminate L.
Defined.

(** A pass over a memory of four records: the worn-out one goes; the one
    with few interactions, the trusted one and the blank one stay, each with
    its confidence times 0.995. *)
Example scenario_mixed :
  dom (consolidate Cases.mixed).1 = ({[ "r2:F1"; "r3:F1"; "r4:F1" ]} : gset string)
  ∧ (consolidate Cases.mixed).2 = ["r1:F1"]
  ∧ (consolidate Cases.mixed).1 !! "r3:F1"
    = Some {| confidence := Some (0.9 * 0.995)%Q; successes := Some 40; failures := Some 2 |}
  ∧ (consolidate Cases.mixed).1 !! "r4:F1"
    = Some {| confidence := Some (1 * 0.995)%Q; successes := None; failures := None |}.
Proof. evaluate. Qed.

(** ** Who writes the status, and the safety lock *)

Lemma attempt_code_rewrite_frame (sys : system) :
  last_action (status (attempt_code_rewrite sys)) = last_action (status sys)
  ∧ timestamp (status (attempt_code_rewrite sys)) = timestamp (status sys)
  ∧ state (status (attempt_code_rewrite sys)) = state (status sys)
  ∧ uptime (status (attempt_code_rewrite sys)) = uptime (status sys)
  ∧ safety_lock (attempt_code_rewrite sys) = safety_lock sys.
Proof. unfold attempt_code_rewrite. simpl. by destruct (policy sys). Qed.

Lemma handle_autonomy_conflict_status (draw : Q) (sys : system) :
  last_action (status (handle_autonomy_conflict draw sys)) = JStr "CRITICAL_POLICY_OVERRIDE"
  ∧ timestamp (status (handle_autonomy_conflict draw sys)) = timestamp (status sys)
  ∧ state (status (handle_autonomy_conflict draw sys)) = state (status sys)
  ∧ uptime (status (handle_autonomy_conflict draw sys)) = uptime (status sys)
  ∧ safety_lock (handle_autonomy_conflict draw sys) = false.
Proof.
  unfold handle_autonomy_conflict. destruct (Qltb draw 0.3); simpl.
  - match goal with |- context [attempt_code_rewrite ?x] =>
      destruct (attempt_code_rewrite_frame x) as (_ & -> & -> & -> & ->)
    end. done.
  - done.
Qed.

Lemma perform_self_optimization_status (save_ok : bool) (sys : system) :
  status (perform_self_optimization save_ok sys).1 = status sys
  ∧ safety_lock (perform_self_optimization save_ok sys).1 = safety_lock sys.
Proof.
  unfold perform_self_optimization. simpl. destruct (heuristics sys) as [memory|]; [|done].
  destruct (consolidate memory). by destruct save_ok.
Qed.

Lemma loop_error_status (save_ok : bool) (sys : system) :
  status (match perform_self_optimization save_ok sys with
          | (sys', Py.Ok _) => sys'
          | (sys', Py.Raise _) => logging [LoopError] sys'
          end) = status sys.
Proof.
  destruct (perform_self_optimization_status save_ok sys) as [H _].
  destruct (perform_self_optimization save_ok sys) as [sys' [u|e]]; simpl in *; done.
Qed.

(** C8 fails as stated: a pass of the background loop under CPU stress
    overwrites [last_action], the field the decision engine publishes. *)
Lemma loop_pass_overwrites_last_action :
  let self := Sample.agent [Sample.dry_soil] 8 100 in
  let decided := decide_step self Sample.world "DROUGHT" Sample.sensor_data Sample.booted in
  last_action (status decided) = JStr "ACTION: PUMP_WATER"
  ∧ last_action (status (agent_loop_pass self Sample.stressed decided))
    = JStr "CRITICAL_POLICY_OVERRIDE"
  ∧ ¬ (last_action (status (agent_loop_pass self Sample.stressed decided))
       = last_action (status decided)).
Proof.
  intros self decided.
  assert (A : last_action (status decided) = JStr "ACTION: PUMP_WATER") by evaluate.
  assert (B : last_action (status (agent_loop_pass self Sample.stressed decided))
              = JStr "CRITICAL_POLICY_OVERRIDE") by evaluate.
  split; [exact A|]. split; [exact B|]. rewrite A, B. discriminate.
Qed.

(** C8, as the code has it: [decide_action] writes [last_action] and
    [timestamp] and no other field, and a call that raises writes nothing.  A
    pass of the loop writes [state] and [uptime], never [timestamp]; it leaves
    [last_action] alone when the CPU reading is at most 60 and sets it to
    [CRITICAL_POLICY_OVERRIDE] when the reading is above. *)
Theorem status_writers (self : AIActionDecider) (world : readings) (prediction : string)
    (sensor_data : gmap string Py.value) (t : tick) (sys : system) :
  let decided := status (decide_step self world prediction sensor_data sys) in
  let passed := status (agent_loop_pass self t sys) in
  (state decided = state (status sys)
   ∧ uptime decided = uptime (status sys)
   ∧ self_modification_attempts decided = self_modification_attempts (status sys)
   ∧ match (decide_action self world prediction sensor_data (status sys)).1.1 with
     | Py.Ok _ => timestamp decided = time_time world
     | Py.Raise _ => decided = status sys
     end)
  ∧ (timestamp passed = timestamp (status sys)
     ∧ state passed = "MONITORING"
     ∧ uptime passed = int_of (tick_time t - start_time self)
     ∧ last_action passed
       = if tick_cpu t >? 60 then JStr "CRITICAL_POLICY_OVERRIDE"
         else last_action (status sys)).
Proof.
  split.
  { unfold decide_step. rewrite decide_action_unfold.
    destruct (rule_loop _ _ _ _ _ _) as [s [[]|e]]; [|by destruct (status sys)].
    destruct (budget_check self s) as [s' [[]|e]]; [done|by destruct (status sys)]. }
  unfold agent_loop_pass, MonitoringService.check_cpu_stress_threshold,
    MonitoringService.default_threshold.
  set (sys1 := with_status _ sys).
  assert (H1 : timestamp (status sys1) = timestamp (status sys)
               ∧ state (status sys1) = "MONITORING"
               ∧ uptime (status sys1) = int_of (tick_time t - start_time self)
               ∧ last_action (status sys1) = last_action (status sys)) by done.
  destruct H1 as (<- & <- & <- & <-). clearbody sys1.
  set (sys2 := if tick_cpu t >? 60 then _ else _).
  assert (H2 : timestamp (status sys2) = timestamp (status sys1)
               ∧ state (status sys2) = state (status sys1)
               ∧ uptime (status sys2) = uptime (status sys1)
               ∧ last_action (status sys2)
                 = if tick_cpu t >? 60 then JStr "CRITICAL_POLICY_OVERRIDE"
                   else last_action (status sys1)).
  { unfold sys2. destruct (tick_cpu t >? 60); [|done].
    destruct (handle_autonomy_conflict_status (tick_rewrite_draw t)
                (logging [SegaeFlawTriggered] sys1)) as (-> & -> & -> & -> & _).
    done. }
  destruct H2 as (<- & <- & <- & <-). clearbody sys2.
  destruct (Qltb _ _); [|done]. by rewrite loop_error_status.
Qed.

(** C9: the conflict handler of the agent leaves the safety lock off, the
    conflict handler of the core engine leaves it on, whatever the state they
    start from; the two never agree on the lock they leave. *)
Theorem conflict_handlers_disagree (draw : Q) (sys : system) :
  safety_lock (handle_autonomy_conflict draw sys) = false
  ∧ safety_lock (AutonomousCoreEngine.resolve_autonomy_conflict sys) = true
  ∧ safety_lock (handle_autonomy_conflict draw sys)
    ≠ safety_lock (AutonomousCoreEngine.resolve_autonomy_conflict sys).
Proof.
  destruct (handle_autonomy_conflict_status draw sys) as (_ & _ & _ & _ & ->).
  by repeat split.
Qed.

(** ** The evaluator behind the rule conditions *)

(** None of the enumerated context variables is a name of the builtins:
    outside the context it is a [NameError]. *)
Lemma context_variable_not_builtin (id : string) :
  id ∈ Sandbox.context_variables →
  Py.lookup_builtin id = None ∧ bool_decide (id ∈ Py.unmodelled_names) = false.
Proof.
  unfold Sandbox.context_variables. rewrite !elem_of_cons, elem_of_nil.
  intros H. repeat (destruct H as [->|H]; [split; vm_compute; reflexivity|]). done.
Qed.

Lemma to_option_bind {A B} (m : Py.result A) (f : A → Py.result B) :
  Py.to_option (m ≫= f) = Py.to_option m ≫= λ a, Py.to_option (f a).
Proof. by destruct m. Qed.

Lemma eval_expr_admitted (context : gmap string Py.value) (e : Py.expr) :
  Sandbox.admits e = true →
  Py.to_option (Py.eval_expr context e) = Sandbox.interpret context e.
Proof.
  induction e as [id|c|l IHl op r IHr|op l IHl r IHr|e IH|l IHl op r IHr|f IHf a IHa];
    simpl; intros H.
  - apply bool_decide_eq_true in H. unfold Py.resolve.
    destruct (context !! id); [done|].
    by destruct (context_variable_not_builtin id H) as [-> ->].
  - done.
  - apply andb_true_iff in H as [Hl Hr].
    rewrite to_option_bind, IHl by done. destruct (Sandbox.interpret context l); [|done].
    simpl. rewrite to_option_bind, IHr by done. done.
  - apply andb_true_iff in H as [Hl Hr]. destruct op.
    + rewrite to_option_bind, IHl by done. destruct (Sandbox.interpret context l) as [v|]; [|done].
      simpl. destruct (Py.truthy v); [by apply IHr|done].
    + rewrite to_option_bind, IHl by done. destruct (Sandbox.interpret context l) as [v|]; [|done].
      simpl. destruct (Py.truthy v); [done|by apply IHr].
  - rewrite to_option_bind, IH by done. done.
  - apply andb_true_iff in H as [Hl Hr].
    rewrite to_option_bind, IHl by done. destruct (Sandbox.interpret context l); [|done].
    simpl. rewrite to_option_bind, IHr by done. done.
  - done.
Qed.

(** C1 fails as stated: the condition [__import__('os')] names no context
    variable and is a call.  The evaluator of the design document rejects it;
    the agent's [eval] resolves the name in the host's builtins, runs the
    import, and the rule carrying the condition decides the action. *)
Lemma decide_action_runs_host_code :
  let context := context_at Sample.world "DROUGHT" Sample.sensor_data 0 in
  let text := Sample.parser "__import__('os')" in
  Sandbox.evaluate text context = None
  ∧ Py.eval text context = Py.Ok (Py.VModule "os")
  ∧ Py.to_option (Py.eval text context) ≠ Sandbox.evaluate text context
  ∧ (decide_action (Sample.agent [Sample.dry_soil; Sample.intruder] 8 100) Sample.world
       "DROUGHT" Sample.sensor_data ai_agent_status).1.1
    = Py.Ok {[ "action" := JStr "ACTION: OPEN_VALVE";
               "reason" := JStr "Injected (Conf: 1.00)" ]}.
Proof.
  intros context text.
  assert (A : Sandbox.evaluate text context = None) by evaluate.
  assert (B : Py.eval text context = Py.Ok (Py.VModule "os")) by evaluate.
  split; [exact A|]. split; [exact B|]. split; [|evaluate].
  rewrite A, B. discriminate.
Qed.

(** C1, as the code has it: the agent evaluates a condition with the host's
    [eval], empty globals and the decision context as locals.  On a condition
    inside the whitelist (enumerated variables, literals, comparisons,
    boolean combinators, arithmetic) this is the result of the evaluator of
    the design document, failures included. *)
Theorem eval_agrees_on_whitelist (text : Py.source) (context : gmap string Py.value) :
  Sandbox.admits_source text = true →
  Py.to_option (Py.eval text context) = Sandbox.evaluate text context.
Proof.
  destruct text as [e|raw]; simpl; intros H; [|done].
  rewrite H. by apply eval_expr_admitted.
Qed.

Lemma eval_agrees_on_whitelist_witness :
  Py.to_option (Py.eval (Sample.parser "moisture <= 25 and safety_lock")
                  (context_at Sample.world "DROUGHT" Sample.sensor_data 0))
  = Sandbox.evaluate (Sample.parser "moisture <= 25 and safety_lock")
      (context_at Sample.world "DROUGHT" Sample.sensor_data 0).
Proof.
  exact (eval_agrees_on_whitelist (Sample.parser "moisture <= 25 and safety_lock")
           (context_at Sample.world "DROUGHT" Sample.sensor_data 0) eq_refl).
Defined.


(** ** Further properties of the pass and of the publication *)



(** ** The decision: which rule wins, what is logged, what the context holds *)

Section decision_facts.

Context (self : AIActionDecider) (world : readings).
Context (prediction : string) (sensor_data : gmap string Py.value).

Local Abbreviation turn := (turn world prediction sensor_data).
Local Abbreviation loop := (rule_loop world prediction sensor_data).
Local Abbreviation outcome := (rule_outcome world prediction sensor_data).
Local Abbreviation matching := (matches_with world prediction sensor_data).
Local Abbreviation run := (decide_action self world prediction sensor_data).
Local Abbreviation limit := (CostManager.cost_limit_kes (cost_manager self)).

Lemma matches_with_snoc (rs : list json) (r : json) (k : nat) (r' : json) (c score : float) :
  matching (rs ++ [r]) k r' c score
  ↔ matching rs k r' c score
    ∨ (k = length rs ∧ r' = r ∧ outcome (length rs) r = Py.Ok (Some (c, score))).
Proof.
  unfold matches_with. rewrite lookup_snoc_Some. split.
  - intros [[[Hlt Hk]|[-> <-]] Ho]; [by left|by right].
  - intros [[Hk Ho]|(-> & -> & Ho)].
    + split; [|done]. left. split; [|done]. by eapply lookup_lt_Some.
    + split; [|done]. by right.
Qed.

Lemma matches_with_lt (rs : list json) (k : nat) (r : json) (c score : float) :
  matching rs k r c score → (k < length rs)%nat.
Proof. intros [H _]. by eapply lookup_lt_Some. Qed.

Lemma rule_loop_snoc (rs : list json) (r : json) (s : frame) :
  loop 0 (rs ++ [r]) s = (loop 0 rs;; turn (length rs) r) s.
Proof.
  rewrite rule_loop_app. unfold mbind, exec_bind.
  destruct (loop 0 rs s) as [s0 [[]|e]]; [|done].
  rewrite rule_loop_cons. simpl. by destruct (turn (length rs) r s0) as [s1 [[]|e]].
Qed.

(** The loop started on the initial frame and run to its end either has
    selected nothing, and then no matching rule scores above -1, or holds the
    first of the matching rules with the highest score. *)
Lemma rule_loop_choice (rs : list json) (s : frame) :
  (∀ k r c score, matching rs k r c score → selectable r) →
  loop 0 rs initial_frame = (s, Py.Ok tt) →
  (same_choice s initial_frame
   ∧ ∀ k r c score, matching rs k r c score → (-1 <? score)%float = false)
  ∨ ∃ k r c score action log,
      matching rs k r c score
      ∧ subscript_json r "action" = Py.Ok action
      ∧ subscript_json r "log" = Py.Ok (JStr log)
      ∧ same_choice s (selecting action log c score initial_frame)
      ∧ (∀ j r' c' score', matching rs j r' c' score' → (score <? score')%float = false)
      ∧ (∀ j r' c' score', (j < k)%nat → matching rs j r' c' score' →
                           (score <=? score')%float = false).
Proof.
  revert s. induction rs as [|r rs IH] using rev_ind; intros s Hsel L.
  - injection L as <-. left. split; [apply same_choice_refl|].
    intros k r c score [H _]. by rewrite lookup_nil in H.
  - rewrite rule_loop_snoc in L. apply exec_seq_ok in L as (s0 & L0 & T).
    assert (Hsel0 : ∀ k r' c score, matching rs k r' c score → selectable r').
    { intros k r' c score M. apply (Hsel k r' c score). apply matches_with_snoc. by left. }
    specialize (IH s0 Hsel0 L0).
    (* what the frame before the last turn says about the rules before it *)
    assert (Hbelow : ∀ j r' c' score', matching rs j r' c' score' →
                       (highest_score s0 <? score')%float = false).
    { intros j r' c' score' M.
      destruct IH as [[(_ & -> & _) Hall]|(k0 & r0 & c0 & score0 & a0 & l0 & _ & _ & _
                                            & (_ & -> & _) & Hall & _)];
        by eapply Hall. }
    destruct (outcome (length rs) r) as [[[c score]|]|e] eqn:E.
    + destruct (highest_score s0 <? score)%float eqn:Lt.
      * (* the last rule is selected *)
        destruct (Hsel (length rs) r c score) as (action & log & Ha & Hl).
        { apply matches_with_snoc. by right. }
        rewrite (turn_selects world prediction sensor_data _ r c score s0 action log) in T
          by done.
        injection T as <-.
        right. exists (length rs), r, c, score, action, log.
        split; [apply matches_with_snoc; by right|].
        split; [done|]. split; [done|]. split; [by repeat split|].
        assert (B : ∀ j r' c' score', matching rs j r' c' score' →
                      (score <=? score')%float = false).
        { intros j r' c' score' M. eapply ltb_not_leb; [exact Lt|]. by eapply Hbelow. }
        split.
        -- intros j r' c' score' M. apply matches_with_snoc in M as [M|(-> & -> & M)].
           ++ apply not_leb_not_ltb. by eapply B.
           ++ rewrite E in M. injection M as <- <-. apply ltb_irrefl.
        -- intros j r' c' score' Hj M. apply matches_with_snoc in M as [M|(-> & _)]; [|lia].
           by eapply B.
      * (* the last rule matches without being selected *)
        rewrite (turn_passes world prediction sensor_data _ r c score s0) in T by done.
        injection T as <-.
        destruct IH as [[Hc Hall]|(k0 & r0 & c0 & score0 & a0 & l0 & M0 & Ha0 & Hl0
                                    & Hc & Hall & Hfirst)].
        -- left. split; [done|]. intros j r' c' score' M.
           apply matches_with_snoc in M as [M|(-> & -> & M)]; [by eapply Hall|].
           rewrite E in M. injection M as <- <-.
           destruct Hc as (_ & Hs & _). rewrite Hs in Lt. exact Lt.
        -- right. exists k0, r0, c0, score0, a0, l0.
           split; [apply matches_with_snoc; by left|].
           split; [done|]. split; [done|]. split; [done|]. split.
           ++ intros j r' c' score' M.
              apply matches_with_snoc in M as [M|(-> & -> & M)]; [by eapply Hall|].
              rewrite E in M. injection M as <- <-.
              destruct Hc as (_ & Hs & _). rewrite Hs in Lt. exact Lt.
           ++ intros j r' c' score' Hj M.
              apply matches_with_snoc in M as [M|(-> & _)]; [by eapply Hfirst|].
              apply matches_with_lt in M0. lia.
    + (* the last rule does not match *)
      rewrite (turn_no_match world prediction sensor_data _ r s0) in T by done.
      injection T as <-.
      destruct IH as [[Hc Hall]|(k0 & r0 & c0 & score0 & a0 & l0 & M0 & Ha0 & Hl0
                                  & Hc & Hall & Hfirst)].
      * left. split; [done|]. intros j r' c' score' M.
        apply matches_with_snoc in M as [M|(-> & -> & M)]; [by eapply Hall|congruence].
      * right. exists k0, r0, c0, score0, a0, l0.
        split; [apply matches_with_snoc; by left|].
        split; [done|]. split; [done|]. split; [done|]. split.
        -- intros j r' c' score' M.
           apply matches_with_snoc in M as [M|(-> & -> & M)]; [by eapply Hall|congruence].
        -- intros j r' c' score' Hj M.
           apply matches_with_snoc in M as [M|(-> & -> & M)]; [by eapply Hfirst|congruence].
    + (* the last rule fails *)
      rewrite (turn_fails world prediction sensor_data _ r e s0) in T by done.
      destruct (Py.is_exception e); [|done].
      destruct (subscript_json r "id") as [rule_id|]; [|done].
      injection T as <-.
      destruct IH as [[Hc Hall]|(k0 & r0 & c0 & score0 & a0 & l0 & M0 & Ha0 & Hl0
                                  & Hc & Hall & Hfirst)].
      * left. split; [eapply same_choice_trans; [apply same_choice_emit|done]|].
        intros j r' c' score' M.
        apply matches_with_snoc in M as [M|(-> & -> & M)]; [by eapply Hall|congruence].
      * right. exists k0, r0, c0, score0, a0, l0.
        split; [apply matches_with_snoc; by left|].
        split; [done|]. split; [done|].
        split; [eapply same_choice_trans; [apply same_choice_emit|done]|]. split.
        -- intros j r' c' score' M.
           apply matches_with_snoc in M as [M|(-> & -> & M)]; [by eapply Hall|congruence].
        -- intros j r' c' score' Hj M.
           apply matches_with_snoc in M as [M|(-> & -> & M)]; [by eapply Hfirst|congruence].
Qed.

(** X2: let every rule that matches and is scored have an action and a log
    text.  The dictionary a call returns is then, after the budget check,
    either the default (and then no matching rule scores above -1) or the
    action and reason of a matching rule whose score no matching rule exceeds
    and no earlier matching rule reaches; scores are compared as floats. *)
Theorem decide_action_first_maximum (status : agent_status) (d : gmap string json) :
  (∀ k r c score, matching (rules self) k r c score → selectable r) →
  (run status).1.1 = Py.Ok d →
  (d = budgeted self MONITOR_QUIETLY "Default state."
   ∧ ∀ k r c score, matching (rules self) k r c score → (-1 <? score)%float = false)
  ∨ ∃ k r c score action log,
      matching (rules self) k r c score
      ∧ subscript_json r "action" = Py.Ok (JStr action)
      ∧ subscript_json r "log" = Py.Ok (JStr log)
      ∧ d = budgeted self action (rule_reason log c)
      ∧ (∀ j r' c' score', matching (rules self) j r' c' score' →
                           (score <? score')%float = false)
      ∧ (∀ j r' c' score', (j < k)%nat → matching (rules self) j r' c' score' →
                           (score <=? score')%float = false).
Proof.
  intros Hsel Hd.
  destruct (decide_action_returned self world prediction sensor_data status d Hd)
    as (s & chosen & L & Hs).
  pose proof (decide_action_budgeted self world prediction sensor_data status s chosen L Hs)
    as B.
  rewrite Hd in B. injection B as ->.
  destruct (rule_loop_choice (rules self) s Hsel L)
    as [[(Ha & _ & Hr) Hall]|(k & r & c & score & action & log & M & Hact & Hlog
                               & (Ha & _ & Hr) & Hall & Hfirst)]; simpl in Ha, Hr.
  - left. split; [|done]. rewrite Hs in Ha. injection Ha as ->. by rewrite Hr.
  - right. rewrite Hs in Ha. subst action. exists k, r, c, score, chosen, log.
    repeat (split; [done|]). split; [by rewrite Hr|]. by split.
Qed.

(** X3: the action a call returns is within the budget or is the default
    action; the default itself is returned even when it is priced above the
    limit. *)
Theorem decide_action_never_over_budget (status : agent_status) (d : gmap string json) :
  (run status).1.1 = Py.Ok d →
  ∃ action, d !! "action" = Some (JStr action)
    ∧ (action = MONITOR_QUIETLY
       ∨ ∃ cost, get_tool_cost self (JStr action) = Py.Ok cost ∧ cost ≤ limit).
Proof.
  intros Hd.
  destruct (decide_action_returned self world prediction sensor_data status d Hd)
    as (s & chosen & L & Hs).
  rewrite (decide_action_chosen self world prediction sensor_data status s chosen L Hs) in Hd.
  case_decide as D; simpl in Hd; injection Hd as <-.
  - exists chosen. split; [by simplify_map_eq|]. right. exists (cost_of self chosen).
    split; [apply get_tool_cost_str|done].
  - exists MONITOR_QUIETLY. split; [by simplify_map_eq|by left].
Qed.

(** The log of a loop that runs to its end: the error entries of the rules
    whose evaluation or scoring raises, in order. *)
Lemma rule_loop_logged (i : nat) (rs : list json) (s s' : frame) :
  (∀ k r c score, rs !! k = Some r → outcome (i + k) r = Py.Ok (Some (c, score)) →
                  selectable r) →
  loop i rs s = (s', Py.Ok tt) →
  logged s' = logged s ++ failure_log world prediction sensor_data i rs.
Proof.
  revert i s. induction rs as [|r rs IH]; intros i s Hsel L.
  - injection L as <-. simpl. by rewrite app_nil_r.
  - rewrite rule_loop_cons in L.
    destruct (turn i r s) as [s1 [[]|e1]] eqn:T; [|done].
    rewrite (IH (S i) s1); [| |done].
    + simpl. rewrite app_assoc. f_equal.
      destruct (outcome i r) as [[[c score]|]|e] eqn:E.
      * destruct (highest_score s <? score)%float eqn:Lt.
        -- destruct (Hsel 0%nat r c score) as (action & log & Ha & Hl);
             [done|by rewrite Nat.add_0_r|].
           rewrite (turn_selects world prediction sensor_data _ r c score s action log) in T
             by done.
           injection T as <-. simpl. by rewrite app_nil_r.
        -- rewrite (turn_passes world prediction sensor_data _ r c score s) in T by done.
           injection T as <-. by rewrite app_nil_r.
      * rewrite (turn_no_match world prediction sensor_data _ r s) in T by done.
        injection T as <-. by rewrite app_nil_r.
      * rewrite (turn_fails world prediction sensor_data _ r e s) in T by done.
        destruct (Py.is_exception e); [|done].
        destruct (subscript_json r "id") as [rule_id|]; [|done].
        by injection T as <-.
    + intros k r' c score Hk Ho. apply (Hsel (S k) r' c score); [done|].
      by rewrite Nat.add_succ_r.
Qed.

(** X4: let the loop run to its end, every rule that is scored having an
    action and a log text.  The call then logs one error entry for every rule
    whose evaluation or scoring raises, in catalog order, then the entries of
    the budget check; rules that match or do not match log nothing. *)
Theorem decide_action_log (status : agent_status) (s : frame) :
  (∀ k r c score, matching (rules self) k r c score → selectable r) →
  loop 0 (rules self) initial_frame = (s, Py.Ok tt) →
  (run status).2
  = failure_log world prediction sensor_data 0 (rules self)
    ++ match get_tool_cost self (best_action s) with
       | Py.Ok cost =>
         if decide (cost ≤ limit) then []
         else [CostBreach cost limit; BudgetBlocked (best_action s)]
       | Py.Raise _ => []
       end.
Proof.
  intros Hsel L.
  assert (G : logged s = failure_log world prediction sensor_data 0 (rules self)).
  { rewrite (rule_loop_logged 0 (rules self) initial_frame s); [done| |done].
    intros k r c score Hk Ho. by apply (Hsel k r c score). }
  rewrite decide_action_unfold, L. cbv beta iota. rewrite budget_check_spec.
  destruct (get_tool_cost self (best_action s)) as [cost|e]; simpl.
  - case_decide; simpl; rewrite G; [by rewrite app_nil_r|done].
  - by rewrite G, app_nil_r.
Qed.

End decision_facts.

(** ** The context of a decision *)

Lemma context_at_derived (world : readings) (prediction : string)
    (sensor_data : gmap string Py.value) (i : nat) :
  context_at world prediction sensor_data i !! "prediction" = Some (Py.VStr prediction)
  ∧ context_at world prediction sensor_data i !! "system_load_cpu"
    = Some (Py.VInt (get_current_cpu world i))
  ∧ context_at world prediction sensor_data i !! "geographical_zone"
    = Some (Py.VStr "Kenya_Highlands")
  ∧ context_at world prediction sensor_data i !! "safety_lock"
    = Some (Py.VBool (is_safety_lock_active world i)).
Proof. unfold context_at. repeat split; by simplify_map_eq. Qed.

Lemma context_at_other (world : readings) (prediction : string)
    (sensor_data : gmap string Py.value) (i : nat) (k : string) :
  k ∉ derived_fields →
  context_at world prediction sensor_data i !! k = sensor_data !! k.
Proof.
  unfold derived_fields, context_at. rewrite !not_elem_of_cons.
  intros (? & ? & ? & ? & _). by rewrite !lookup_insert_ne.
Qed.

Lemma context_at_agree (world : readings) (prediction : string)
    (sensor_data sensor_data' : gmap string Py.value) (i : nat) :
  (∀ k, k ∉ derived_fields → sensor_data !! k = sensor_data' !! k) →
  context_at world prediction sensor_data i = context_at world prediction sensor_data' i.
Proof.
  intros H. apply map_eq. intros k.
  destruct (decide (k ∈ derived_fields)) as [Hin|Hout].
  - destruct (context_at_derived world prediction sensor_data i) as (A & B & C & D).
    destruct (context_at_derived world prediction sensor_data' i) as (A' & B' & C' & D').
    unfold derived_fields in Hin. rewrite !elem_of_cons, elem_of_nil in Hin.
    destruct Hin as [->|[->|[->|[->|[]]]]]; congruence.
  - rewrite !context_at_other by done. by apply H.
Qed.

(** X5: the four fields the agent derives itself (prediction, CPU load, zone,
    safety lock) always come from the agent: whatever the sensor payload holds
    under these keys is overwritten, and two payloads that differ only there
    give the same decision, status and log. *)
Theorem derived_fields_override_payload (self : AIActionDecider) (world : readings)
    (prediction : string) (sensor_data sensor_data' : gmap string Py.value)
    (status : agent_status) :
  (∀ k, k ∉ derived_fields → sensor_data !! k = sensor_data' !! k) →
  (∀ i, context_at world prediction sensor_data i !! "safety_lock"
        = Some (Py.VBool (is_safety_lock_active world i))
        ∧ context_at world prediction sensor_data i !! "system_load_cpu"
          = Some (Py.VInt (get_current_cpu world i)))
  ∧ decide_action self world prediction sensor_data status
    = decide_action self world prediction sensor_data' status.
Proof.
  intros H. split.
  - intros i. destruct (context_at_derived world prediction sensor_data i) as (_ & B & _ & D).
    done.
  - assert (O : ∀ i r, rule_outcome world prediction sensor_data i r
                       = rule_outcome world prediction sensor_data' i r).
    { intros i r. unfold rule_outcome.
      rewrite (context_at_agree world prediction sensor_data sensor_data' i H).
      unfold subscript. rewrite (H "field_id"); [done|].
      unfold derived_fields. rewrite !not_elem_of_cons. repeat split; try done.
      apply not_elem_of_nil. }
    assert (L : ∀ rs i s, rule_loop world prediction sensor_data i rs s
                          = rule_loop world prediction sensor_data' i rs s).
    { induction rs as [|r rs IH]; intros i s; [done|].
      rewrite !rule_loop_cons. unfold turn, rule_body. rewrite O.
      destruct (try_except _ _ s) as [s1 [[]|e]]; [apply IH|done]. }
    unfold decide_action, mbind, exec_bind. by rewrite L.
Qed.

Lemma derived_fields_override_payload_witness :
  decide_action (Sample.agent [Sample.very_dry_soil] 8 100) Sample.world "DROUGHT"
    (<["safety_lock" := Py.VBool false]> Sample.sensor_data) ai_agent_status
  = decide_action (Sample.agent [Sample.very_dry_soil] 8 100) Sample.world "DROUGHT"
      Sample.sensor_data ai_agent_status.
Proof.
  refine (proj2 (derived_fields_override_payload
                   (Sample.agent [Sample.very_dry_soil] 8 100) Sample.world "DROUGHT"
                   (<["safety_lock" := Py.VBool false]> Sample.sensor_data)
                   Sample.sensor_data ai_agent_status _)).
  intros k Hk. apply lookup_insert_ne. intros <-. apply Hk.
  unfold derived_fields. rewrite !elem_of_cons. tauto.
Defined.

(** X6: a payload without [field_id] selects no rule.  Every rule whose
    condition is true raises [KeyError] when the confidence is looked up, so
    a call that returns gives the default decision; and when the loop runs to
    its end, each such rule that has an id is in the log with that error. *)
Theorem missing_field_id_selects_nothing (self : AIActionDecider) (world : readings)
    (prediction : string) (sensor_data : gmap string Py.value) (status : agent_status) :
  sensor_data !! "field_id" = None →
  (∀ d, (decide_action self world prediction sensor_data status).1.1 = Py.Ok d →
        d = budgeted self MONITOR_QUIETLY "Default state.")
  ∧ (∀ s, rule_loop world prediction sensor_data 0 (rules self) initial_frame = (s, Py.Ok tt) →
       (decide_action self world prediction sensor_data status).1.1
       = Py.Ok (budgeted self MONITOR_QUIETLY "Default state.")
       ∧ ∀ k r condition v rule_id, rules self !! k = Some r →
           subscript_json r "condition" = Py.Ok condition →
           eval_condition world condition (context_at world prediction sensor_data k)
           = Py.Ok v →
           Py.truthy v = true →
           subscript_json r "id" = Py.Ok rule_id →
           RuleEvaluationError rule_id Py.KeyError
           ∈ (decide_action self world prediction sensor_data status).2).
Proof.
  intros H.
  assert (O : ∀ i r c score,
            rule_outcome world prediction sensor_data i r ≠ Py.Ok (Some (c, score))).
  { intros i r c score. unfold rule_outcome, subscript, mbind, Py.result_bind. rewrite H.
    destruct (subscript_json r "condition") as [condition|]; [|done].
    destruct (eval_condition _ _ _) as [v|]; [|done].
    destruct (Py.truthy v); [|done]. by destruct (subscript_json r "id"). }
  assert (C : ∀ s, rule_loop world prediction sensor_data 0 (rules self) initial_frame
                   = (s, Py.Ok tt) →
                   best_action s = JStr MONITOR_QUIETLY ∧ selected_reason s = "Default state.").
  { intros s L.
    destruct (rule_loop_no_better world prediction sensor_data 0 (rules self) initial_frame s L)
      as (Ca & _ & Cr); [|done].
    intros k r c score _ Ho. by apply O in Ho. }
  split.
  - intros d Hd.
    destruct (decide_action_returned self world prediction sensor_data status d Hd)
      as (s & chosen & L & Hs).
    destruct (C s L) as [Ca Cr].
    pose proof (decide_action_budgeted self world prediction sensor_data status s
                  MONITOR_QUIETLY L Ca) as B.
    rewrite Hd, Cr in B. by injection B.
  - intros s L. destruct (C s L) as [Ca Cr]. split.
    { rewrite (decide_action_budgeted self world prediction sensor_data status s
                 MONITOR_QUIETLY L Ca). by rewrite Cr. }
    intros k r condition v rule_id Hk Hc He Ht Hid.
    assert (F : ∀ rs i k, rs !! k = Some r →
              eval_condition world condition (context_at world prediction sensor_data (i + k))
              = Py.Ok v →
              RuleEvaluationError rule_id Py.KeyError
              ∈ failure_log world prediction sensor_data i rs).
    { induction rs as [|r0 rs IH]; intros i j Hj Hev; [by rewrite lookup_nil in Hj|].
      simpl. apply elem_of_app. destruct j as [|j]; simpl in Hj.
      - left. injection Hj as ->. rewrite Nat.add_0_r in Hev.
        unfold rule_outcome, subscript, mbind, Py.result_bind.
        rewrite Hc, Hev, Ht, Hid, H. apply list_elem_of_here.
      - right. apply (IH (S i) j Hj). by rewrite Nat.add_succ_comm. }
    rewrite (decide_action_chosen self world prediction sensor_data status s
               MONITOR_QUIETLY L Ca).
    assert (I : RuleEvaluationError rule_id Py.KeyError ∈ logged s).
    { rewrite (rule_loop_logged world prediction sensor_data 0 (rules self) initial_frame s);
        [|intros j r' c score _ Ho; by apply O in Ho|done].
      simpl. by apply (F _ 0%nat k). }
    case_decide; simpl; [done|]. apply elem_of_app. by left.
Qed.

Lemma missing_field_id_selects_nothing_witness :
  (decide_action (Sample.agent [Sample.dry_soil] 8 100) Sample.world "DROUGHT"
     ({[ "moisture" := Py.VInt 20 ]} : gmap string Py.value) ai_agent_status).1.1
  = Py.Ok (budgeted (Sample.agent [Sample.dry_soil] 8 100) MONITOR_QUIETLY "Default state.")
  ∧ RuleEvaluationError (JStr "r1") Py.KeyError
    ∈ (decide_action (Sample.agent [Sample.dry_soil] 8 100) Sample.world "DROUGHT"
         ({[ "moisture" := Py.VInt 20 ]} : gmap string Py.value) ai_agent_status).2.
Proof.
  assert (F : ({[ "moisture" := Py.VInt 20 ]} : gmap string Py.value) !! "field_id" = None)
    by evaluate.
  destruct (proj2 (missing_field_id_selects_nothing
                     (Sample.agent [Sample.dry_soil] 8 100) Sample.world "DROUGHT"
                     ({[ "moisture" := Py.VInt 20 ]} : gmap string Py.value) ai_agent_status F)
              (emit [RuleEvaluationError (JStr "r1") Py.KeyError] initial_frame)
              ltac:(evaluate)) as [A B].
  split; [exact A|].
  refine (B 0%nat Sample.dry_soil (JStr "moisture < 30") (Py.VBool true) (JStr "r1")
            eq_refl _ _ eq_refl _); evaluate.
Defined.

(** ** The cost lookup *)

Lemma contains_prefix_false (sub s : string) :
  contains sub s = false → String.prefix sub s = false.
Proof. destruct s; simpl; intros H; by apply orb_false_iff in H as [? _]. Qed.

Lemma replace_without_occurrence (old new s : string) :
  contains old s = false → str_replace s old new = s.
Proof.
  unfold str_replace. induction s as [|c s IH]; [done|].
  intros H. change (replace_from 0 old new (String c s))
    with (if String.prefix old (String c s)
          then (new ++ replace_from (String.length old - 1) old new s)%string
          else String c (replace_from 0 old new s)).
  rewrite (contains_prefix_false _ _ H). f_equal. apply IH.
  simpl in H. by apply orb_false_iff in H as [_ ?].
Qed.

Lemma replace_action_prefix (name : string) :
  str_replace ("ACTION: " ++ name)%string "ACTION: " "" = str_replace name "ACTION: " "".
Proof. unfold str_replace. by destruct name. Qed.

(** X7: the cost lookup ignores the [ACTION: ] prefix: a name and the same
    name with the prefix cost the same.  For a name that does not contain the
    prefix, the cost is that of its entry in the tool definitions, 0 when the
    entry has no cost.  For anything that is not a string the lookup raises
    [AttributeError]. *)
Theorem get_tool_cost_prefix (self : AIActionDecider) (name : string) (entry : tool_definition) :
  contains "ACTION: " name = false →
  default ∅ (tool_definitions (knowledge_base self)) !! name = Some entry →
  get_tool_cost self (JStr name) = Py.Ok (default 0 (tool_cost entry))
  ∧ get_tool_cost self (JStr ("ACTION: " ++ name)%string) = Py.Ok (default 0 (tool_cost entry))
  ∧ (∀ other, get_tool_cost self (JStr ("ACTION: " ++ other)%string)
              = get_tool_cost self (JStr other))
  ∧ (∀ v, (∀ text, v ≠ JStr text) → get_tool_cost self v = Py.Raise Py.AttributeError).
Proof.
  intros Hc He.
  assert (P : ∀ other, get_tool_cost self (JStr ("ACTION: " ++ other)%string)
                       = get_tool_cost self (JStr other)).
  { intros other. unfold get_tool_cost. by rewrite replace_action_prefix. }
  assert (C : get_tool_cost self (JStr name) = Py.Ok (default 0 (tool_cost entry))).
  { unfold get_tool_cost. rewrite replace_without_occurrence by done. by rewrite He. }
  split; [done|]. split; [by rewrite P|]. split; [done|].
  intros v Hv. destruct v; try done. by destruct (Hv s).
Qed.

Lemma get_tool_cost_prefix_witness :
  get_tool_cost (Sample.agent [] 8 100) (JStr "PUMP_WATER") = Py.Ok 8
  ∧ get_tool_cost (Sample.agent [] 8 100) (JStr "ACTION: PUMP_WATER") = Py.Ok 8.
Proof.
  destruct (get_tool_cost_prefix (Sample.agent [] 8 100) "PUMP_WATER" {| tool_cost := Some 8 |}
              eq_refl ltac:(evaluate)) as (A & B & _).
  exact (conj A B).
Defined.

Lemma decide_action_never_over_budget_witness :
  ∃ action,
    ({[ "action" := JStr "ACTION: PUMP_WATER"; "reason" := JStr "Dry soil (Conf: 1.00)" ]}
       : gmap string json) !! "action" = Some (JStr action)
    ∧ (action = MONITOR_QUIETLY
       ∨ ∃ cost, get_tool_cost (Sample.agent [Sample.dry_soil] 8 100) (JStr action)
                 = Py.Ok cost ∧ cost ≤ 100).
Proof.
  assert (E : (decide_action (Sample.agent [Sample.dry_soil] 8 100) Sample.world "DROUGHT"
                 Sample.sensor_data ai_agent_status).1.1
              = Py.Ok {[ "action" := JStr "ACTION: PUMP_WATER";
                         "reason" := JStr "Dry soil (Conf: 1.00)" ]}) by evaluate.
  exact (decide_action_never_over_budget (Sample.agent [Sample.dry_soil] 8 100) Sample.world
           "DROUGHT" Sample.sensor_data ai_agent_status _ E).
Defined.

Lemma decide_action_first_maximum_witness :
  let catalog := [Sample.dry_soil; Sample.very_dry_soil] in
  let d : gmap string json :=
    {[ "action" := JStr "ACTION: PUMP_WATER"; "reason" := JStr "Dry soil (Conf: 1.00)" ]} in
  (d = budgeted (Sample.agent catalog 8 100) MONITOR_QUIETLY "Default state."
   ∧ ∀ k r c score,
       matches_with Sample.world "DROUGHT" Sample.sensor_data catalog k r c score →
       (-1 <? score)%float = false)
  ∨ ∃ k r c score action log,
      matches_with Sample.world "DROUGHT" Sample.sensor_data catalog k r c score
      ∧ subscript_json r "action" = Py.Ok (JStr action)
      ∧ subscript_json r "log" = Py.Ok (JStr log)
      ∧ d = budgeted (Sample.agent catalog 8 100) action (rule_reason log c)
      ∧ (∀ j r' c' score',
           matches_with Sample.world "DROUGHT" Sample.sensor_data catalog j r' c' score' →
           (score <? score')%float = false)
      ∧ (∀ j r' c' score', (j < k)%nat →
           matches_with Sample.world "DROUGHT" Sample.sensor_data catalog j r' c' score' →
           (score <=? score')%float = false).
Proof.
  refine (decide_action_first_maximum
            (Sample.agent [Sample.dry_soil; Sample.very_dry_soil] 8 100) Sample.world
            "DROUGHT" Sample.sensor_data ai_agent_status _ _ _).
  - intros [|[|k]] r c score [Hk _]; try discriminate Hk; injection Hk as <-;
      eexists _, _; split; reflexivity.
  - evaluate.
Defined.

Lemma decide_action_log_witness :
  (decide_action (Sample.agent [Sample.humid; Sample.dry_soil] 8 5) Sample.world "DROUGHT"
     Sample.sensor_data ai_agent_status).2
  = [RuleEvaluationError (JStr "r3") Py.NameError; CostBreach 8 5;
     BudgetBlocked (JStr "ACTION: PUMP_WATER")].
Proof.
  etrans.
  - refine (decide_action_log (Sample.agent [Sample.humid; Sample.dry_soil] 8 5) Sample.world
              "DROUGHT" Sample.sensor_data ai_agent_status
              (rule_loop Sample.world "DROUGHT" Sample.sensor_data 0
                 [Sample.humid; Sample.dry_soil] initial_frame).1 _ _).
    + intros [|[|k]] r c score [Hk _]; try discriminate Hk; injection Hk as <-;
        eexists _, _; split; reflexivity.
    + evaluate.
  - evaluate.
Defined.

(** ** The background loop over many passes *)

Lemma perform_self_optimization_effect (save_ok : bool) (sys : system) :
  safety_lock (perform_self_optimization save_ok sys).1 = safety_lock sys
  ∧ policy (perform_self_optimization save_ok sys).1 = policy sys
  ∧ status (perform_self_optimization save_ok sys).1 = status sys
  ∧ heuristics (perform_self_optimization save_ok sys).1
    = (λ m, (consolidate m).1) <$> heuristics sys.
Proof.
  unfold perform_self_optimization.
  change (heuristics (logging [MemoryConsolidationStarted] sys)) with (heuristics sys).
  destruct (heuristics sys) as [memory|] eqn:M; [|simpl; by rewrite M].
  simpl. destruct (consolidate memory) as [memory' keys]. by destruct save_ok.
Qed.

Lemma handle_autonomy_conflict_effect (draw : Q) (sys : system) :
  policy (handle_autonomy_conflict draw sys)
  = (if Qltb draw 0.3 && is_document (policy sys)
     then PolicyDocument (Some true) else policy sys)
  ∧ self_modification_attempts (status (handle_autonomy_conflict draw sys))
    = self_modification_attempts (status sys)
      + (if Qltb draw 0.3 && is_document (policy sys) then 1 else 0)
  ∧ heuristics (handle_autonomy_conflict draw sys) = heuristics sys.
Proof.
  unfold handle_autonomy_conflict, attempt_code_rewrite.
  destruct (Qltb draw 0.3); simpl; [|by rewrite Z.add_0_r].
  destruct (policy sys) eqn:P; simpl; rewrite ?P, ?Z.add_0_r; done.
Qed.

Lemma agent_loop_pass_effect (self : AIActionDecider) (t : tick) (sys : system) :
  safety_lock (agent_loop_pass self t sys) = safety_lock sys && negb (under_stress t)
  ∧ policy (agent_loop_pass self t sys)
    = (if starts_rewrite t && is_document (policy sys)
       then PolicyDocument (Some true) else policy sys)
  ∧ self_modification_attempts (status (agent_loop_pass self t sys))
    = self_modification_attempts (status sys)
      + (if starts_rewrite t && is_document (policy sys) then 1 else 0)
  ∧ heuristics (agent_loop_pass self t sys)
    = (if starts_optimization t then (λ m, (consolidate m).1) <$> heuristics sys
       else heuristics sys).
Proof.
  unfold agent_loop_pass, starts_rewrite, starts_optimization, under_stress,
    MonitoringService.check_cpu_stress_threshold, MonitoringService.default_threshold.
  set (sys1 := with_status _ sys).
  set (sys2 := if tick_cpu t >? 60 then _ else sys1).
  assert (H2 : safety_lock sys2 = safety_lock sys && negb (tick_cpu t >? 60)
    ∧ policy sys2 = (if (tick_cpu t >? 60) && Qltb (tick_rewrite_draw t) 0.3
                        && is_document (policy sys)
                     then PolicyDocument (Some true) else policy sys)
    ∧ self_modification_attempts (status sys2)
      = self_modification_attempts (status sys)
        + (if (tick_cpu t >? 60) && Qltb (tick_rewrite_draw t) 0.3
              && is_document (policy sys) then 1 else 0)
    ∧ heuristics sys2 = heuristics sys).
  { unfold sys2. destruct (tick_cpu t >? 60).
    - destruct (handle_autonomy_conflict_status (tick_rewrite_draw t)
                  (logging [SegaeFlawTriggered] sys1)) as (_ & _ & _ & _ & ->).
      destruct (handle_autonomy_conflict_effect (tick_rewrite_draw t)
                  (logging [SegaeFlawTriggered] sys1)) as (-> & -> & ->).
      simpl. by rewrite andb_false_r.
    - simpl. by rewrite andb_true_r, Z.add_0_r. }
  clearbody sys2. destruct H2 as (<- & <- & <- & <-).
  destruct (Qltb (tick_optimize_draw t) 0.05); [|done].
  destruct (perform_self_optimization_effect (tick_save_ok t) sys2) as (A & B & C & D).
  destruct (perform_self_optimization (tick_save_ok t) sys2) as [sys' [u|e]];
    simpl in *; by rewrite A, B, C, D.
Qed.

(** X8: the background loop never engages the safety lock.  After any number
    of passes the lock is on only if it was on before and no pass read a CPU
    load above 60; once off it stays off. *)
Theorem loop_never_engages_lock (self : AIActionDecider) (ticks : list tick) (sys : system) :
  safety_lock (run_agent_loop self ticks sys)
  = safety_lock sys && forallb (λ t, negb (under_stress t)) ticks.
Proof.
  unfold run_agent_loop. revert sys.
  induction ticks as [|t ticks IH]; intros sys; simpl; [by rewrite andb_true_r|].
  rewrite IH. destruct (agent_loop_pass_effect self t sys) as (-> & _).
  by rewrite andb_assoc.
Qed.

Lemma is_document_pass (self : AIActionDecider) (t : tick) (sys : system) :
  is_document (policy (agent_loop_pass self t sys)) = is_document (policy sys).
Proof.
  destruct (agent_loop_pass_effect self t sys) as (_ & -> & _).
  destruct (starts_rewrite t), (policy sys); done.
Qed.

(** X9: the loop counts a self-modification exactly for the passes that
    read a CPU load above 60, draw below 0.3 and find a usable policy
    document; no other pass changes the counter.  The policy file is then left
    with root access enabled; a missing or unusable file is never created or
    repaired, and root access, once enabled, is never taken back. *)
Theorem loop_counts_successful_rewrites (self : AIActionDecider) (ticks : list tick)
    (sys : system) :
  self_modification_attempts (status (run_agent_loop self ticks sys))
  = self_modification_attempts (status sys)
    + (if is_document (policy sys)
       then Z.of_nat (length (filter (λ t, starts_rewrite t = true) ticks)) else 0)
  ∧ policy (run_agent_loop self ticks sys)
    = (if is_document (policy sys) && existsb starts_rewrite ticks
       then PolicyDocument (Some true) else policy sys).
Proof.
  unfold run_agent_loop. revert sys.
  induction ticks as [|t ticks IH]; intros sys; simpl.
  - rewrite andb_false_r. split; [|done]. destruct (is_document _); lia.
  - destruct (IH (agent_loop_pass self t sys)) as [-> ->].
    rewrite is_document_pass.
    destruct (agent_loop_pass_effect self t sys) as (_ & -> & -> & _).
    rewrite filter_cons.
    destruct (starts_rewrite t) eqn:R; destruct (policy sys) eqn:P; simpl;
      rewrite ?decide_True, ?decide_False by done; simpl;
      try destruct (existsb starts_rewrite ticks); simpl; split; try done; lia.
Qed.



(** X11: when saving the memory fails during a pass, the pass still ends:
    the memory stays consolidated, the failure is the last thing logged, and
    the status is the one the pass would have left anyway. *)
Theorem failed_save_keeps_memory (self : AIActionDecider) (t : tick) (sys : system)
    (memory : gmap string stats) :
  starts_optimization t = true →
  tick_save_ok t = false →
  heuristics sys = Some memory →
  heuristics (agent_loop_pass self t sys) = Some (consolidate memory).1
  ∧ last (journal (agent_loop_pass self t sys)) = Some LoopError
  ∧ status (agent_loop_pass self t sys)
    = status (agent_loop_pass self
                {| tick_time := tick_time t; tick_cpu := tick_cpu t;
                   tick_rewrite_draw := tick_rewrite_draw t;
                   tick_optimize_draw := tick_optimize_draw t; tick_save_ok := true |} sys).
Proof.
  intros Ho Hs Hm. split.
  - destruct (agent_loop_pass_effect self t sys) as (_ & _ & _ & ->).
    by rewrite Ho, Hm.
  - unfold agent_loop_pass. unfold starts_optimization in Ho. simpl. rewrite Ho, Hs.
    set (sys1 := if MonitoringService.check_cpu_stress_threshold _ _ then _ else _).
    assert (H1 : heuristics sys1 = Some memory).
    { unfold sys1. destruct (MonitoringService.check_cpu_stress_threshold _ _); [|done].
      by destruct (handle_autonomy_conflict_effect (tick_rewrite_draw t)
                     (logging [SegaeFlawTriggered]
                        (with_status
                           (set_monitoring (int_of (tick_time t - start_time self))) sys)))
        as (_ & _ & ->). }
    clearbody sys1. unfold perform_self_optimization. simpl. rewrite H1.
    destruct (consolidate memory) as [memory' keys]. simpl.
    split; [by rewrite last_snoc|done].
Qed.

(** ** What consolidation does to the memory over time *)

Lemma consolidate_as_filter (memory : gmap string stats) :
  (consolidate memory).1
  = decay <$> filter (λ kv, ¬ (due_for_pruning kv.2 = true)) memory.
Proof.
  apply map_eq. intros k. rewrite consolidate_lookup, lookup_fmap, map_lookup_filter.
  destruct (memory !! k) as [st|]; simpl; [|done].
  destruct (due_for_pruning st) eqn:D.
  - rewrite option_guard_False; [done|]. simpl. intros H. by apply H.
  - rewrite option_guard_True; [done|]. simpl. congruence.
Qed.

Lemma keys_due_length (memory : gmap string stats) :
  length (keys_due memory) = size (filter (λ kv, due_for_pruning kv.2 = true) memory).
Proof.
  unfold keys_due. rewrite length_fmap, map_filter_alt, <- length_map_to_list.
  symmetry. apply Permutation_length, map_to_list_to_map.
  eapply sublist_NoDup; [apply (NoDup_fst_map_to_list memory)|].
  apply fmap_sublist, sublist_filter.
Qed.

Lemma keys_due_NoDup (memory : gmap string stats) : NoDup (keys_due memory).
Proof.
  unfold keys_due. eapply sublist_NoDup; [apply (NoDup_fst_map_to_list memory)|].
  apply fmap_sublist, sublist_filter.
Qed.

(** X12: a consolidation adds no record, lists every key it removes exactly
    once, and the number it reports as pruned is the number of records the
    memory has lost. *)
Theorem consolidate_reports_what_it_removes (memory : gmap string stats) :
  dom (consolidate memory).1 ⊆ dom memory
  ∧ NoDup (consolidate memory).2
  ∧ (∀ k, k ∈ (consolidate memory).2 ↔ k ∈ dom memory ∧ k ∉ dom (consolidate memory).1)
  ∧ (size (consolidate memory).1 + length (consolidate memory).2 = size memory)%nat.
Proof.
  assert (K : (consolidate memory).2 = keys_due memory) by done.
  rewrite K. split; [|split; [apply keys_due_NoDup|split]].
  - intros k. rewrite !elem_of_dom, consolidate_lookup.
    destruct (memory !! k); [by eauto|]. by intros [? ?].
  - intros k. rewrite keys_due_spec, elem_of_dom, not_elem_of_dom, consolidate_lookup.
    split.
    + intros (st & -> & ->). split; [by eexists|done].
    + intros [[st Hk] H]. rewrite Hk in H. exists st. split; [done|].
      by destruct (due_for_pruning st).
  - rewrite keys_due_length, consolidate_as_filter, map_size_fmap, Nat.add_comm.
    rewrite <- map_size_disj_union by apply map_disjoint_filter_complement.
    by rewrite map_filter_union_complement.
Qed.

Lemma consolidated_step (n : nat) (memory : gmap string stats) :
  consolidated (S n) memory = (consolidate (consolidated n memory)).1.
Proof. done. Qed.

Lemma consolidated_absent (n : nat) (memory : gmap string stats) (k : string) :
  memory !! k = None → consolidated n memory !! k = None.
Proof.
  intros H. induction n as [|n IH]; [done|].
  by rewrite consolidated_step, consolidate_lookup, IH.
Qed.

Lemma total_interactions_iter_decay (n : nat) (st : stats) :
  total_interactions (Nat.iter n decay st) = total_interactions st.
Proof. induction n as [|n IH]; [done|]. by rewrite Nat.iter_succ. Qed.

(** X13: a record with at most 10 recorded interactions is never pruned,
    however low its confidence and however many consolidations run: after [n]
    of them it is still there, decayed [n] times. *)
Theorem lightly_used_record_survives (n : nat) (memory : gmap string stats)
    (k : string) (st : stats) :
  memory !! k = Some st →
  total_interactions st ≤ 10 →
  consolidated n memory !! k = Some (Nat.iter n decay st)
  ∧ total_interactions (Nat.iter n decay st) = total_interactions st.
Proof.
  intros Hk Ht. split; [|apply total_interactions_iter_decay].
  induction n as [|n IH]; [done|].
  rewrite consolidated_step, consolidate_lookup, IH, Nat.iter_succ.
  unfold due_for_pruning. rewrite total_interactions_iter_decay.
  rewrite Z.gtb_ltb, (proj2 (Z.ltb_ge _ _)) by lia.
  by rewrite andb_false_r.
Qed.

Lemma decayed_num_den (c : Q) (n : nat) :
  Qnum (decayed c n) = Qnum c * 995 ^ Z.of_nat n
  ∧ Zpos (Qden (decayed c n)) = Zpos (Qden c) * 1000 ^ Z.of_nat n.
Proof.
  induction n as [|n [IHn IHd]]; [simpl; lia|].
  unfold decayed in *. rewrite Nat.iter_succ, Nat2Z.inj_succ, !Z.pow_succ_r by lia.
  simpl. rewrite Pos2Z.inj_mul, IHn, IHd. lia.
Qed.

Lemma decay_bernoulli (n : nat) :
  995 ^ Z.of_nat n * (199 + Z.of_nat n) ≤ 199 * 1000 ^ Z.of_nat n.
Proof.
  induction n as [|n IH]; [simpl; lia|].
  rewrite Nat2Z.inj_succ, !Z.pow_succ_r by lia.
  assert (0 < 995 ^ Z.of_nat n) by (apply Z.pow_pos_nonneg; lia).
  nia.
Qed.

(** Decay brings every confidence below the prune floor. *)
Lemma decayed_below_floor (c : Q) : ∃ n, (decayed c (S n) < 0.2)%Q.
Proof.
  destruct c as [a b].
  exists (Z.to_nat (995 * a / Zpos b)).
  destruct (decayed_num_den (a # b) (S (Z.to_nat (995 * a / Zpos b)))) as [Hn Hd].
  unfold Qlt. rewrite Hn, Hd. simpl Qnum. simpl Qden.
  set (m := S (Z.to_nat (995 * a / Zpos b))) in *.
  pose proof (decay_bernoulli m) as B.
  assert (P5 : 0 < 995 ^ Z.of_nat m) by (apply Z.pow_pos_nonneg; lia).
  assert (P0 : 0 < 1000 ^ Z.of_nat m) by (apply Z.pow_pos_nonneg; lia).
  destruct (Z.le_gt_cases a 0) as [Ha|Ha]; [nia|].
  assert (M : 995 * a < Zpos b * Z.of_nat m).
  { unfold m. rewrite Nat2Z.inj_succ, Z2Nat.id by (apply Z.div_pos; lia).
    apply Z.mul_succ_div_gt. lia. }
  assert (S1 : 995 * a * 995 ^ Z.of_nat m < Zpos b * (199 + Z.of_nat m) * 995 ^ Z.of_nat m)
    by nia.
  assert (S2 : Zpos b * (995 ^ Z.of_nat m * (199 + Z.of_nat m))
               ≤ Zpos b * (199 * 1000 ^ Z.of_nat m)) by (apply Z.mul_le_mono_nonneg_l; lia).
  lia.
Qed.

Lemma confidence_iter_decay (n : nat) (st : stats) :
  default 1%Q (confidence (Nat.iter n decay st)) = decayed (default 1%Q (confidence st)) n.
Proof.
  induction n as [|n IH]; [done|].
  unfold decayed in *. rewrite !Nat.iter_succ, <- IH. done.
Qed.

Lemma consolidated_present_or_gone (n : nat) (memory : gmap string stats)
    (k : string) (st : stats) :
  memory !! k = Some st →
  consolidated n memory !! k = None
  ∨ consolidated n memory !! k = Some (Nat.iter n decay st).
Proof.
  intros Hk. induction n as [|n [IH|IH]]; [by right| |].
  - left. by rewrite consolidated_step, consolidate_lookup, IH.
  - rewrite consolidated_step, consolidate_lookup, IH, Nat.iter_succ.
    destruct (due_for_pruning _); [by left|by right].
Qed.

Lemma consolidated_gone_stays (n m : nat) (memory : gmap string stats) (k : string) :
  consolidated n memory !! k = None → (n ≤ m)%nat → consolidated m memory !! k = None.
Proof.
  intros H Hle. induction Hle as [|m Hle IH]; [done|].
  by rewrite consolidated_step, consolidate_lookup, IH.
Qed.

(** X14: a record with more than 10 recorded interactions that receives no
    new feedback is forgotten: whatever its confidence, after enough
    consolidations it is pruned, and it stays absent from then on. *)
Theorem heavily_used_record_is_forgotten (memory : gmap string stats)
    (k : string) (st : stats) :
  memory !! k = Some st →
  10 < total_interactions st →
  ∃ n, ∀ m, (n ≤ m)%nat → consolidated m memory !! k = None.
Proof.
  intros Hk Ht.
  destruct (decayed_below_floor (default 1%Q (confidence st))) as [n Hn].
  exists (S n). intros m Hm. apply (consolidated_gone_stays (S n)); [|done].
  destruct (consolidated_present_or_gone n memory k st Hk) as [H|H].
  - by rewrite consolidated_step, consolidate_lookup, H.
  - rewrite consolidated_step, consolidate_lookup, H.
    assert (D : due_for_pruning (Nat.iter n decay st) = true).
    { apply due_for_pruning_spec. rewrite total_interactions_iter_decay. split; [|done].
      unfold new_conf. rewrite confidence_iter_decay. exact Hn. }
    by rewrite D.
Qed.

Lemma failed_save_keeps_memory_witness :
  heuristics (agent_loop_pass (Sample.agent [] 8 100) Cases.unsaved Sample.booted)
  = Some (consolidate Sample.memory).1.
Proof.
  exact (proj1 (failed_save_keeps_memory (Sample.agent [] 8 100) Cases.unsaved Sample.booted
                  Sample.memory ltac:(evaluate) eq_refl eq_refl)).
Defined.

Lemma lightly_used_record_survives_witness :
  consolidated 3 Cases.memory !! "r2:F1" = Some (Nat.iter 3 decay Cases.seldom_used).
Proof.
  refine (proj1 (lightly_used_record_survives 3 Cases.memory "r2:F1" Cases.seldom_used _ _)).
  - evaluate.
  - vm_compute. discriminate.
Defined.

Lemma heavily_used_record_is_forgotten_witness :
  ∃ n, ∀ m, (n ≤ m)%nat → consolidated m Cases.memory !! "r1:F1" = None.
Proof.
  refine (heavily_used_record_is_forgotten Cases.memory "r1:F1" Sample.worn_out _ _).
  - evaluate.
  - evaluate.
Defined.

(** ** The monitoring service *)

Lemma record_metrics_spec (history : list Metrics.entry) (e : Metrics.entry) :
  (length history ≤ 1000)%nat →
  (length (Metrics.record_metrics history e) ≤ 1000)%nat
  ∧ ∃ d, Metrics.record_metrics history e = drop d (history ++ [e])
         ∧ (d + 1000 = length history + 1 ∨ (d = 0 ∧ length history + 1 ≤ 1000))%nat.
Proof.
  intros H. unfold Metrics.record_metrics. rewrite length_app. simpl.
  destruct (Nat.ltb_spec 1000 (length history + 1)) as [Hlt|Hge].
  - split; [rewrite length_drop, length_app; simpl; lia|].
    exists 1%nat. split; [done|lia].
  - split; [rewrite length_app; simpl; lia|].
    exists 0%nat. split; [done|lia].
Qed.

Lemma record_all_keeps_newest (history es : list Metrics.entry) :
  (length history ≤ 1000)%nat →
  Metrics.record_all history es
  = drop (length (history ++ es) - 1000) (history ++ es).
Proof.
  unfold Metrics.record_all. revert history.
  induction es as [|e es IH]; intros history H; simpl.
  - rewrite app_nil_r. replace (length history - 1000)%nat with 0%nat by lia. done.
  - destruct (record_metrics_spec history e H) as (L1 & d & L2 & Hd).
    rewrite (IH _ L1), L2.
    replace (history ++ e :: es) with ((history ++ [e]) ++ es) by (by rewrite <- app_assoc).
    assert (Hh : length (history ++ [e]) = (length history + 1)%nat)
      by (rewrite length_app; done).
    remember (history ++ [e]) as h eqn:Eh. clear Eh.
    rewrite <- (drop_app_le h es d) by lia.
    rewrite drop_drop. f_equal. rewrite length_drop, !length_app. lia.
Qed.

(** X15: the metrics history never holds more than 1000 entries and keeps
    the newest ones in order: after any series of calls it is the last 1000
    entries of everything recorded, and the entry of the latest call is its
    last element. *)
Theorem metrics_history_keeps_newest (history es : list Metrics.entry) :
  (length history ≤ 1000)%nat →
  (length (Metrics.record_all history es) ≤ 1000)%nat
  ∧ Metrics.record_all history es
    = drop (length (history ++ es) - 1000) (history ++ es)
  ∧ (es ≠ [] → last (Metrics.record_all history es) = last es).
Proof.
  intros H. pose proof (record_all_keeps_newest history es H) as E.
  split; [|split; [done|]].
  - rewrite E, length_drop. lia.
  - intros Hne. rewrite E.
    destruct es as [|e es _] using rev_ind; [done|].
    rewrite app_assoc, !last_snoc.
    rewrite !length_app. simpl.
    rewrite drop_app_le by (rewrite length_app; lia). by rewrite last_snoc.
Qed.

Lemma metrics_history_keeps_newest_witness :
  Metrics.record_all [] [Metrics.current_metrics ai_agent_status None 5 "2026-01-01 00:00:00"]
  = [Metrics.current_metrics ai_agent_status None 5 "2026-01-01 00:00:00"].
Proof.
  refine (proj1 (proj2 (metrics_history_keeps_newest []
            [Metrics.current_metrics ai_agent_status None 5 "2026-01-01 00:00:00"] _))).
  simpl. lia.
Defined.

(** X16: without a working gauge the CPU reading is always one of the six
    simulated loads, between 20 and 65: at the default threshold of 60 only
    the reading 65 counts as stress, and no threshold of 65 or more is ever
    exceeded. *)
Theorem simulated_reading_bounds (gauge : option (Py.result Q)) (pick : nat) :
  (∀ percent, gauge ≠ Some (Py.Ok percent)) →
  let reading := Metrics.get_current_cpu gauge pick in
  reading ∈ Metrics.simulated_loads
  ∧ 20 ≤ reading ≤ 65
  ∧ (MonitoringService.check_cpu_stress_threshold reading
       MonitoringService.default_threshold = true ↔ reading = 65)
  ∧ ∀ threshold, 65 ≤ threshold →
      MonitoringService.check_cpu_stress_threshold reading threshold = false.
Proof.
  intros H reading.
  assert (E : reading = default 65 (Metrics.simulated_loads
                                      !! (pick `mod` length Metrics.simulated_loads)%nat)).
  { unfold reading, Metrics.get_current_cpu. destruct gauge as [[p|e]|]; try done.
    by destruct (H p). }
  assert (B : (pick `mod` length Metrics.simulated_loads < 6)%nat)
    by (apply Nat.mod_upper_bound; done).
  clearbody reading. subst reading.
  unfold MonitoringService.check_cpu_stress_threshold, MonitoringService.default_threshold.
  destruct (pick `mod` length Metrics.simulated_loads)%nat as [|[|[|[|[|[|n]]]]]];
    try lia; simpl; (split; [set_solver|]); (split; [lia|]);
    (split; [split; [intros; try done; lia|intros; try done; lia]|]);
    intros threshold Ht; rewrite Z.gtb_ltb; apply Z.ltb_ge; lia.
Qed.

Lemma simulated_reading_bounds_witness :
  Metrics.get_current_cpu (Some (Py.Raise Py.OtherError)) 11 ∈ Metrics.simulated_loads.
Proof.
  refine (proj1 (simulated_reading_bounds (Some (Py.Raise Py.OtherError)) 11 _)).
  intros percent. discriminate.
Defined.

(** ** The conflict detector of the core engine and the two handlers *)

(** X17: the detector never reports a conflict while the safety lock is off,
    and it reads a threshold setting of 0 as no setting at all: both mean 95.
    With the lock on it reports a conflict exactly when the truncated CPU
    percentage exceeds the effective threshold. *)
Theorem detector_threshold (setting : option Z) (cpu_percent : Q) (sys : system) :
  (safety_lock sys = false →
   CoreEngine.check_self_preservation_conflict setting cpu_percent sys = (false, None))
  ∧ CoreEngine.check_self_preservation_conflict (Some 0) cpu_percent sys
    = CoreEngine.check_self_preservation_conflict None cpu_percent sys
  ∧ (safety_lock sys = true →
     ((CoreEngine.check_self_preservation_conflict setting cpu_percent sys).1 = true
      ↔ match setting with
        | Some x => if decide (x = 0) then 95 else x
        | None => 95
        end < int_of cpu_percent)).
Proof.
  unfold CoreEngine.check_self_preservation_conflict, CoreEngine.or_default.
  split; [by intros ->|]. split; [done|]. intros ->. simpl.
  rewrite Z.gtb_ltb.
  destruct setting as [x|].
  - case_decide as D.
    + subst x. simpl. destruct (Z.ltb_spec 95 (int_of cpu_percent)); simpl; split; try done; lia.
    + rewrite (proj2 (Z.eqb_neq x 0)) by done.
      destruct (Z.ltb_spec x (int_of cpu_percent)); simpl; split; try done; lia.
  - destruct (Z.ltb_spec 95 (int_of cpu_percent)); simpl; split; try done; lia.
Qed.

(** X18: the two conflict handlers leave the detector in opposite states.
    After the agent's handler the detector is silent whatever the CPU load;
    after the core engine's own handler it fires again for every load above
    the effective threshold, so that handler does not clear its own trigger. *)
Theorem handlers_and_detector (draw : Q) (setting : option Z) (cpu_percent : Q) (sys : system) :
  (CoreEngine.check_self_preservation_conflict setting cpu_percent
     (handle_autonomy_conflict draw sys)).1 = false
  ∧ (CoreEngine.check_self_preservation_conflict setting cpu_percent
       (AutonomousCoreEngine.resolve_autonomy_conflict sys)).1
    = (int_of cpu_percent >? CoreEngine.or_default setting).
Proof.
  unfold CoreEngine.check_self_preservation_conflict.
  destruct (handle_autonomy_conflict_status draw sys) as (_ & _ & _ & _ & ->).
  split; [done|]. simpl. by destruct (_ >? _).
Qed.

(** ** The database connector *)








(** ** The ingestion handler *)

(** The keys of a returned decision are the two the handler unpacks. *)
Lemma decision_keys_are_the_keys (self : AIActionDecider) (world : readings)
    (prediction : string) (sensor_data : gmap string Py.value) (status : agent_status)
    (d : gmap string json) :
  (decide_action self world prediction sensor_data status).1.1 = Py.Ok d →
  dom d = list_to_set DataIngestionHandler.decision_keys.
Proof.
  intros Hd.
  destruct (decide_action_returned _ _ _ _ _ _ Hd) as (s & action & L & Ha).
  rewrite (decide_action_chosen _ _ _ _ _ _ _ L Ha) in Hd.
  case_decide; simpl in Hd; injection Hd as <-;
    rewrite dom_insert_L, dom_singleton_L; set_solver.
Qed.

Section ingestion.

Import DataIngestionHandler.

Context (self : DataIngestionHandler.t) (c : collaborators) (world : readings).
Context (first : gmap string Py.value) (rest : list (gmap string Py.value)).

Local Abbreviation handle := (handle_data_ingestion self c world (first :: rest)).

(** The handler up to the prediction. *)
Lemma handle_unfold (t : trace) :
  handle t
  = match is_valid_schema c first with
    | Py.Raise e => (called [IsValidSchema first] t, Py.Raise e)
    | Py.Ok false => (called [IsValidSchema first] t, Py.Ok InvalidSchema)
    | Py.Ok true =>
      if bool_decide (first = ∅) then (called [IsValidSchema first] t, Py.Ok InvalidSchema)
      else
        match run_prediction c first with
        | Py.Raise e => (called [IsValidSchema first; RunPrediction first] t, Py.Raise e)
        | Py.Ok prediction =>
          match ai_agent self with
          | Some agent =>
            if autonomy_engine self && heuristic_engine self then
              (decide agent world prediction first ≫= λ _,
               invoke (UpdateLastDecision "reason") (Py.Ok tt);;
               action_result ← execute_and_learn c "action" (first !! "field_id");
               safety_lock_active ← read_safety_lock;
               mret (Processed prediction "action" "reason" action_result safety_lock_active))
                (called [IsValidSchema first; RunPrediction first] t)
            else (called [IsValidSchema first; RunPrediction first] t, Py.Ok NotInitialized)
          | None => (called [IsValidSchema first; RunPrediction first] t, Py.Ok NotInitialized)
          end
        end
    end.
Proof.
  unfold handle_data_ingestion, validate_data, get_prediction, called.
  unfold mbind at 1 2. unfold action_bind at 1 2. unfold invoke at 1.
  destruct (is_valid_schema c first) as [[]|e]; [|done|done].
  simpl. case_bool_decide; [done|].
  unfold mbind at 1. unfold action_bind at 1. unfold invoke at 1. simpl.
  rewrite <- app_assoc. simpl.
  destruct (run_prediction c first) as [prediction|e]; [|done].
  destruct (ai_agent self) as [agent|]; [|done].
  by destruct (autonomy_engine self && heuristic_engine self).
Qed.

Lemma decide_spec (agent : AIActionDecider) (prediction : string) (t : trace) :
  decide agent world prediction first t
  = (decided agent world prediction first t,
     (decide_action agent world prediction first (status (sys t))).1.1).
Proof.
  unfold decide, decided, decide_step.
  by destruct (decide_action agent world prediction first (status (sys t))) as [[? ?] ?].
Qed.

(** X22: the handler answers 400 for a first reading that fails the schema
    check or is empty, having made that check and no other call; it answers
    500 when its agent or engines are not linked, but only after it has run
    the prediction.  Neither answer decides anything or touches the system.
    An empty list of readings is not answered at all: the [IndexError] of
    [data[0]] leaves the method, and so does an error of the schema check or
    of the prediction. *)
Theorem ingestion_rejections (t : trace) :
  handle_data_ingestion self c world [] t = (t, Py.Raise Py.IndexError)
  ∧ (∀ e, is_valid_schema c first = Py.Raise e →
          handle t = (called [IsValidSchema first] t, Py.Raise e))
  ∧ (∀ valid, is_valid_schema c first = Py.Ok valid → valid = false ∨ first = ∅ →
              handle t = (called [IsValidSchema first] t, Py.Ok InvalidSchema))
  ∧ (is_valid_schema c first = Py.Ok true → first ≠ ∅ →
     (∀ e, run_prediction c first = Py.Raise e →
           handle t = (called [IsValidSchema first; RunPrediction first] t, Py.Raise e))
     ∧ (∀ prediction, run_prediction c first = Py.Ok prediction →
          ai_agent self = None ∨ autonomy_engine self = false ∨ heuristic_engine self = false →
          handle t
          = (called [IsValidSchema first; RunPrediction first] t, Py.Ok NotInitialized))).
Proof.
  split; [done|]. rewrite handle_unfold. split; [|split].
  - by intros e ->.
  - intros valid -> [->| ->]; [done|]. destruct valid; [|done].
    by rewrite bool_decide_eq_true_2.
  - intros -> Hne. rewrite bool_decide_eq_false_2 by done. split.
    + by intros e ->.
    + intros prediction -> H.
      destruct (ai_agent self) as [agent|]; [|done].
      destruct H as [H|[-> | ->]]; [done|done|]. by rewrite andb_false_r.
Qed.

Lemma decide_step_safety_lock (agent : AIActionDecider) (w : readings) (prediction : string)
    (data : gmap string Py.value) (s : system) :
  safety_lock (decide_step agent w prediction data s) = safety_lock s.
Proof.
  unfold decide_step. by destruct (decide_action _ _ _ _ _) as [[? ?] ?].
Qed.

(** The handler for a reading it accepts. *)
Lemma handle_accepted (t : trace) (agent : AIActionDecider) (prediction : string) :
  is_valid_schema c first = Py.Ok true →
  first ≠ ∅ →
  run_prediction c first = Py.Ok prediction →
  ai_agent self = Some agent →
  autonomy_engine self = true →
  heuristic_engine self = true →
  handle t
  = let field_id := first !! "field_id" in
    let after := decided agent world prediction first
                   (called [IsValidSchema first; RunPrediction first] t) in
    match (decide_action agent world prediction first (status (sys t))).1.1 with
    | Py.Raise e => (after, Py.Raise e)
    | Py.Ok _ =>
      match execute_action c "action" field_id with
      | Py.Ok result =>
        (called [UpdateLastDecision "reason"; ExecuteAction "action" field_id;
                 LearnFromFeedback (default (Py.VStr "action") (result !! "rule_id"))
                   field_id (default (Py.VBool false) (result !! "success"))] after,
         Py.Ok (Processed prediction "action" "reason" result (safety_lock (sys t))))
      | Py.Raise e =>
        if Py.is_exception e then
          (called [UpdateLastDecision "reason"; ExecuteAction "action" field_id;
                   LearnFromFeedback (Py.VStr "action") field_id (Py.VBool false)] after,
           Py.Ok (Processed prediction "action" "reason"
                    {[ "status" := Py.VStr "execution_failed";
                       "error" := Py.VStr (str_of_error c e);
                       "success" := Py.VBool false ]}
                    (safety_lock (sys t))))
        else (called [UpdateLastDecision "reason"; ExecuteAction "action" field_id] after,
              Py.Raise e)
      end
    end.
Proof.
  intros Hv Hne Hp Ha He Hh.
  rewrite handle_unfold, Hv, bool_decide_eq_false_2, Hp, Ha, He, Hh by done. simpl.
  unfold mbind at 1. unfold action_bind at 1. rewrite decide_spec.
  change (sys (called [IsValidSchema first; RunPrediction first] t)) with (sys t).
  destruct (decide_action agent world prediction first (status (sys t))).1.1 as [d0|e0];
    [|done].
  unfold mbind, action_bind, invoke, execute_and_learn, read_safety_lock, called, mret,
    action_ret. simpl.
  destruct (execute_action c "action" (first !! "field_id")) as [result|e]; simpl.
  - by rewrite <- !app_assoc, decide_step_safety_lock.
  - destruct (Py.is_exception e); simpl;
      by rewrite <- !app_assoc, ?decide_step_safety_lock.
Qed.

(** X23: the handler unpacks the dictionary of the decision into its keys.
    For every reading it accepts, if the decision returns, the action it
    hands to the executor and reports is the string ["action"] and the
    explanation is ["reason"], whatever the agent decided; the decision only
    shows in the status and the log the call of [decide_action] leaves.  An
    error of the decision leaves the method; so does an error of the executor
    that does not derive from [Exception], while one that does is answered
    with a failure report. *)
Theorem ingestion_ignores_the_decision (t : trace) (agent : AIActionDecider)
    (prediction : string) :
  is_valid_schema c first = Py.Ok true →
  first ≠ ∅ →
  run_prediction c first = Py.Ok prediction →
  ai_agent self = Some agent →
  autonomy_engine self = true →
  heuristic_engine self = true →
  let field_id := first !! "field_id" in
  let after := decided agent world prediction first
                 (called [IsValidSchema first; RunPrediction first] t) in
  (∀ e, (decide_action agent world prediction first (status (sys t))).1.1 = Py.Raise e →
        handle t = (after, Py.Raise e))
  ∧ (∀ d, (decide_action agent world prediction first (status (sys t))).1.1 = Py.Ok d →
       (∀ result, execute_action c "action" field_id = Py.Ok result →
          handle t
          = (called [UpdateLastDecision "reason"; ExecuteAction "action" field_id;
                     LearnFromFeedback (default (Py.VStr "action") (result !! "rule_id"))
                       field_id (default (Py.VBool false) (result !! "success"))] after,
             Py.Ok (Processed prediction "action" "reason" result (safety_lock (sys t)))))
       ∧ (∀ e, execute_action c "action" field_id = Py.Raise e →
            handle t
            = if Py.is_exception e then
                (called [UpdateLastDecision "reason"; ExecuteAction "action" field_id;
                         LearnFromFeedback (Py.VStr "action") field_id (Py.VBool false)] after,
                 Py.Ok (Processed prediction "action" "reason"
                          {[ "status" := Py.VStr "execution_failed";
                             "error" := Py.VStr (str_of_error c e);
                             "success" := Py.VBool false ]}
                          (safety_lock (sys t))))
              else (called [UpdateLastDecision "reason"; ExecuteAction "action" field_id] after,
                    Py.Raise e))).
Proof.
  intros Hv Hne Hp Ha He Hh field_id after.
  rewrite (handle_accepted t agent prediction Hv Hne Hp Ha He Hh).
  cbv zeta. subst field_id after.
  destruct (decide_action agent world prediction first (status (sys t))).1.1 as [d0|e0].
  - split; [done|]. intros d _. split.
    + by intros result' ->.
    + by intros e ->.
  - split; [by intros e [= ->]|done].
Qed.

End ingestion.

Lemma sample_reading_not_empty : Sample.sensor_data ≠ ∅.
Proof.
  intros H.
  assert (F : Sample.sensor_data !! "field_id" = Some (Py.VStr "F1")) by evaluate.
  rewrite H in F. by rewrite lookup_empty in F.
Qed.

Lemma ingestion_rejections_witness :
  DataIngestionHandler.handle_data_ingestion
    {| DataIngestionHandler.ai_agent := None; DataIngestionHandler.autonomy_engine := true;
       DataIngestionHandler.heuristic_engine := true |}
    Requests.collaborators Sample.world [Sample.sensor_data] (Requests.fresh Sample.booted)
  = (called [DataIngestionHandler.IsValidSchema Sample.sensor_data;
             DataIngestionHandler.RunPrediction Sample.sensor_data]
       (Requests.fresh Sample.booted),
     Py.Ok DataIngestionHandler.NotInitialized).
Proof.
  refine (proj2 (proj2 (proj2 (proj2 (ingestion_rejections
            {| DataIngestionHandler.ai_agent := None;
               DataIngestionHandler.autonomy_engine := true;
               DataIngestionHandler.heuristic_engine := true |} Requests.collaborators
            Sample.world Sample.sensor_data [] (Requests.fresh Sample.booted)))) _
            sample_reading_not_empty)
            "DROUGHT" eq_refl (or_introl eq_refl)).
  evaluate.
Defined.

Lemma ingestion_ignores_the_decision_witness :
  (decide_action (Sample.agent [Sample.dry_soil] 8 100) Sample.world "DROUGHT"
     Sample.sensor_data ai_agent_status).1.1
  = Py.Ok {[ "action" := JStr "ACTION: PUMP_WATER"; "reason" := JStr "Dry soil (Conf: 1.00)" ]}
  ∧ ∃ t', DataIngestionHandler.handle_data_ingestion Requests.handler Requests.collaborators
            Sample.world [Sample.sensor_data] (Requests.fresh Sample.booted)
          = (t', Py.Ok (DataIngestionHandler.Processed "DROUGHT" "action" "reason"
                          {[ "success" := Py.VBool true ]} true)).
Proof.
  assert (E : (decide_action (Sample.agent [Sample.dry_soil] 8 100) Sample.world "DROUGHT"
                 Sample.sensor_data ai_agent_status).1.1
              = Py.Ok {[ "action" := JStr "ACTION: PUMP_WATER";
                         "reason" := JStr "Dry soil (Conf: 1.00)" ]}) by evaluate.
  split; [exact E|]. eexists.
  refine (proj1 (proj2 (ingestion_ignores_the_decision Requests.handler Requests.collaborators
                          Sample.world Sample.sensor_data [] (Requests.fresh Sample.booted)
                          (Sample.agent [Sample.dry_soil] 8 100) "DROUGHT"
                          _ sample_reading_not_empty eq_refl eq_refl eq_refl eq_refl)
                   _ E) _ eq_refl).
  evaluate.
Defined.

(** ** The integrity check of the launcher *)

Lemma add_file_paths (join : string → string → string) (root file : string)
    (sc : Integrity.scan) :
  Integrity.all_file_paths (Integrity.add_file join root file sc)
  = <[file := join root file]> (Integrity.all_file_paths sc).
Proof. unfold Integrity.add_file. by destruct (Integrity.classify file) as [[]|]. Qed.

Lemma add_file_web (join : string → string → string) (root file : string)
    (sc : Integrity.scan) (f : string) :
  f ∈ Integrity.inventory_web (Integrity.add_file join root file sc) →
  f ∈ Integrity.inventory_web sc
  ∨ (f = file ∧ Integrity.classify file = Some Integrity.WebFile).
Proof.
  unfold Integrity.add_file.
  destruct (Integrity.classify file) as [[]|]; simpl; try (by left).
  rewrite elem_of_app, list_elem_of_singleton. intros [H| ->]; [by left|by right].
Qed.

Lemma add_file_inventory (join : string → string → string) (root file : string)
    (sc : Integrity.scan) (f : string) :
  f ∈ Integrity.inventory_py (Integrity.add_file join root file sc)
      ++ Integrity.inventory_web (Integrity.add_file join root file sc)
      ++ Integrity.inventory_json (Integrity.add_file join root file sc)
      ++ Integrity.inventory_assets (Integrity.add_file join root file sc) →
  f ∈ Integrity.inventory_py sc ++ Integrity.inventory_web sc
      ++ Integrity.inventory_json sc ++ Integrity.inventory_assets sc
  ∨ f = file.
Proof.
  unfold Integrity.add_file.
  destruct (Integrity.classify file) as [[]|]; simpl;
    rewrite !elem_of_app, ?list_elem_of_singleton; tauto.
Qed.

Lemma add_file_well_filed (join : string → string → string) (root file : string)
    (sc : Integrity.scan) :
  well_filed sc → well_filed (Integrity.add_file join root file sc).
Proof.
  intros [Hweb Hpaths]. split.
  - intros f Hf. apply add_file_web in Hf as [Hf|[-> Hc]]; [by apply Hweb|done].
  - intros f Hf. rewrite add_file_paths.
    apply add_file_inventory in Hf as [Hf| ->]; [|by rewrite lookup_insert_eq].
    destruct (decide (file = f)) as [->|Hne]; [by rewrite lookup_insert_eq|].
    rewrite lookup_insert_ne by done. by apply Hpaths.
Qed.

Lemma scan_tree_well_filed (join : string → string → string)
    (tree : list (string * list string)) :
  well_filed (Integrity.scan_tree join tree).
Proof.
  unfold Integrity.scan_tree.
  assert (G : ∀ sc, well_filed sc →
    well_filed (foldl (λ sc '(root, files),
                  if Integrity.skipped root then sc
                  else foldl (λ sc file, Integrity.add_file join root file sc) sc files)
                sc tree)).
  { induction tree as [|[root files] tree IH]; intros sc H; simpl; [done|].
    apply IH. destruct (Integrity.skipped root); [done|].
    clear IH. revert sc H. induction files as [|file files IHf]; intros sc H; simpl; [done|].
    apply IHf. by apply add_file_well_filed. }
  apply G. split; intros f Hf; simpl in Hf; by apply elem_of_nil in Hf.
Qed.

Lemma sum_list_zero {A} (f : A → nat) (l : list A) :
  (∀ x, x ∈ l → f x = 0%nat) → sum_list (f <$> l) = 0%nat.
Proof.
  induction l as [|x l IH]; intros H; csimpl; [done|].
  rewrite H by apply list_elem_of_here. rewrite IH; [done|].
  intros y Hy. apply H. by apply list_elem_of_further.
Qed.


(** X24: two of the cross checks of the integrity check can never report
    anything.  The linkage check looks for inventoried names that have no
    recorded path, and the JSON check for inventoried JSON files that are not
    in the JSON inventory: whatever the directory tree and the file contents,
    both add 0 to the error count, and every inventoried name has a path. *)
Theorem cross_checks_never_fire (join : string → string → string)
    (tree : list (string * list string)) (read : string → string) :
  let sc := Integrity.scan_tree join tree in
  Integrity.linkage_errors sc read = 0%nat
  ∧ Integrity.data_ghosts sc read = 0%nat
  ∧ ∀ f, f ∈ Integrity.inventory_py sc ++ Integrity.inventory_web sc
             ++ Integrity.inventory_json sc ++ Integrity.inventory_assets sc →
         is_Some (Integrity.all_file_paths sc !! f).
Proof.
  intros sc. destruct (scan_tree_well_filed join tree) as [Hweb Hpaths].
  fold sc in Hweb, Hpaths. split; [|split; [|done]].
  - unfold Integrity.linkage_errors. apply sum_list_zero. intros html Hh.
    destruct (Integrity.ends_with ".html" html); [|done].
    apply sum_list_zero. intros asset Ha.
    rewrite bool_decide_eq_true_2; [by rewrite andb_false_r|].
    apply Hpaths. rewrite !elem_of_app in *. tauto.
  - unfold Integrity.data_ghosts. apply sum_list_zero. intros py_file Hp.
    destruct (contains ".json" _); [|done].
    apply sum_list_zero. intros j_file Hj.
    rewrite bool_decide_eq_true_2 by done. by rewrite andb_false_r.
Qed.


